(** * basic-ftp: the FTP client of [lib/ftp.js]

    A shallow embedding of [lib/ftp.js] (class [Client] and the protocol
    operations built on it) together with the properties of its
    specification.

    Conventions of the embedding.
    - A JavaScript string is a [string]: a sequence of code units, here the
      code units below 256.
    - A JavaScript number is a [number]: [NaN], an infinity, or an integer
      that a double represents exactly ([-0] is identified with [0]: the
      operators the source applies, [===], [<], [>], [>=], [&], [*], [+],
      do not tell them apart).
    - The client object, its sockets, the promises it hands out and the log
      sink form one [world]; every method is a computation over the world
      that returns a value or throws. *)

From Stdlib Require Import ZArith Lia Bool List String Ascii.
Import ListNotations.

Local Open Scope string_scope.
Local Open Scope Z_scope.

(* ===================================================================== *)
(** * JavaScript values used by the source                               *)
(* ===================================================================== *)

Module JS.

(** ** Numbers *)

Inductive number : Type :=
| NaN
| Infinity (negative : bool)
| Num (z : Z).

Definition number_eqb (a b : number) : bool :=
  match a, b with
  | Num x, Num y => x =? y
  | Infinity s, Infinity t => Bool.eqb s t
  | _, _ => false  (* NaN === NaN is false *)
  end.

(** [a < b] on numbers; any comparison with [NaN] is false. *)
Definition number_ltb (a b : number) : bool :=
  match a, b with
  | NaN, _ | _, NaN => false
  | Num x, Num y => x <? y
  | Infinity s, Infinity t => s && negb t
  | Infinity s, Num _ => s
  | Num _, Infinity t => negb t
  end.

Definition number_leb (a b : number) : bool :=
  match a, b with
  | NaN, _ | _, NaN => false
  | _, _ => negb (number_ltb b a)
  end.

(** ToBoolean of a number: [NaN] and [0] are falsy. *)
Definition number_truthy (a : number) : bool :=
  match a with
  | NaN => false
  | Num z => negb (z =? 0)
  | Infinity _ => true
  end.

(** Round an integer to the nearest double (ties to even).  Integers of
    magnitude below [2^53] are exact; from [2^1024] on the result is an
    infinity. *)
Definition round_magnitude (m : Z) : Z :=
  if m <? 2 ^ 53 then m
  else
    let e := Z.log2 m - 52 in
    let q := m / 2 ^ e in
    let r := m mod 2 ^ e in
    let half := 2 ^ (e - 1) in
    let q' := if r <? half then q
              else if half <? r then q + 1
              else if Z.even q then q else q + 1 in
    q' * 2 ^ e.

Definition to_double (z : Z) : number :=
  let m := round_magnitude (Z.abs z) in
  if 2 ^ 1024 <=? m then Infinity (z <? 0)
  else Num (Z.sgn z * m).

(** ToInt32: the operand conversion of the bitwise operators. *)
Definition ToInt32 (a : number) : Z :=
  match a with
  | Num z => (z + 2 ^ 31) mod 2 ^ 32 - 2 ^ 31
  | _ => 0
  end.

(** [a & b] *)
Definition bitand (a b : number) : number :=
  Num (Z.land (ToInt32 a) (ToInt32 b)).

(** [a * b] and [a + b], needed on small integers only (the results of
    [&] with 255 and the constant 256), where double arithmetic is exact. *)
Definition mul (a b : number) : number :=
  match a, b with
  | Num x, Num y => to_double (x * y)
  | _, _ => NaN
  end.

Definition add (a b : number) : number :=
  match a, b with
  | Num x, Num y => to_double (x + y)
  | _, _ => NaN
  end.

(** ** Characters *)

Definition code (c : ascii) : Z := Z.of_nat (nat_of_ascii c).

(** WhiteSpace and LineTerminator code units below 256:
    TAB, LF, VT, FF, CR, SP, NBSP. *)
Definition is_white (c : ascii) : bool :=
  let n := code c in
  ((9 <=? n) && (n <=? 13)) || (n =? 32) || (n =? 160).

(** [\d] *)
Definition is_digit (c : ascii) : bool :=
  let n := code c in (48 <=? n) && (n <=? 57).

Definition digit_value (c : ascii) : Z := code c - 48.

(** ** Strings *)

(** [s.substr(0, n)] *)
Fixpoint substr0 (n : nat) (s : string) : string :=
  match n, s with
  | S n', String c s' => String c (substr0 n' s')
  | _, _ => ""
  end.

Fixpoint trimStart (s : string) : string :=
  match s with
  | String c s' => if is_white c then trimStart s' else s
  | "" => ""
  end.

Fixpoint trimEnd (s : string) : string :=
  match s with
  | String c s' =>
      match trimEnd s' with
      | "" => if is_white c then "" else String c ""
      | r => String c r
      end
  | "" => ""
  end.

(** [s.trim()] *)
Definition trim (s : string) : string := trimEnd (trimStart s).

(** [hay.indexOf(needle)]; [-1] when there is no occurrence. *)
Fixpoint indexOf_from (needle hay : string) (i : Z) : Z :=
  if String.prefix needle hay then i
  else match hay with
       | String _ hay' => indexOf_from needle hay' (i + 1)
       | "" => -1
       end.

Definition indexOf (hay needle : string) : Z := indexOf_from needle hay 0.

(** [s.replace(/,/g, ".")] *)
Fixpoint replace_commas (s : string) : string :=
  match s with
  | String c s' =>
      String (if Ascii.eqb c "," then "."%char else c) (replace_commas s')
  | "" => ""
  end.

(** ** parseInt(s, 10) *)

(** The value of the longest prefix of decimal digits, after [acc]. *)
Fixpoint digits_value (s : string) (acc : Z) : Z :=
  match s with
  | String c s' =>
      if is_digit c then digits_value s' (10 * acc + digit_value c) else acc
  | "" => acc
  end.

Definition starts_with_digit (s : string) : bool :=
  match s with
  | String c _ => is_digit c
  | "" => false
  end.

(** Leading white space is skipped, one sign is accepted, the longest run
    of digits is read (radix 10 is given, so no [0x] prefix is stripped);
    without a digit the result is [NaN].  The mathematical value is then
    rounded to a double (ECMAScript lets an implementation replace the
    digits after the 20th by zeros; the value is taken exactly here, as V8
    does). *)
Definition parseInt (s : string) : number :=
  let s1 := trimStart s in
  let '(negative, s2) :=
    match s1 with
    | String c r =>
        if Ascii.eqb c "-" then (true, r)
        else if Ascii.eqb c "+" then (false, r)
        else (false, s1)
    | "" => (false, s1)
    end in
  if starts_with_digit s2
  then to_double (if negative then - digits_value s2 0 else digits_value s2 0)
  else NaN.

End JS.

(* ===================================================================== *)
(** * Regular expressions, as far as [regexPasv] needs them              *)
(* ===================================================================== *)

Module Regex.
Import JS.

(** The constructs that occur in [regexPasv]: a literal character, a
    greedily repeated character class [[...]+], concatenation and a capturing
    group.  Groups are numbered as they close, which is the order of their
    opening parentheses when no group is nested in another. *)
Inductive regex : Type :=
| Chr (c : ascii)
| ClassPlus (p : ascii -> bool)
| Seq (a b : regex)
| Group (a : regex).

Section Matcher.
Context {R : Type}.

(** [[p]+] at [s], with what remains passed to the continuation [k]: the
    longest run is tried first, then every shorter one down to a single
    character (backtracking). *)
Fixpoint class_plus (p : ascii -> bool) (s : string)
    (k : string -> option R) : option R :=
  match s with
  | String c s' =>
      if p c then
        match class_plus p s' k with
        | Some r => Some r
        | None => k s'
        end
      else None
  | "" => None
  end.

(** Backtracking matcher in continuation-passing style: [k] receives the
    rest of the input and the captures made so far. *)
Fixpoint exec (r : regex) (s : string) (caps : list string)
    (k : string -> list string -> option R) : option R :=
  match r with
  | Chr c =>
      match s with
      | String d s' => if Ascii.eqb c d then k s' caps else None
      | "" => None
      end
  | ClassPlus p => class_plus p s (fun s' => k s' caps)
  | Seq a b => exec a s caps (fun s1 caps1 => exec b s1 caps1 k)
  | Group a =>
      exec a s caps (fun s' caps' =>
        k s' (caps' ++ [substr0 (String.length s - String.length s') s])%list)
  end.
End Matcher.

(** A match anchored at the start of [s]: the whole match followed by the
    captures, like the array [String.prototype.match] returns. *)
Definition match_here (r : regex) (s : string) : option (list string) :=
  exec r s [] (fun s' caps =>
    Some (substr0 (String.length s - String.length s') s :: caps)).

(** [s.match(r)] for a regular expression without the [g] flag: the
    leftmost match, or [None] for [null]. *)
Fixpoint String_match (r : regex) (s : string) : option (list string) :=
  match match_here r s with
  | Some groups => Some groups
  | None =>
      match s with
      | String _ s' => String_match r s'
      | "" => None
      end
  end.

End Regex.

(* ===================================================================== *)
(** * parseIPV4PasvResponse                                              *)
(* ===================================================================== *)

Module Pasv.
Import JS Regex.

(** [[-\d]] *)
Definition hyphen_or_digit (c : ascii) : bool :=
  Ascii.eqb c "-" || is_digit c.

Definition num : regex := ClassPlus hyphen_or_digit.
Definition comma : regex := Chr ",".

(** [/([-\d]+,[-\d]+,[-\d]+,[-\d]+),([-\d]+),([-\d]+)/] *)
Definition regexPasv : regex :=
  Seq (Group (Seq num (Seq comma (Seq num (Seq comma (Seq num (Seq comma num)))))))
      (Seq comma (Seq (Group num) (Seq comma (Group num)))).

Record target : Type := { host : string; port : number }.

Definition group (groups : list string) (i : nat) : string :=
  nth i groups "".

Definition parseIPV4PasvResponse (message : string) : option target :=
  match String_match regexPasv message with
  | None => None
  | Some groups =>
      if negb (Nat.eqb (List.length groups) 4) then None
      else Some
        {| host := replace_commas (group groups 1);
           port := add (mul (bitand (parseInt (group groups 2)) (Num 255)) (Num 256))
                       (bitand (parseInt (group groups 3)) (Num 255)) |}
  end.

(** Decimal rendering of a non-negative integer, the way a server prints
    the six numbers of a 227 reply. *)
Definition digit_char (d : Z) : ascii := ascii_of_nat (Z.to_nat (48 + d)).

Fixpoint decimal_digits (fuel : nat) (n : Z) (acc : string) : string :=
  let acc' := String (digit_char (n mod 10)) acc in
  match fuel with
  | O => acc'
  | S fuel' => if n <? 10 then acc' else decimal_digits fuel' (n / 10) acc'
  end.

Definition decimal (n : Z) : string := decimal_digits (Z.to_nat n) n "".

(** The payload [a,b,c,d,p1,p2] for host [a.b.c.d] and port [p]. *)
Definition format_pasv (a b c d p : Z) : string :=
  decimal a ++ "," ++ decimal b ++ "," ++ decimal c ++ "," ++ decimal d ++ ","
  ++ decimal (Z.shiftr p 8) ++ "," ++ decimal (Z.land p 255).

Definition dotted_quad (a b c d : Z) : string :=
  decimal a ++ "." ++ decimal b ++ "." ++ decimal c ++ "." ++ decimal d.

(** A text before the payload that the regular expression cannot latch on
    to: it has no comma and does not end in a digit or a hyphen. *)
Fixpoint inert_prefix (u : string) : bool :=
  match u with
  | "" => true
  | String c u' =>
      negb (Ascii.eqb c ",")
      && match u' with
         | "" => negb (hyphen_or_digit c)
         | _ => inert_prefix u'
         end
  end.

(** [s] consists of digits only; of characters of the class [p] only. *)
Fixpoint all_digits (s : string) : bool :=
  match s with
  | String c s' => is_digit c && all_digits s'
  | "" => true
  end.

Fixpoint all_chars (p : ascii -> bool) (s : string) : bool :=
  match s with
  | String c s' => p c && all_chars p s'
  | "" => true
  end.

(** The class [p] does not go on at the start of [rest]. *)
Definition stops (p : ascii -> bool) (rest : string) : bool :=
  match rest with
  | String c _ => negb (p c)
  | "" => true
  end.

(** A text after the payload that does not prolong its last number. *)
Definition inert_suffix (v : string) : bool :=
  match v with
  | "" => true
  | String c _ => negb (hyphen_or_digit c)
  end.

End Pasv.

(* ===================================================================== *)
(** * The world: client object, sockets, promises, log sink              *)
(* ===================================================================== *)

Module World.
Import JS Pasv.

Definition sock_id := nat.
Definition task_id := nat.
Definition buf_id := nat.

(** What an error signal carries: an [Error] object (socket errors, TLS
    authorization errors) or a plain string (["Timeout"]). *)
Inductive error_value : Type :=
| ErrorObject (message : string)
| ErrorString (s : string).

(** ToBoolean: an object is truthy, a string is truthy unless empty. *)
Definition error_truthy (e : error_value) : bool :=
  match e with
  | ErrorObject _ => true
  | ErrorString s => negb (String.eqb s "")
  end.

(** The payload given to [_respond]: [{ code, message }] from the control
    socket, [{ error }] from an error or timeout event. *)
Inductive payload : Type :=
| Response (code : number) (message : string)
| Failure (error : error_value).

(** Values a promise is settled with. *)
Inductive value : Type :=
| VUndefined
| VNumber (n : number)
| VString (s : string)
| VPayload (res : payload)
| VError (e : error_value)
| VTypeError (what : string)
| VRangeError (what : string)
| VListing (rawList : string).   (* the result of [parseList(rawList)] *)

Inductive promise : Type :=
| Pending
| Resolved (v : value)
| Rejected (v : value).

(** The options of [tls.connect] the source looks at. *)
Record tls_options : Type := { rejectUnauthorized : option bool }.

(** What a handler given to [handle] by a caller of the library may do with
    a payload, in order. *)
Inductive action : Type :=
| Resolve (v : value)
| Reject (v : value)
| Write (command : string).

(** The functions passed to [handle]: one per operation of the library,
    with the variables its closure captures, and the handlers of callers. *)
Inductive handler : Type :=
| connect_handler
| send_handler (ignoreErrorCodes : bool)
| useTLS_handler (options : tls_options)
| enterPassiveMode_handler (parsePasvResponse : string -> option target)
| list_handler (buf : buf_id)
| upload_handler
| download_handler (remoteFilename : string)
| custom_handler (f : payload -> list action).

(** The functions registered on sockets with [on] and [once]. *)
Inductive listener : Type :=
| error_listener             (* error => this._respond({ error }) *)
| timeout_listener           (* () => this._respond({ error: "Timeout" }) *)
| control_data_listener      (* the "data" listener of [set socket] *)
| list_data_listener (buf : buf_id)
| list_end_listener (task : option task_id) (buf : buf_id)
| dial_error_listener (task : option task_id)
| dial_connect_listener (task : option task_id)
| secure_connect_listener (task : option task_id) (options : tls_options).

Inductive socket_event : Type :=
| ev_data (chunk : string)
| ev_error (message : string)
| ev_timeout
| ev_end
| ev_connect
| ev_secureConnect (authorized : bool) (authorizationError : error_value)
                   (protocol : string).

(** Registered with [once]. *)
Definition is_once (l : listener) : bool :=
  match l with
  | list_end_listener _ _ | dial_error_listener _
  | dial_connect_listener _ | secure_connect_listener _ _ => true
  | _ => false
  end.

(** The event a listener is registered for. *)
Definition listens_to (e : socket_event) (l : listener) : bool :=
  match e, l with
  | ev_data _, (control_data_listener | list_data_listener _) => true
  | ev_error _, (error_listener | dial_error_listener _) => true
  | ev_timeout, timeout_listener => true
  | ev_end, list_end_listener _ _ => true
  | ev_connect, dial_connect_listener _ => true
  | ev_secureConnect _ _ _, secure_connect_listener _ _ => true
  | _, _ => false
  end.

(** A socket object, as far as the source uses it. *)
Record socket : Type := {
  timeout : option Z;                 (* argument of the last [setTimeout] *)
  keepAlive : bool;                   (* [setKeepAlive(true)] was called *)
  listeners : list listener;          (* in registration order *)
  destroyed : nat;                    (* number of [destroy()] calls *)
  written : list string;              (* arguments of [write], in order *)
  dialled : list (number * string);   (* arguments of [connect(port, host)] *)
  secure : bool;                      (* a TLS socket: [getSession] is defined *)
  protocol : string                   (* what [getProtocol()] returns *)
}.

Definition fresh_socket : socket :=
  {| timeout := None; keepAlive := false; listeners := []; destroyed := 0%nat;
     written := []; dialled := []; secure := false; protocol := "" |}.

(** The socket [tls.connect] returns; before the handshake is over
    [getProtocol()] gives ["unknown"]. *)
Definition fresh_tls_socket : socket :=
  {| timeout := None; keepAlive := false; listeners := []; destroyed := 0%nat;
     written := []; dialled := []; secure := true; protocol := "unknown" |}.

Definition with_timeout (t : Z) (s : socket) : socket :=
  {| timeout := Some t; keepAlive := keepAlive s; listeners := listeners s;
     destroyed := destroyed s; written := written s; dialled := dialled s;
     secure := secure s; protocol := protocol s |}.

Definition with_keepAlive (s : socket) : socket :=
  {| timeout := timeout s; keepAlive := true; listeners := listeners s;
     destroyed := destroyed s; written := written s; dialled := dialled s;
     secure := secure s; protocol := protocol s |}.

Definition with_listeners (f : list listener -> list listener) (s : socket) : socket :=
  {| timeout := timeout s; keepAlive := keepAlive s; listeners := f (listeners s);
     destroyed := destroyed s; written := written s; dialled := dialled s;
     secure := secure s; protocol := protocol s |}.

Definition with_destroy (s : socket) : socket :=
  {| timeout := timeout s; keepAlive := keepAlive s; listeners := listeners s;
     destroyed := S (destroyed s); written := written s; dialled := dialled s;
     secure := secure s; protocol := protocol s |}.

Definition with_write (data : string) (s : socket) : socket :=
  {| timeout := timeout s; keepAlive := keepAlive s; listeners := listeners s;
     destroyed := destroyed s; written := (written s ++ [data])%list;
     dialled := dialled s; secure := secure s; protocol := protocol s |}.

Definition with_dial (port : number) (host : string) (s : socket) : socket :=
  {| timeout := timeout s; keepAlive := keepAlive s; listeners := listeners s;
     destroyed := destroyed s; written := written s;
     dialled := (dialled s ++ [(port, host)])%list;
     secure := secure s; protocol := protocol s |}.

Definition with_protocol (p : string) (s : socket) : socket :=
  {| timeout := timeout s; keepAlive := keepAlive s; listeners := listeners s;
     destroyed := destroyed s; written := written s; dialled := dialled s;
     secure := secure s; protocol := p |}.

(** The fields of a [Client] object. *)
Record client : Type := {
  _timeoutMillis : Z;
  _task : option task_id;
  _handler : option handler;
  tlsOptions : tls_options;
  verbose : bool;
  _socket : option sock_id;
  _dataSocket : option sock_id
}.

(** A stream piped to or from a data socket by [upload] and [download]. *)
Inductive pipe : Type :=
| readable_to (s : sock_id)      (* readableStream.pipe(dataSocket) *)
| to_writable (s : sock_id).     (* dataSocket.pipe(writableStream) *)

(** The rest of an [async] function of the source: a chain of awaited
    [send] calls. *)
Inductive prog : Type :=
| Done
| Await_send (command : string) (ignoreErrorCodes : bool) (next : prog)
| If_hasTLS (thn els : prog).

(** An [async] function suspended at an [await]. *)
Record script : Type := {
  awaiting : task_id;
  continuation : prog;
  result : task_id
}.

Record world : Type := {
  this : client;
  sockets : list socket;       (* the socket objects, by identity *)
  promises : list promise;     (* the promises, by identity *)
  buffers : list string;       (* the [list] variable of each [list()] call *)
  console : list string;       (* what [console.log] has printed *)
  pipes : list pipe;
  suspended : list script
}.

Definition set_this (f : client -> client) (w : world) : world :=
  {| this := f (this w); sockets := sockets w; promises := promises w;
     buffers := buffers w; console := console w; pipes := pipes w;
     suspended := suspended w |}.

Definition set_sockets (f : list socket -> list socket) (w : world) : world :=
  {| this := this w; sockets := f (sockets w); promises := promises w;
     buffers := buffers w; console := console w; pipes := pipes w;
     suspended := suspended w |}.

Definition set_promises (f : list promise -> list promise) (w : world) : world :=
  {| this := this w; sockets := sockets w; promises := f (promises w);
     buffers := buffers w; console := console w; pipes := pipes w;
     suspended := suspended w |}.

Definition set_buffers (f : list string -> list string) (w : world) : world :=
  {| this := this w; sockets := sockets w; promises := promises w;
     buffers := f (buffers w); console := console w; pipes := pipes w;
     suspended := suspended w |}.

Definition set_console (f : list string -> list string) (w : world) : world :=
  {| this := this w; sockets := sockets w; promises := promises w;
     buffers := buffers w; console := f (console w); pipes := pipes w;
     suspended := suspended w |}.

Definition set_pipes (f : list pipe -> list pipe) (w : world) : world :=
  {| this := this w; sockets := sockets w; promises := promises w;
     buffers := buffers w; console := console w; pipes := f (pipes w);
     suspended := suspended w |}.

Definition set_suspended (f : list script -> list script) (w : world) : world :=
  {| this := this w; sockets := sockets w; promises := promises w;
     buffers := buffers w; console := console w; pipes := pipes w;
     suspended := f (suspended w) |}.

Definition set_task (t : option task_id) (c : client) : client :=
  {| _timeoutMillis := _timeoutMillis c; _task := t; _handler := _handler c;
     tlsOptions := tlsOptions c; verbose := verbose c; _socket := _socket c;
     _dataSocket := _dataSocket c |}.

Definition set_handler (h : option handler) (c : client) : client :=
  {| _timeoutMillis := _timeoutMillis c; _task := _task c; _handler := h;
     tlsOptions := tlsOptions c; verbose := verbose c; _socket := _socket c;
     _dataSocket := _dataSocket c |}.

Definition set_tlsOptions (o : tls_options) (c : client) : client :=
  {| _timeoutMillis := _timeoutMillis c; _task := _task c; _handler := _handler c;
     tlsOptions := o; verbose := verbose c; _socket := _socket c;
     _dataSocket := _dataSocket c |}.

Definition set_verbose (b : bool) (c : client) : client :=
  {| _timeoutMillis := _timeoutMillis c; _task := _task c; _handler := _handler c;
     tlsOptions := tlsOptions c; verbose := b; _socket := _socket c;
     _dataSocket := _dataSocket c |}.

Definition set__socket (s : option sock_id) (c : client) : client :=
  {| _timeoutMillis := _timeoutMillis c; _task := _task c; _handler := _handler c;
     tlsOptions := tlsOptions c; verbose := verbose c; _socket := s;
     _dataSocket := _dataSocket c |}.

Definition set__dataSocket (s : option sock_id) (c : client) : client :=
  {| _timeoutMillis := _timeoutMillis c; _task := _task c; _handler := _handler c;
     tlsOptions := tlsOptions c; verbose := verbose c; _socket := _socket c;
     _dataSocket := s |}.

(** [l[i] = f(l[i])]; nothing happens when [i] names no object. *)
Fixpoint update {A : Type} (i : nat) (f : A -> A) (l : list A) : list A :=
  match l, i with
  | [], _ => []
  | x :: l', O => f x :: l'
  | x :: l', S i' => x :: update i' f l'
  end.

(** ** Computations over the world *)

Inductive outcome (A : Type) : Type :=
| Return (a : A) (w : world)
| Throw (e : value) (w : world).
Arguments Return {A} a w.
Arguments Throw {A} e w.

Definition M (A : Type) : Type := world -> outcome A.

Definition ret {A : Type} (a : A) : M A := fun w => Return a w.

Definition bind {A B : Type} (m : M A) (k : A -> M B) : M B :=
  fun w =>
    match m w with
    | Return a w' => k a w'
    | Throw e w' => Throw e w'
    end.

Definition throw {A : Type} (e : value) : M A := fun w => Throw e w.

Definition get {A : Type} (f : world -> A) : M A := fun w => Return (f w) w.

Definition modify (f : world -> world) : M unit := fun w => Return tt (f w).

(** [try { m } catch (e) { h(e) }] *)
Definition try_catch {A : Type} (m : M A) (h : value -> M A) : M A :=
  fun w =>
    match m w with
    | Return a w' => Return a w'
    | Throw e w' => h e w'
    end.

Definition final {A : Type} (o : outcome A) : world :=
  match o with
  | Return _ w => w
  | Throw _ w => w
  end.

Definition returns {A : Type} (o : outcome A) : bool :=
  match o with
  | Return _ _ => true
  | Throw _ _ => false
  end.

Fixpoint for_each {A : Type} (f : A -> M unit) (l : list A) : M unit :=
  match l with
  | [] => ret tt
  | x :: l' => bind (f x) (fun _ => for_each f l')
  end.

End World.

Notation "x <- m ;; k" := (World.bind m (fun x => k))
  (at level 61, m at next level, right associativity).
Notation "m ;; k" := (World.bind m (fun _ => k))
  (at level 61, right associativity).

(* ===================================================================== *)
(** * class Client                                                       *)
(* ===================================================================== *)

Module Client.
Import JS World.

Definition CRLF : string := String (ascii_of_nat 13) (String (ascii_of_nat 10) "").

Definition TypeError_undefined : value :=
  VTypeError "Cannot read property of undefined".

(** Method calls on a socket object. *)
Definition on_socket (s : sock_id) (f : socket -> socket) : M unit :=
  modify (set_sockets (update s f)).

Definition add_listener (l : listener) : socket -> socket :=
  with_listeners (fun ls => ls ++ [l])%list.

Definition removeAllListeners : socket -> socket :=
  with_listeners (fun _ => []).

(** A property of a socket object; [None] when [s] names no object. *)
Definition socket_get {A : Type} (s : sock_id) (field : socket -> A) : M (option A) :=
  get (fun w => option_map field (nth_error (sockets w) s)).

(** [new Socket()], [tls.connect(...)]: a new object. *)
Definition new_socket (init : socket) : M sock_id :=
  n <- get (fun w => List.length (sockets w)) ;;
  modify (set_sockets (fun l => l ++ [init])%list) ;;
  ret n.

(** [new Promise(...)] *)
Definition new_promise : M task_id :=
  n <- get (fun w => List.length (promises w)) ;;
  modify (set_promises (fun l => l ++ [Pending])%list) ;;
  ret n.

Definition promise_at (t : task_id) : M (option promise) :=
  get (fun w => nth_error (promises w) t).

(** [resolvePromise(v)] and [rejectPromise(v)]: a promise that is already
    settled stays as it is. *)
Definition settle (t : task_id) (p : promise) : M unit :=
  modify (set_promises (update t (fun old =>
    match old with
    | Pending => p
    | _ => old
    end))).

(** [constructor] up to the two socket assignments: the fields as the
    first five statements leave them. *)
Definition blank (timeoutMillis : Z) : world :=
  {| this := {| _timeoutMillis := timeoutMillis; _task := None; _handler := None;
                tlsOptions := {| rejectUnauthorized := None |}; verbose := false;
                _socket := None; _dataSocket := None |};
     sockets := []; promises := []; buffers := []; console := []; pipes := [];
     suspended := [] |}.

Definition log (message : string) : M unit :=
  v <- get (fun w => verbose (this w)) ;;
  if v then modify (set_console (fun out => out ++ [message])%list) else ret tt.

Definition _closeSocket (socket : option sock_id) : M unit :=
  match socket with
  | Some s => on_socket s with_destroy
  | None => ret tt
  end.

Definition close : M unit :=
  log "Closing sockets." ;;
  s <- get (fun w => _socket (this w)) ;;
  _closeSocket s ;;
  d <- get (fun w => _dataSocket (this w)) ;;
  _closeSocket d.

(** [socket.setTimeout(msecs)]: a negative number of milliseconds is
    refused with a [RangeError]; 0 disables the idle timeout. *)
Definition RangeError_msecs : value :=
  VRangeError "The value of msecs is out of range".

Definition setTimeout (s : sock_id) (msecs : Z) : M unit :=
  if msecs <? 0 then throw RangeError_msecs
  else on_socket s (with_timeout msecs).

Definition _setupSocket (newSocket oldSocket : option sock_id) : M (option sock_id) :=
  match oldSocket with
  | Some o => on_socket o removeAllListeners
  | None => ret tt
  end ;;
  match newSocket with
  | Some n =>
      t <- get (fun w => _timeoutMillis (this w)) ;;
      setTimeout n t ;;
      on_socket n (add_listener error_listener) ;;
      on_socket n (add_listener timeout_listener)
  | None => ret tt
  end ;;
  ret newSocket.

(** [set socket(socket)] *)
Definition set_socket (socket : option sock_id) : M unit :=
  old <- get (fun w => _socket (this w)) ;;
  s <- _setupSocket socket old ;;
  modify (set_this (set__socket s)) ;;
  match s with
  | Some n =>
      on_socket n with_keepAlive ;;
      on_socket n (add_listener control_data_listener)
  | None => ret tt
  end.

(** [set dataSocket(socket)] *)
Definition set_dataSocket (socket : option sock_id) : M unit :=
  old <- get (fun w => _dataSocket (this w)) ;;
  s <- _setupSocket socket old ;;
  modify (set_this (set__dataSocket s)).

(** [get hasTLS] *)
Definition hasTLS : M bool :=
  s <- get (fun w => _socket (this w)) ;;
  match s with
  | Some n =>
      tls <- socket_get n secure ;;
      ret match tls with
          | Some b => b
          | None => false
          end
  | None => ret false
  end.

Definition constructor (timeoutMillis : option Z) : outcome unit :=
  let timeoutMillis :=
    match timeoutMillis with
    | Some t => t
    | None => 0          (* the default of the parameter *)
    end in
  (s <- new_socket fresh_socket ;;
   set_socket (Some s) ;;
   set_dataSocket None) (blank timeoutMillis).

Definition send (command : string) : M unit :=
  let hasPass := negb (indexOf command "PASS" =? -1) in
  let message := if hasPass then "> PASS ###" else "> " ++ command in
  log message ;;
  s <- get (fun w => _socket (this w)) ;;
  match s with
  | Some n => on_socket n (with_write (command ++ CRLF))
  | None => throw TypeError_undefined
  end.

(** The [resolve] and [reject] of the task object made by [handle] for the
    promise [t]; called on [undefined] they throw. *)
Definition task_resolve (task : option task_id) (v : value) : M unit :=
  match task with
  | Some t =>
      modify (set_this (set_handler None)) ;;
      settle t (Resolved v)
  | None => throw TypeError_undefined
  end.

Definition task_reject (task : option task_id) (v : value) : M unit :=
  match task with
  | Some t =>
      modify (set_this (set_handler None)) ;;
      settle t (Rejected v)
  | None => throw TypeError_undefined
  end.

(** [handle(command, handler)]: what the executor throws rejects the new
    promise. *)
Definition handle (command : option string) (handler : handler) : M task_id :=
  p <- new_promise ;;
  try_catch
    (modify (set_this (set_handler (Some handler))) ;;
     modify (set_this (set_task (Some p))) ;;
     match command with
     | Some c => send c
     | None => ret tt
     end)
    (fun e => settle p (Rejected e)) ;;
  ret p.

Section Respond.
(** How a function stored in [_handler] is called. *)
Variable call : handler -> payload -> option task_id -> M unit.

Definition _respond (payload : payload) : M unit :=
  h <- get (fun w => _handler (this w)) ;;
  match h with
  | Some handler =>
      task <- get (fun w => _task (this w)) ;;
      call handler payload task
  | None => ret tt
  end.
End Respond.

End Client.

(* ===================================================================== *)
(** * The operations of the module                                       *)
(* ===================================================================== *)

Module Ftp.
Import JS Pasv World.

(** ** Reading a payload *)

(** [res.code], [res.message], [res.error]; [None] is [undefined]. *)
Definition res_code (res : payload) : option number :=
  match res with
  | Response code _ => Some code
  | Failure _ => None
  end.

Definition res_message (res : payload) : option string :=
  match res with
  | Response _ message => Some message
  | Failure _ => None
  end.

Definition res_error (res : payload) : option error_value :=
  match res with
  | Response _ _ => None
  | Failure e => Some e
  end.

(** [res.code === n] *)
Definition code_is (res : payload) (n : Z) : bool :=
  match res_code res with
  | Some c => number_eqb c (Num n)
  | None => false
  end.

(** [res.code >= n], [res.code < n], [res.code > n]: [undefined] converts
    to [NaN] and every comparison is false. *)
Definition code_ge (res : payload) (n : Z) : bool :=
  match res_code res with
  | Some c => number_leb (Num n) c
  | None => false
  end.

Definition code_lt (res : payload) (n : Z) : bool :=
  match res_code res with
  | Some c => number_ltb c (Num n)
  | None => false
  end.

Definition code_gt (res : payload) (n : Z) : bool :=
  match res_code res with
  | Some c => number_ltb (Num n) c
  | None => false
  end.

(** ToBoolean of [res.code] and of [res.error]. *)
Definition code_truthy (res : payload) : bool :=
  match res_code res with
  | Some c => number_truthy c
  | None => false
  end.

Definition has_error (res : payload) : bool :=
  match res_error res with
  | Some e => error_truthy e
  | None => false
  end.

(** [res.code] as a value. *)
Definition code_value (res : payload) : value :=
  match res_code res with
  | Some c => VNumber c
  | None => VUndefined
  end.

(** ** upgradeSocket

    [tls.connect] returns the TLS socket at once; its callback runs on
    the [secureConnect] event.  The callback settles the promise of
    [upgradeSocket], whose reactions, the [then] and [catch] of [useTLS],
    run before anything else happens; the listener below stands for the
    callback together with these reactions, and so carries the task and
    the options of [useTLS]. *)
Definition upgradeSocket (task : option task_id) (options : tls_options) : M sock_id :=
  Client.new_socket
    (Client.add_listener (secure_connect_listener task options) fresh_tls_socket).

(** ** The handlers *)

Definition perform (task : option task_id) (a : action) : M unit :=
  match a with
  | Resolve v => Client.task_resolve task v
  | Reject v => Client.task_reject task v
  | Write command => Client.send command
  end.

Definition call_handler (h : handler) (res : payload) (task : option task_id) : M unit :=
  match h with
  | connect_handler =>
      if code_is res 220 then Client.task_resolve task VUndefined
      else Client.task_reject task (VPayload res)
  | send_handler ignoreErrorCodes =>
      let success := code_ge res 200 && code_lt res 400 in
      if success || (code_truthy res && ignoreErrorCodes)
      then Client.task_resolve task (code_value res)
      else Client.task_reject task (VPayload res)
  | useTLS_handler options =>
      if code_is res 200 || code_is res 234 then
        _ <- upgradeSocket task options ;; ret tt
      else Client.task_reject task (VPayload res)
  | enterPassiveMode_handler parsePasvResponse =>
      if code_is res 227 then
        match res_message res with
        | None => throw Client.TypeError_undefined
        | Some message =>
            match parsePasvResponse message with
            | None => Client.task_reject task (VString "Can't parse PASV response")
            | Some target =>
                socket <- Client.new_socket fresh_socket ;;
                Client.on_socket socket (Client.add_listener (dial_error_listener task)) ;;
                Client.on_socket socket (with_dial (port target) (host target)) ;;
                Client.on_socket socket (Client.add_listener (dial_connect_listener task))
            end
        end
      else Client.task_reject task (VPayload res)
  | list_handler buf =>
      if code_is res 150 then
        d <- get (fun w => _dataSocket (this w)) ;;
        match d with
        | Some n =>
            Client.on_socket n (Client.add_listener (list_data_listener buf)) ;;
            Client.on_socket n (Client.add_listener (list_end_listener task buf))
        | None => throw Client.TypeError_undefined
        end
      else if code_gt res 400 || has_error res then Client.task_reject task (VPayload res)
      else ret tt
  | upload_handler =>
      if code_is res 150 then
        d <- get (fun w => _dataSocket (this w)) ;;
        match d with
        | Some n => modify (set_pipes (fun l => l ++ [readable_to n])%list)
        | None => throw Client.TypeError_undefined
        end
      else if code_is res 226 then Client.task_resolve task VUndefined
      else if code_gt res 400 || has_error res then Client.task_reject task (VPayload res)
      else ret tt
  | download_handler remoteFilename =>
      if code_is res 150 then
        d <- get (fun w => _dataSocket (this w)) ;;
        match d with
        | Some n => modify (set_pipes (fun l => l ++ [to_writable n])%list)
        | None => throw Client.TypeError_undefined
        end
      else if code_is res 350 then Client.send ("RETR " ++ remoteFilename)
      else if code_is res 226 then Client.task_resolve task VUndefined
      else if code_gt res 400 || has_error res then Client.task_reject task (VPayload res)
      else ret tt
  | custom_handler f => for_each (perform task) (f res)
  end.

Definition _respond : payload -> M unit := Client._respond call_handler.

(** ** The listeners *)

(** The payload the "data" listener of the control socket builds from a
    chunk. *)
Definition response_of (chunk : string) : payload :=
  let message := trim chunk in
  let code := parseInt (substr0 3 message) in
  Response code message.

Definition message_of (res : payload) : string :=
  match res_message res with
  | Some m => m
  | None => ""
  end.

Definition buffer_at (b : buf_id) : M string :=
  get (fun w => nth b (buffers w) "").

(** A listener [l] of socket [s] called for the event [e]. *)
Definition call_listener (s : sock_id) (e : socket_event) (l : listener) : M unit :=
  match l, e with
  | error_listener, ev_error message => _respond (Failure (ErrorObject message))
  | timeout_listener, ev_timeout => _respond (Failure (ErrorString "Timeout"))
  | control_data_listener, ev_data chunk =>
      let res := response_of chunk in
      Client.log ("< " ++ message_of res) ;;
      _respond res
  | list_data_listener buf, ev_data chunk =>
      modify (set_buffers (update buf (fun text => text ++ chunk)))
  | list_end_listener task buf, ev_end =>
      text <- buffer_at buf ;;
      Client.log text ;;
      Client.task_resolve task (VListing text)
  | dial_error_listener task, ev_error message =>
      Client.task_reject task
        (VString ("Can't open data connection in passive mode: " ++ message))
  | dial_connect_listener task, ev_connect =>
      tls <- Client.hasTLS ;;
      socket <- (if tls then
                   d <- Client.new_socket fresh_tls_socket ;;
                   Client.log ("Data socket uses " ++ protocol fresh_tls_socket) ;;
                   ret d
                 else ret s) ;;
      Client.on_socket socket Client.removeAllListeners ;;
      Client.set_dataSocket (Some socket) ;;
      Client.task_resolve task VUndefined
  | secure_connect_listener task options,
    ev_secureConnect authorized authorizationError protocol =>
      Client.on_socket s (with_protocol protocol) ;;
      let expectCertificate :=
        match rejectUnauthorized options with
        | Some false => false
        | _ => true
        end in
      if expectCertificate && negb authorized
      then Client.task_reject task (VError authorizationError)
      else
        try_catch
          (Client.log ("Control socket is using " ++ protocol) ;;
           Client.set_socket (Some s) ;;
           modify (set_this (set_tlsOptions options)) ;;
           Client.task_resolve task VUndefined)
          (fun err => Client.task_reject task err)
  | _, _ => ret tt
  end.

(** [socket.emit(event)]: the listeners registered for the event are
    called in the order of their registration, those registered with
    [once] being removed; an "error" event without a listener is thrown. *)
Definition emit (s : sock_id) (e : socket_event) : M unit :=
  ls <- Client.socket_get s listeners ;;
  match ls with
  | None => ret tt
  | Some ls =>
      let called := filter (listens_to e) ls in
      match e, called with
      | ev_error message, [] => throw (VError (ErrorObject message))
      | _, _ =>
          Client.on_socket s
            (with_listeners (filter (fun l => negb (listens_to e l && is_once l)))) ;;
          for_each (call_listener s e) called
      end
  end.

(** ** The exported functions *)

Definition connect (host : string) (port : number) : M task_id :=
  s <- get (fun w => _socket (this w)) ;;
  match s with
  | Some n => Client.on_socket n (with_dial port host)
  | None => throw Client.TypeError_undefined
  end ;;
  Client.handle None connect_handler.

Definition send (command : string) (ignoreErrorCodes : bool) : M task_id :=
  Client.handle (Some command) (send_handler ignoreErrorCodes).

Definition useTLS (options : tls_options) : M task_id :=
  Client.handle (Some "AUTH TLS") (useTLS_handler options).

Definition enterPassiveMode (parsePasvResponse : option (string -> option target))
  : M task_id :=
  let parsePasvResponse :=
    match parsePasvResponse with
    | Some f => f
    | None => parseIPV4PasvResponse
    end in
  Client.handle (Some "PASV") (enterPassiveMode_handler parsePasvResponse).

Definition upload (remoteFilename : string) : M task_id :=
  let command := "STOR " ++ remoteFilename in
  Client.handle (Some command) upload_handler.

(** [startAt] is an integer; its rendering in the template literal is
    decimal (exact below [10^21]). *)
Definition download (remoteFilename : string) (startAt : Z) : M task_id :=
  let command := if 0 <? startAt then "REST " ++ decimal startAt
                 else "RETR " ++ remoteFilename in
  Client.handle (Some command) (download_handler remoteFilename).

(** ** The async functions *)

(** Run an [async] body up to its next [await] on a pending promise. *)
Fixpoint run_prog (p : prog) (result : task_id) : M unit :=
  match p with
  | Done => Client.settle result (Resolved VUndefined)
  | Await_send command ignoreErrorCodes next =>
      t <- send command ignoreErrorCodes ;;
      st <- Client.promise_at t ;;
      match st with
      | Some (Resolved _) => run_prog next result
      | Some (Rejected e) => Client.settle result (Rejected e)
      | _ =>
          modify (set_suspended (fun l =>
            l ++ [{| awaiting := t; continuation := next; result := result |}])%list)
      end
  | If_hasTLS thn els =>
      tls <- Client.hasTLS ;;
      if tls then run_prog thn result else run_prog els result
  end.

Definition async (body : prog) : M task_id :=
  result <- Client.new_promise ;;
  run_prog body result ;;
  ret result.

Definition login_body (user password : string) : prog :=
  Await_send ("USER " ++ user) false
    (Await_send ("PASS " ++ password) false Done).

Definition login (user password : string) : M task_id :=
  async (login_body user password).

Definition useDefaultSettings_body : prog :=
  Await_send "TYPE I" false
    (Await_send "STRU F" false
       (If_hasTLS
          (Await_send "PBSZ 0" true (Await_send "PROT P" true Done))
          Done)).

Definition useDefaultSettings : M task_id := async useDefaultSettings_body.

(** A suspended function goes on once the promise it awaits is settled. *)
Definition resume (sc : script) : M unit :=
  st <- Client.promise_at (awaiting sc) ;;
  match st with
  | Some (Resolved _) => run_prog (continuation sc) (result sc)
  | Some (Rejected e) => Client.settle (result sc) (Rejected e)
  | _ => modify (set_suspended (fun l => l ++ [sc])%list)
  end.

(** The promise reactions that run after each turn of the event loop. *)
Definition drain : M unit :=
  scs <- get suspended ;;
  modify (set_suspended (fun _ => [])) ;;
  for_each resume scs.

(** [list(client, parseList)]: the result of [parseList] on the text
    received is kept as [VListing]. *)
Definition list : M task_id :=
  buf <- get (fun w => List.length (buffers w)) ;;
  modify (set_buffers (fun l => l ++ [""])%list) ;;
  Client.handle (Some "LIST") (list_handler buf).

End Ftp.

(* ===================================================================== *)
(** * Runs: calls of the library and socket events, one after another    *)
(* ===================================================================== *)

Module Run.
Import JS Pasv World.

Inductive event : Type :=
| call_connect (host : string) (port : number)
| call_send (command : string) (ignoreErrorCodes : bool)
| call_useTLS (options : tls_options)
| call_enterPassiveMode (parsePasvResponse : option (string -> option target))
| call_list
| call_upload (remoteFilename : string)
| call_download (remoteFilename : string) (startAt : Z)
| call_login (user password : string)
| call_useDefaultSettings
| call_handle (command : option string) (f : payload -> list action)
| call_close
| assign_verbose (b : bool)
| emits (s : sock_id) (e : socket_event).

Definition ignore {A : Type} (m : M A) : M unit := _ <- m ;; ret tt.

Definition call (e : event) : M unit :=
  match e with
  | call_connect host port => ignore (Ftp.connect host port)
  | call_send command ignoreErrorCodes => ignore (Ftp.send command ignoreErrorCodes)
  | call_useTLS options => ignore (Ftp.useTLS options)
  | call_enterPassiveMode parsePasvResponse =>
      ignore (Ftp.enterPassiveMode parsePasvResponse)
  | call_list => ignore Ftp.list
  | call_upload remoteFilename => ignore (Ftp.upload remoteFilename)
  | call_download remoteFilename startAt => ignore (Ftp.download remoteFilename startAt)
  | call_login user password => ignore (Ftp.login user password)
  | call_useDefaultSettings => ignore Ftp.useDefaultSettings
  | call_handle command f => ignore (Client.handle command (custom_handler f))
  | call_close => Client.close
  | assign_verbose b => modify (set_this (set_verbose b))
  | emits s e => Ftp.emit s e
  end.

(** One turn of the event loop: the call or the event, then the promise
    reactions. *)
Definition step (e : event) : M unit := call e ;; Ftp.drain.

(** A run stops at the first exception nobody catches. *)
Fixpoint run (es : list event) : M unit :=
  match es with
  | [] => ret tt
  | e :: es' => step e ;; run es'
  end.

End Run.

(* ===================================================================== *)
(** * The replies of the specification                                   *)
(* ===================================================================== *)

Module Spec.
Import JS World.

(** The three digits a reply starts with. *)
Record code3 : Type := { d1 : ascii; d2 : ascii; d3 : ascii }.

Definition code_text (c : code3) : string :=
  String (d1 c) (String (d2 c) (String (d3 c) "")).

Definition code_number (c : code3) : Z :=
  100 * digit_value (d1 c) + 10 * digit_value (d2 c) + digit_value (d3 c).

(** A reply is a single line [NNN SP text], or a block that starts with
    [NNN-text], goes on with continuation lines and ends with the line
    [NNN SP text]. *)
Inductive reply : Type :=
| single_line (c : code3) (text : string)
| multi_line (c : code3) (text : string) (continuation : list string)
             (ending : string).

Definition reply_code (r : reply) : code3 :=
  match r with
  | single_line c _ => c
  | multi_line c _ _ _ => c
  end.

Definition lines (r : reply) : list string :=
  match r with
  | single_line c text => [code_text c ++ " " ++ text]
  | multi_line c text continuation ending =>
      (code_text c ++ "-" ++ text)
        :: (continuation ++ [(code_text c ++ " " ++ ending)%string])%list
  end.

Fixpoint join_CRLF (ls : list string) : string :=
  match ls with
  | [] => ""
  | [l] => l
  | l :: ls' => l ++ Client.CRLF ++ join_CRLF ls'
  end.

(** The text of the reply from its first line through its terminator
    line, and the characters of the reply on the control connection. *)
Definition full_text (r : reply) : string := join_CRLF (lines r).

Definition wire (r : reply) : string := full_text r ++ Client.CRLF.

Fixpoint no_line_break (s : string) : bool :=
  match s with
  | String c s' => negb (code c =? 13) && negb (code c =? 10) && no_line_break s'
  | "" => true
  end.

Definition valid_code (c : code3) : bool :=
  is_digit (d1 c) && is_digit (d2 c) && is_digit (d3 c)
  && (100 <=? code_number c) && (code_number c <=? 599).

Definition valid (r : reply) : bool :=
  match r with
  | single_line c text => valid_code c && no_line_break text
  | multi_line c text continuation ending =>
      valid_code c && no_line_break text && no_line_break ending
      && forallb (fun l => no_line_break l
                           && negb (String.prefix (code_text c ++ " ") l))
                 continuation
  end.

(** The response the specification expects for a reply. *)
Definition expected (r : reply) : payload :=
  Response (Num (code_number (reply_code r))) (full_text r).

(** What the handler of the client is given for a sequence of chunks
    arriving on the control socket: the "data" listener builds one
    payload from every chunk. *)
Definition emitted (chunks : list string) : list payload :=
  map Ftp.response_of chunks.

(** Invariants 1 and 2 of the specification. *)
Definition parser_contract : Prop :=
  forall (replies : list reply) (chunks : list string),
    forallb valid replies = true ->
    String.concat "" chunks = String.concat "" (map wire replies) ->
    emitted chunks = map expected replies.

(** [needle] occurs in [hay]. *)
Definition occurs (needle hay : string) : bool :=
  negb (indexOf hay needle =? -1).

(** Node: [setTimeout(0)] disables the idle timeout of a socket. *)
Definition timeout_enabled (sk : socket) : bool :=
  match timeout sk with
  | Some t => negb (t =? 0)
  | None => false
  end.

(** The handlers of the operations of the library. *)
Definition library_handler (h : handler) : bool :=
  match h with
  | custom_handler _ => false
  | _ => true
  end.

(** How often [close] calls [destroy] on the socket [s]. *)
Definition destroys (w : world) (s : sock_id) : nat :=
  (match _socket (this w) with
   | Some n => if Nat.eqb n s then 1 else 0
   | None => 0
   end
   + match _dataSocket (this w) with
     | Some n => if Nat.eqb n s then 1 else 0
     | None => 0
     end)%nat.

(** Invariant 3 of the specification: a handler is installed exactly
    when the current task is unsettled. *)
Definition handler_installed (w : world) : bool :=
  match _handler (this w) with
  | Some _ => true
  | None => false
  end.

Definition task_pending (w : world) : bool :=
  match _task (this w) with
  | Some t =>
      match nth_error (promises w) t with
      | Some Pending => true
      | _ => false
      end
  | None => false
  end.

End Spec.

(* ===================================================================== *)
(** * Tasks and handlers over a run                                      *)
(* ===================================================================== *)

Module Tasks.
Import JS World.


Definition immediate_handler (h : handler) : bool :=
  match h with
  | connect_handler | send_handler _ | upload_handler | download_handler _
  | custom_handler _ => true
  | _ => false
  end.

(** The listeners the setters of the client register. *)
Definition plain (l : listener) : bool :=
  match l with
  | error_listener | timeout_listener | control_data_listener => true
  | _ => false
  end.

(** The promise an [async] function returns is not the promise of the
    current task. *)
Definition apart (w : world) (r : task_id) : Prop :=
  (r < List.length (promises w))%nat /\ _task (this w) <> Some r.

(** What holds between two turns of the event loop while only immediate
    operations are used. *)
Definition coupled (w : world) : Prop :=
  Forall (fun sk => forallb plain (listeners sk) = true) (sockets w)
  /\ _socket (this w) <> None
  /\ (forall t, _task (this w) = Some t -> (t < List.length (promises w))%nat)
  /\ match _handler (this w) with
     | Some h =>
         immediate_handler h = true
         /\ exists t, _task (this w) = Some t
                      /\ nth_error (promises w) t = Some Pending
     | None => Spec.task_pending w = false
     end
  /\ Forall (fun sc => apart w (result sc)) (suspended w).

(** From [w] to [w']: promises are only added, and a new current task is
    a new promise. *)
Definition grows (w w' : world) : Prop :=
  (List.length (promises w) <= List.length (promises w'))%nat
  /\ (_task (this w') = _task (this w)
      \/ exists t, _task (this w') = Some t
                   /\ (List.length (promises w) <= t)%nat).




(** [m] keeps the coupling and leaves the current task in place. *)
Definition keeps_task (task : option task_id) (m : M unit) : Prop :=
  forall w, coupled w -> _task (this w) = task ->
            coupled (final (m w)) /\ grows w (final (m w))
            /\ _task (this (final (m w))) = task.


End Tasks.

(* ===================================================================== *)
(** * What an observer of the log can depend on                          *)
(* ===================================================================== *)

Module Redaction.
Import JS World.

(** A command with its argument removed when [Client.send] masks it. *)
Definition redact_command (command : string) : string :=
  if negb (indexOf command "PASS" =? -1) then "PASS" else command.

Fixpoint redact_prog (p : prog) : prog :=
  match p with
  | Done => Done
  | Await_send command ignoreErrorCodes next =>
      Await_send (redact_command command) ignoreErrorCodes (redact_prog next)
  | If_hasTLS thn els => If_hasTLS (redact_prog thn) (redact_prog els)
  end.

Definition redact_script (sc : script) : script :=
  {| awaiting := awaiting sc; continuation := redact_prog (continuation sc);
     result := result sc |}.

(** What was written to a socket is left out. *)
Definition redact_socket (s : socket) : socket :=
  {| timeout := timeout s; keepAlive := keepAlive s; listeners := listeners s;
     destroyed := destroyed s; written := []; dialled := dialled s;
     secure := secure s; protocol := protocol s |}.

(** The world without the arguments of masked commands: neither those
    already written to a socket nor those an [async] function has yet to
    send. *)
Definition redact (w : world) : world :=
  {| this := this w; sockets := map redact_socket (sockets w);
     promises := promises w; buffers := buffers w; console := console w;
     pipes := pipes w; suspended := map redact_script (suspended w) |}.

(** Two outcomes, and two computations, that differ in redacted parts only. *)
Definition sim {A : Type} (o1 o2 : outcome A) : Prop :=
  match o1, o2 with
  | Return a w1, Return b w2 => a = b /\ redact w1 = redact w2
  | Throw e w1, Throw f w2 => e = f /\ redact w1 = redact w2
  | _, _ => False
  end.

Definition related {A : Type} (m1 m2 : M A) : Prop :=
  forall w1 w2, redact w1 = redact w2 -> sim (m1 w1) (m2 w2).

End Redaction.

(** Worlds used as examples. *)
Module Scenario.
Import JS World.

(** The world after [new Client()] and [connect(client, "h", 21)]. *)
Definition connecting : world :=
  final (Ftp.connect "h" (Num 21) (final (Client.constructor None))).

(** A client with [verbose] set. *)
Definition verbose_client : world :=
  set_this (set_verbose true) (final (Client.constructor None)).


(** A listing whose transfer the server aborts, then a [NOOP], then the
    end of the data connection of the listing. *)
Definition aborted_listing : list Run.event :=
  [ Run.call_connect "h" (Num 21);
    Run.emits 0%nat (ev_data ("220 ready" ++ Client.CRLF));
    Run.call_enterPassiveMode None;
    Run.emits 0%nat
      (ev_data ("227 Entering Passive Mode (127,0,0,1,10,229)" ++ Client.CRLF));
    Run.emits 1%nat ev_connect;
    Run.call_list;
    Run.emits 0%nat (ev_data ("150 Here comes the directory listing" ++ Client.CRLF));
    Run.emits 0%nat (ev_data ("426 Connection closed; transfer aborted" ++ Client.CRLF));
    Run.call_send "NOOP" false ].

(** A task whose handler ignores every signal. *)
Definition deaf_handler : payload -> list action := fun _ => [].

(** [login] against a server that repeats the command it rejects. *)
Definition echoing_server : list Run.event :=
  [ Run.call_login "alice" "secret";
    Run.emits 0%nat (ev_data ("331 Password required" ++ Client.CRLF));
    Run.emits 0%nat
      (ev_data ("500 'PASS secret': command not understood" ++ Client.CRLF)) ].

(** The greeting and the reply to [USER] in one chunk; the greeting in
    two chunks. *)
Definition merged_replies : list Run.event :=
  [ Run.call_connect "h" (Num 21);
    Run.emits 0%nat
      (ev_data ("220 ready" ++ Client.CRLF ++ "331 Password required" ++ Client.CRLF)) ].

Definition split_reply : list Run.event :=
  [ Run.call_connect "h" (Num 21);
    Run.emits 0%nat (ev_data "220 Service");
    Run.emits 0%nat (ev_data (" ready" ++ Client.CRLF)) ].

(** The scenarios of the specification: a multi-line reply to [FEAT], a
    login, and a download resumed at offset 1024. *)
Definition features : list Run.event :=
  [ Run.call_send "FEAT" false;
    Run.emits 0%nat
      (ev_data ("211-Features:" ++ Client.CRLF ++ " UTF8" ++ Client.CRLF
                ++ " MLST" ++ Client.CRLF ++ "211 End" ++ Client.CRLF)) ].

Definition login_alice : list Run.event :=
  [ Run.call_login "alice" "secret";
    Run.emits 0%nat (ev_data ("331 need password" ++ Client.CRLF));
    Run.emits 0%nat (ev_data ("230 logged in" ++ Client.CRLF)) ].

Definition resumed_download : list Run.event :=
  [ Run.call_enterPassiveMode None;
    Run.emits 0%nat
      (ev_data ("227 Entering Passive Mode (192,168,3,200,10,229)" ++ Client.CRLF));
    Run.emits 1%nat ev_connect;
    Run.call_download "f.bin" 1024;
    Run.emits 0%nat (ev_data ("350 ok" ++ Client.CRLF));
    Run.emits 0%nat (ev_data ("150 sending" ++ Client.CRLF));
    Run.emits 0%nat (ev_data ("226 done" ++ Client.CRLF)) ].



End Scenario.

(* ===================================================================== *)
(** * Sequences of awaited commands                                      *)
(* ===================================================================== *)

Module Sequencing.
Import JS World.

(** One turn of the event loop in which the payload [res] reaches
    [_respond]. *)
Definition reply (res : payload) : M unit := Ftp._respond res ;; Ftp.drain.

(** What has been written to the socket [n], and whether it is a TLS
    socket. *)
Definition written_to (w : world) (n : sock_id) : list string :=
  match nth_error (sockets w) n with
  | Some sk => written sk
  | None => []
  end.

Definition is_secure (w : world) (n : sock_id) : bool :=
  match nth_error (sockets w) n with
  | Some sk => secure sk
  | None => false
  end.

(** No task and no [async] function is under way on the control socket
    [n], and [r] is a pending promise. *)
Definition ready (w : world) (n : sock_id) (r : task_id) : Prop :=
  _socket (this w) = Some n
  /\ (n < List.length (sockets w))%nat
  /\ suspended w = []
  /\ nth_error (promises w) r = Some Pending.

(** The [async] function with the promise [r] has sent a command with
    [send(client, command, i)], whose task [p] is the current one, and
    goes on with [k] after the reply. *)
Definition awaits_reply (w : world) (n : sock_id) (p r : task_id) (i : bool)
    (k : prog) : Prop :=
  _socket (this w) = Some n
  /\ (n < List.length (sockets w))%nat
  /\ _handler (this w) = Some (send_handler i)
  /\ _task (this w) = Some p
  /\ nth_error (promises w) p = Some Pending
  /\ nth_error (promises w) r = Some Pending
  /\ p <> r
  /\ suspended w = [{| awaiting := p; continuation := k; result := r |}].

(** A reply with a code from 200 to 399. *)
Definition success (res : payload) : bool :=
  Ftp.code_ge res 200 && Ftp.code_lt res 400.

End Sequencing.

(* ===================================================================== *)
(** * Further worlds and predicates used in the properties               *)
(* ===================================================================== *)

Module Cases.
Import JS Pasv World.

(** A client whose control connection has been upgraded with [useTLS]. *)
Definition tls_client : world :=
  final (Run.run
    [ Run.call_useTLS {| rejectUnauthorized := None |};
      Run.emits 0%nat (ev_data ("234 AUTH TLS ok" ++ Client.CRLF));
      Run.emits 1%nat (ev_secureConnect true (ErrorString "") "TLSv1.2") ]
    (final (Client.constructor None))).

(** A client whose data connection has been opened with
    [enterPassiveMode]. *)
Definition passive_client : world :=
  final (Run.run
    [ Run.call_enterPassiveMode None;
      Run.emits 0%nat
        (ev_data ("227 Entering Passive Mode (127,0,0,1,10,229)" ++ Client.CRLF));
      Run.emits 1%nat ev_connect ]
    (final (Client.constructor None))).

(** The handlers of the three transfer operations. *)
Definition transfer_handler (h : handler) : bool :=
  match h with
  | list_handler _ | upload_handler | download_handler _ => true
  | _ => false
  end.

(** The socket [enterPassiveMode] has made for the target [t] of the reply
    227, with the two callbacks of the task [p], before it is connected. *)
Definition dialling (p : task_id) (t : target) : socket :=
  {| timeout := None; keepAlive := false;
     listeners := [dial_error_listener (Some p); dial_connect_listener (Some p)];
     destroyed := 0%nat; written := []; dialled := [(port t, host t)];
     secure := false; protocol := "" |}.

(** The parser [enterPassiveMode] uses. *)
Definition parser_of (custom : option (string -> option target))
  : string -> option target :=
  match custom with
  | Some f => f
  | None => parseIPV4PasvResponse
  end.

(** The calls of the three transfer operations. *)
Definition transfer_call (e : Run.event) : bool :=
  match e with
  | Run.call_list | Run.call_upload _ | Run.call_download _ _ => true
  | _ => false
  end.

(** The data socket [d] carries the listeners of a listing whose text so
    far is [text], for the pending task [p]. *)
Definition listing (w : world) (d : sock_id) (b : buf_id) (p : task_id)
    (text : string) : Prop :=
  option_map listeners (nth_error (sockets w) d)
  = Some [error_listener; timeout_listener; list_data_listener b;
          list_end_listener (Some p) b]
  /\ nth_error (buffers w) b = Some text
  /\ nth_error (promises w) p = Some Pending.

(** The chunks of a listing, one "data" event each. *)
Definition receive (d : sock_id) (chunks : list string) : M unit :=
  for_each (fun chunk => Ftp.emit d (ev_data chunk)) chunks.

End Cases.
(* ===================================================================== *)
(** * Properties                                                         *)
(* ===================================================================== *)

Module JSFacts.
Import JS.

Lemma append_nil_r (s : string) : s ++ "" = s.
Proof. induction s as [|c s IH]; simpl; [reflexivity | now rewrite IH]. Qed.

Lemma append_assoc (a b c : string) : (a ++ b) ++ c = a ++ (b ++ c).
Proof. induction a as [|x a IH]; simpl; [reflexivity | now rewrite IH]. Qed.

Lemma length_append (a b : string) :
  String.length (a ++ b) = (String.length a + String.length b)%nat.
Proof. induction a as [|x a IH]; simpl; [reflexivity | now rewrite IH]. Qed.

Lemma substr0_append (a b : string) : substr0 (String.length a) (a ++ b) = a.
Proof. induction a as [|x a IH]; simpl; [now destruct b | now rewrite IH]. Qed.

(** The text matched between a position and a later one. *)
Lemma substr0_matched (a b : string) :
  substr0 (String.length (a ++ b) - String.length b) (a ++ b) = a.
Proof.
  rewrite length_append.
  replace (String.length a + String.length b - String.length b)%nat
    with (String.length a) by lia.
  apply substr0_append.
Qed.

Lemma code_range (c : ascii) : 0 <= code c < 256.
Proof.
  unfold code. pose proof (nat_ascii_bounded c) as H. lia.
Qed.

Lemma digit_not_white (c : ascii) : is_digit c = true -> is_white c = false.
Proof. unfold is_digit, is_white. lia. Qed.

Lemma digit_value_range (c : ascii) : is_digit c = true -> 0 <= digit_value c <= 9.
Proof. unfold is_digit, digit_value. lia. Qed.

Lemma digit_not_sign (c : ascii) :
  is_digit c = true -> Ascii.eqb c "-" = false /\ Ascii.eqb c "+" = false.
Proof.
  intros H. split; apply Ascii.eqb_neq; intros ->; discriminate H.
Qed.

(** Small integers are doubles. *)
Lemma round_magnitude_small (m : Z) : m < 2 ^ 53 -> round_magnitude m = m.
Proof.
  intros H. unfold round_magnitude.
  destruct (Z.ltb_spec m (2 ^ 53)); [reflexivity | lia].
Qed.

Lemma to_double_exact (z : Z) : Z.abs z < 2 ^ 53 -> to_double z = Num z.
Proof.
  intros H. unfold to_double. rewrite (round_magnitude_small _ H).
  assert (Hlt : 2 ^ 53 < 2 ^ 1024) by (apply Z.pow_lt_mono_r; lia).
  destruct (Z.leb_spec (2 ^ 1024) (Z.abs z)); [lia |].
  f_equal. rewrite Z.mul_comm. apply Z.abs_sgn.
Qed.

(** [x & 255] lies between 0 and 255, whatever [x] is. *)
Lemma land_255_range (x : Z) : 0 <= Z.land x 255 <= 255.
Proof.
  assert (E : Z.land x 255 = x mod 2 ^ 8) by (apply (Z.land_ones x 8); lia).
  rewrite E. change (2 ^ 8) with 256. pose proof (Z.mod_pos_bound x 256). lia.
Qed.

Lemma ToInt32_small (z : Z) : - 2 ^ 31 <= z < 2 ^ 31 -> ToInt32 (Num z) = z.
Proof.
  intros H. unfold ToInt32. change (2 ^ 31) with 2147483648 in *.
  change (2 ^ 32) with 4294967296. rewrite Z.mod_small; lia.
Qed.

End JSFacts.

Module PasvFacts.
Import JS Regex Pasv JSFacts.

(** The port expression of the parser is a TCP port, whatever was matched. *)
Lemma port_expression_range (x y : number) :
  exists p, add (mul (bitand x (Num 255)) (Num 256)) (bitand y (Num 255)) = Num p
            /\ 0 <= p <= 65535.
Proof.
  unfold bitand. rewrite (ToInt32_small 255) by (cbv; split; [discriminate | reflexivity]).
  pose proof (land_255_range (ToInt32 x)) as Hx.
  pose proof (land_255_range (ToInt32 y)) as Hy.
  set (a := Z.land (ToInt32 x) 255) in *. set (b := Z.land (ToInt32 y) 255) in *.
  assert (Hbig : 65536 < 2 ^ 53) by reflexivity.
  unfold mul. rewrite to_double_exact by lia.
  unfold add. rewrite to_double_exact by lia.
  exists (a * 256 + b). split; [reflexivity | lia].
Qed.

(** C10: whatever the message, a result of [parseIPV4PasvResponse] has a
    port that is an integer between 0 and 65535: both numbers are masked
    with [& 255] before they are combined. *)
Theorem pasv_port_in_tcp_range (message : string) (t : target) :
  parseIPV4PasvResponse message = Some t ->
  exists p, port t = Num p /\ 0 <= p <= 65535.
Proof.
  unfold parseIPV4PasvResponse.
  destruct (String_match regexPasv message) as [groups|]; [|discriminate].
  destruct (negb (Nat.eqb (List.length groups) 4)); [discriminate|].
  intros H. injection H as <-. simpl port.
  apply port_expression_range.
Qed.

Lemma pasv_port_in_tcp_range_witness :
  exists p, port {| host := "10.0.0.1"; port := Num 65280 |} = Num p /\ 0 <= p <= 65535.
Proof.
  apply (pasv_port_in_tcp_range "227 ok (10,0,0,1,-1,99999999999999999999)").
  vm_compute. reflexivity.
Defined.

Lemma digit_char_is_digit (d : Z) : 0 <= d <= 9 -> is_digit (digit_char d) = true.
Proof.
  intros H. unfold is_digit, digit_char, code.
  rewrite nat_ascii_embedding by lia. rewrite Z2Nat.id by lia. lia.
Qed.

Lemma digit_char_value (d : Z) : 0 <= d <= 9 -> digit_value (digit_char d) = d.
Proof.
  intros H. unfold digit_value, digit_char, code.
  rewrite nat_ascii_embedding by lia. rewrite Z2Nat.id by lia. lia.
Qed.

Lemma decimal_digits_all_digits (fuel : nat) : forall n acc,
  0 <= n -> all_digits acc = true -> all_digits (decimal_digits fuel n acc) = true.
Proof.
  induction fuel as [|fuel IH]; intros n acc Hn Hacc; simpl.
  - rewrite digit_char_is_digit by (pose proof (Z.mod_pos_bound n 10); lia).
    exact Hacc.
  - assert (Hd : all_digits (String (digit_char (n mod 10)) acc) = true).
    { simpl. rewrite digit_char_is_digit by (pose proof (Z.mod_pos_bound n 10); lia).
      exact Hacc. }
    destruct (n <? 10); [exact Hd |].
    apply IH; [apply Z.div_pos; lia | exact Hd].
Qed.

Lemma decimal_digits_nonempty (fuel : nat) : forall n acc,
  decimal_digits fuel n acc <> "".
Proof.
  induction fuel as [|fuel IH]; intros n acc; simpl; [discriminate |].
  destruct (n <? 10); [discriminate | apply IH].
Qed.

(** Reading the digits printed for [n] gives [n] back. *)
Lemma decimal_digits_value (fuel : nat) : forall n acc,
  0 <= n <= Z.of_nat fuel ->
  digits_value (decimal_digits fuel n acc) 0 = digits_value acc n.
Proof.
  induction fuel as [|fuel IH]; intros n acc Hn.
  - assert (n = 0) by lia. subst n. reflexivity.
  - cbn [decimal_digits]. destruct (Z.ltb_spec n 10) as [Hlt|Hge].
    + cbn [digits_value]. rewrite Z.mod_small by lia.
      rewrite digit_char_is_digit, digit_char_value by lia.
      f_equal.
    + rewrite IH.
      * cbn [digits_value].
        pose proof (Z.mod_pos_bound n 10).
        rewrite digit_char_is_digit, digit_char_value by lia.
        f_equal. rewrite (Z.div_mod n 10) at 3 by lia. reflexivity.
      * split; [apply Z.div_pos; lia |].
        assert (n / 10 < n) by (apply Z.div_lt; lia). lia.
Qed.

Lemma decimal_all_digits (n : Z) : 0 <= n -> all_digits (decimal n) = true.
Proof. intros H. now apply decimal_digits_all_digits. Qed.

Lemma decimal_nonempty (n : Z) : decimal n <> "".
Proof. apply decimal_digits_nonempty. Qed.

Lemma parseInt_digits (s : string) :
  all_digits s = true -> s <> "" -> 0 <= digits_value s 0 < 2 ^ 53 ->
  parseInt s = Num (digits_value s 0).
Proof.
  intros Hall Hne Hv. destruct s as [|c s]; [congruence |].
  simpl in Hall. apply andb_prop in Hall as [Hc _].
  unfold parseInt. cbn [trimStart]. rewrite (digit_not_white _ Hc).
  destruct (digit_not_sign _ Hc) as [-> ->].
  cbn [starts_with_digit]. rewrite Hc.
  apply to_double_exact. lia.
Qed.

Lemma parseInt_decimal (n : Z) : 0 <= n < 2 ^ 53 -> parseInt (decimal n) = Num n.
Proof.
  intros H.
  assert (E : digits_value (decimal n) 0 = n).
  { unfold decimal. rewrite decimal_digits_value by lia. reflexivity. }
  rewrite parseInt_digits; rewrite ?E; auto using decimal_all_digits, decimal_nonempty.
  apply decimal_all_digits. lia.
Qed.


(** ** The matcher on a printed payload *)

Section ClassPlus.
Context {R : Type}.

Lemma class_plus_stops (p : ascii -> bool) (rest : string) (k : string -> option R) :
  stops p rest = true -> class_plus p rest k = None.
Proof.
  destruct rest as [|c rest]; simpl; [reflexivity |].
  now destruct (p c).
Qed.

(** On a run of the class that ends where the class stops, the greedy
    match takes the whole run when the continuation accepts there. *)
Lemma class_plus_run (p : ascii -> bool) (g rest : string)
    (k : string -> option R) (r : R) :
  all_chars p g = true -> g <> "" -> stops p rest = true ->
  k rest = Some r ->
  class_plus p (g ++ rest) k = Some r.
Proof.
  intros Hall Hne Hstop Hk. induction g as [|c g IH]; [congruence |].
  simpl in Hall. apply andb_prop in Hall as [Hc Hg].
  cbn [append class_plus]. rewrite Hc.
  destruct g as [|c' g].
  - cbn [append]. rewrite class_plus_stops by assumption. exact Hk.
  - rewrite IH; [reflexivity | assumption | discriminate].
Qed.

(** In an inert text the class followed by a comma finds nothing. *)
Lemma class_plus_inert (u v : string) (k : string -> option R) :
  u <> "" -> inert_prefix u = true ->
  (forall c s, Ascii.eqb c "," = false -> k (String c s) = None) ->
  class_plus hyphen_or_digit (u ++ v) k = None.
Proof.
  intros Hne Hin Hk. induction u as [|c u IH]; [congruence |].
  cbn [append class_plus]. cbn [inert_prefix] in Hin.
  apply andb_prop in Hin as [Hc Hu].
  destruct (hyphen_or_digit c) eqn:Hcls; [| reflexivity].
  destruct u as [|c' u]; [discriminate Hu |].
  rewrite IH; [| discriminate | exact Hu].
  cbn [append]. apply Hk.
  cbn [inert_prefix] in Hu. apply andb_prop in Hu as [Hc' _].
  now apply negb_true_iff in Hc'.
Qed.
End ClassPlus.

Lemma digits_in_class (s : string) :
  all_digits s = true -> all_chars hyphen_or_digit s = true.
Proof.
  induction s as [|c s IH]; simpl; [reflexivity |].
  intros H. apply andb_prop in H as [Hc Hs].
  unfold hyphen_or_digit. rewrite Hc, orb_true_r. simpl. now apply IH.
Qed.

Lemma substr0_between (a b s : string) :
  s = a ++ b -> substr0 (String.length s - String.length b) s = a.
Proof. intros ->. apply substr0_matched. Qed.

Lemma match_here_payload (A B C D P1 P2 suf : string) :
  all_chars hyphen_or_digit A = true -> A <> "" ->
  all_chars hyphen_or_digit B = true -> B <> "" ->
  all_chars hyphen_or_digit C = true -> C <> "" ->
  all_chars hyphen_or_digit D = true -> D <> "" ->
  all_chars hyphen_or_digit P1 = true -> P1 <> "" ->
  all_chars hyphen_or_digit P2 = true -> P2 <> "" ->
  inert_suffix suf = true ->
  match_here regexPasv
    (A ++ "," ++ B ++ "," ++ C ++ "," ++ D ++ "," ++ P1 ++ "," ++ P2 ++ suf)
  = Some [A ++ "," ++ B ++ "," ++ C ++ "," ++ D ++ "," ++ P1 ++ "," ++ P2;
          A ++ "," ++ B ++ "," ++ C ++ "," ++ D; P1; P2].
Proof.
  intros HA HA' HB HB' HC HC' HD HD' H1 H1' H2 H2' Hsuf.
  unfold match_here, regexPasv, num, comma. cbn [exec append].
  do 5 (apply class_plus_run;
        [assumption | assumption | reflexivity | rewrite Ascii.eqb_refl]).
  apply class_plus_run; try assumption.
  cbn [app]. f_equal. f_equal; [| f_equal; [| f_equal]].
  - apply substr0_between. now repeat (rewrite append_assoc; cbn [append]).
  - apply substr0_between. now repeat (rewrite append_assoc; cbn [append]).
  - apply substr0_between. reflexivity.
  - f_equal. apply substr0_between. reflexivity.
Qed.


Lemma match_here_inert (u v : string) :
  u <> "" -> inert_prefix u = true -> match_here regexPasv (u ++ v) = None.
Proof.
  intros Hne Hin. unfold match_here, regexPasv, num, comma. cbn [exec].
  apply class_plus_inert; [assumption | assumption |].
  intros c s Hc. rewrite Ascii.eqb_sym, Hc. reflexivity.
Qed.

Lemma inert_prefix_tail (c : ascii) (u : string) :
  inert_prefix (String c u) = true -> inert_prefix u = true.
Proof.
  cbn [inert_prefix]. intros H. apply andb_prop in H as [_ H].
  now destruct u.
Qed.

(** The search for the leftmost match passes over an inert text. *)
Lemma String_match_inert (u v : string) :
  inert_prefix u = true ->
  String_match regexPasv (u ++ v) = String_match regexPasv v.
Proof.
  induction u as [|c u IH]; intros Hin; [reflexivity |].
  change (String c u ++ v) with (String c (u ++ v)).
  cbn [String_match].
  change (String c (u ++ v)) with (String c u ++ v) at 1.
  rewrite match_here_inert by (assumption || discriminate).
  apply IH. eapply inert_prefix_tail; eassumption.
Qed.

Lemma String_match_here (r : regex) (s : string) (groups : list string) :
  match_here r s = Some groups -> String_match r s = Some groups.
Proof. intros H. destruct s; cbn [String_match]; now rewrite H. Qed.

Lemma replace_commas_append (a b : string) :
  replace_commas (a ++ b) = replace_commas a ++ replace_commas b.
Proof. induction a as [|c a IH]; simpl; [reflexivity | now rewrite IH]. Qed.

Lemma replace_commas_digits (s : string) :
  all_digits s = true -> replace_commas s = s.
Proof.
  induction s as [|c s IH]; simpl; [reflexivity |].
  intros H. apply andb_prop in H as [Hc Hs]. rewrite (IH Hs).
  destruct (Ascii.eqb_spec c ","); [subst c; discriminate Hc | reflexivity].
Qed.

Lemma bitand_255_byte (x : Z) : 0 <= x <= 255 -> bitand (Num x) (Num 255) = Num x.
Proof.
  intros H. unfold bitand.
  rewrite !ToInt32_small by (change (2 ^ 31) with 2147483648; lia).
  f_equal. assert (E : Z.land x 255 = x mod 2 ^ 8) by (apply (Z.land_ones x 8); lia).
  rewrite E. apply Z.mod_small. change (2 ^ 8) with 256. lia.
Qed.

Lemma port_bytes (p : Z) :
  0 <= p <= 65535 ->
  0 <= Z.shiftr p 8 <= 255 /\ 0 <= Z.land p 255 <= 255
  /\ Z.shiftr p 8 * 256 + Z.land p 255 = p.
Proof.
  intros H. rewrite Z.shiftr_div_pow2 by lia.
  assert (E : Z.land p 255 = p mod 2 ^ 8) by (apply (Z.land_ones p 8); lia).
  rewrite E. change (2 ^ 8) with 256.
  pose proof (Z.mod_pos_bound p 256). pose proof (Z.div_mod p 256).
  assert (0 <= p / 256) by (apply Z.div_pos; lia).
  assert (p / 256 < 256) by (apply Z.div_lt_upper_bound; lia).
  lia.
Qed.

(** PASV parse round-trip (C7): the host [a.b.c.d] and the port [p] printed as
    [a,b,c,d,p>>8,p&0xFF] are what the parser returns, whatever inert
    text surrounds the six numbers. *)
Theorem pasv_round_trip (a b c d p : Z) (pre suf : string) :
  0 <= a <= 255 -> 0 <= b <= 255 -> 0 <= c <= 255 -> 0 <= d <= 255 ->
  0 <= p <= 65535 ->
  inert_prefix pre = true -> inert_suffix suf = true ->
  parseIPV4PasvResponse (pre ++ format_pasv a b c d p ++ suf)
  = Some {| host := dotted_quad a b c d; port := Num p |}.
Proof.
  intros Ha Hb Hc Hd Hp Hpre Hsuf.
  destruct (port_bytes p Hp) as (Hhi & Hlo & Hsum).
  unfold parseIPV4PasvResponse. rewrite String_match_inert by assumption.
  unfold format_pasv.
  repeat (rewrite append_assoc; cbn [append]).
  pose proof
    (match_here_payload (decimal a) (decimal b) (decimal c) (decimal d)
       (decimal (Z.shiftr p 8)) (decimal (Z.land p 255)) suf
       ltac:(apply digits_in_class, decimal_all_digits; lia) (decimal_nonempty _)
       ltac:(apply digits_in_class, decimal_all_digits; lia) (decimal_nonempty _)
       ltac:(apply digits_in_class, decimal_all_digits; lia) (decimal_nonempty _)
       ltac:(apply digits_in_class, decimal_all_digits; lia) (decimal_nonempty _)
       ltac:(apply digits_in_class, decimal_all_digits; lia) (decimal_nonempty _)
       ltac:(apply digits_in_class, decimal_all_digits; lia) (decimal_nonempty _)
       Hsuf) as Hm.
  cbn [append] in Hm. rewrite (String_match_here _ _ _ Hm).
  cbn [List.length Nat.eqb negb group nth].
  assert (H53 : 256 < 2 ^ 53) by reflexivity.
  rewrite !parseInt_decimal by lia.
  rewrite !bitand_255_byte by lia.
  unfold mul. rewrite to_double_exact by lia.
  unfold add. rewrite to_double_exact by lia.
  rewrite Hsum. f_equal. f_equal.
  unfold dotted_quad.
  repeat (rewrite replace_commas_append; cbn [replace_commas append Ascii.eqb Bool.eqb]).
  rewrite !replace_commas_digits by (apply decimal_all_digits; lia).
  reflexivity.
Qed.

Lemma pasv_round_trip_witness :
  parseIPV4PasvResponse
    ("227 Entering Passive Mode (" ++ format_pasv 192 168 3 200 2789 ++ ")")
  = Some {| host := dotted_quad 192 168 3 200; port := Num 2789 |}.
Proof.
  apply (pasv_round_trip 192 168 3 200 2789 "227 Entering Passive Mode (" ")");
    solve [lia | reflexivity].
Defined.

End PasvFacts.

Module WorldFacts.
Import JS World.

Section Update.
Context {A : Type}.

Lemma nth_error_update (i j : nat) (f : A -> A) (l : list A) :
  nth_error (update i f l) j
  = if Nat.eqb i j then option_map f (nth_error l j) else nth_error l j.
Proof.
  revert i j. induction l as [|x l IH]; intros [|i] [|j]; simpl; try reflexivity.
  - now destruct (Nat.eqb _ _).
  - apply IH.
Qed.

Lemma length_update (i : nat) (f : A -> A) (l : list A) :
  List.length (update i f l) = List.length l.
Proof.
  revert i. induction l as [|x l IH]; intros [|i]; simpl; auto.
Qed.

Lemma nth_error_new (l : list A) (x : A) :
  nth_error (l ++ [x]) (List.length l) = Some x.
Proof. induction l; simpl; auto. Qed.

Lemma nth_error_old (l : list A) (x : A) (i : nat) (y : A) :
  nth_error l i = Some y -> nth_error (l ++ [x]) i = Some y.
Proof.
  intros H. rewrite nth_error_app1; [exact H |].
  apply nth_error_Some. congruence.
Qed.
End Update.

End WorldFacts.

Module ClientFacts.
Import JS World WorldFacts Scenario.

Ltac unfold_client :=
  repeat progress
    unfold Client.handle, Client.close, Client.set_socket, Client.set_dataSocket,
      Client._setupSocket, Client.setTimeout, Client.send, Client.task_resolve,
      Client.task_reject, Client.hasTLS, Client._closeSocket, Client.log,
      Client.settle,
      Client.new_promise, Client.new_socket, Client.on_socket,
      Client.socket_get, Client.promise_at,
      bind, ret, get, modify, throw, try_catch in *.


Ltac unfold_ftp :=
  repeat progress
    unfold Ftp.connect, Ftp.send, Ftp.emit, Ftp.call_listener, Ftp._respond,
      Client._respond, Ftp.call_handler, Ftp.upgradeSocket in *;
  unfold_client.

(** ** The timeout (C9) *)

Lemma set_socket_timeout (w : world) (n : sock_id) (sk : socket) :
  0 <= _timeoutMillis (this w) ->
  nth_error (sockets w) n = Some sk ->
  exists sk',
    nth_error (sockets (final (Client.set_socket (Some n) w))) n = Some sk'
    /\ timeout sk' = Some (_timeoutMillis (this w)).
Proof.
  intros Ht H. apply Z.ltb_ge in Ht. unfold_client.
  destruct (_socket (this w)) as [o|]; cbn; rewrite Ht; cbn.
  - rewrite !nth_error_update, !Nat.eqb_refl.
    destruct (Nat.eqb o n); rewrite H; cbn; eauto.
  - rewrite !nth_error_update, !Nat.eqb_refl. rewrite H; cbn; eauto.
Qed.

Lemma set_dataSocket_timeout (w : world) (n : sock_id) (sk : socket) :
  0 <= _timeoutMillis (this w) ->
  nth_error (sockets w) n = Some sk ->
  exists sk',
    nth_error (sockets (final (Client.set_dataSocket (Some n) w))) n = Some sk'
    /\ timeout sk' = Some (_timeoutMillis (this w)).
Proof.
  intros Ht H. apply Z.ltb_ge in Ht. unfold_client.
  destruct (_dataSocket (this w)) as [o|]; cbn; rewrite Ht; cbn.
  - rewrite !nth_error_update, !Nat.eqb_refl.
    destruct (Nat.eqb o n); rewrite H; cbn; eauto.
  - rewrite !nth_error_update, !Nat.eqb_refl. rewrite H; cbn; eauto.
Qed.

(** A negative timeout is refused by [setTimeout] before the socket is
    installed: neither setter assigns its field. *)
Lemma setter_refuses_negative_timeout (w : world) (n : sock_id) :
  _timeoutMillis (this w) < 0 ->
  (exists w', Client.set_socket (Some n) w = Throw Client.RangeError_msecs w'
              /\ this w' = this w)
  /\ (exists w', Client.set_dataSocket (Some n) w = Throw Client.RangeError_msecs w'
                 /\ this w' = this w).
Proof.
  intros Ht. apply Z.ltb_lt in Ht. unfold_client.
  destruct (_socket (this w)) as [o|], (_dataSocket (this w)) as [o'|]; cbn;
    rewrite Ht; cbn; split; eexists; split; reflexivity.
Qed.

(** C9, as the code has it: without an argument the timeout is 0, which
    leaves the timeout of the control socket disabled; whatever the value
    from 0 on, the constructor returns a client with that timeout on its
    control socket, and [set socket] and [set dataSocket] pass it to
    [setTimeout] of the socket they install; a negative value is refused
    by [setTimeout], so that the constructor throws. *)
Theorem timeout_default_zero_and_uniform :
  (let c := final (Client.constructor None) in
   returns (Client.constructor None) = true
   /\ _timeoutMillis (this c) = 0
   /\ exists s sk, _socket (this c) = Some s /\ nth_error (sockets c) s = Some sk
        /\ timeout sk = Some 0 /\ Spec.timeout_enabled sk = false)
  /\ (forall t : Z,
        0 <= t ->
        let c := final (Client.constructor (Some t)) in
        returns (Client.constructor (Some t)) = true
        /\ _timeoutMillis (this c) = t
        /\ exists s sk, _socket (this c) = Some s /\ nth_error (sockets c) s = Some sk
             /\ timeout sk = Some t)
  /\ (forall t : Z,
        t < 0 ->
        exists w, Client.constructor (Some t) = Throw Client.RangeError_msecs w)
  /\ (forall (w : world) (n : sock_id) (sk : socket),
        0 <= _timeoutMillis (this w) ->
        nth_error (sockets w) n = Some sk ->
        (exists sk',
           nth_error (sockets (final (Client.set_socket (Some n) w))) n = Some sk'
           /\ timeout sk' = Some (_timeoutMillis (this w)))
        /\ (exists sk',
             nth_error (sockets (final (Client.set_dataSocket (Some n) w))) n = Some sk'
             /\ timeout sk' = Some (_timeoutMillis (this w)))).
Proof.
  split; [| split; [| split]].
  - cbn. split; [reflexivity |]. split; [reflexivity |].
    eexists 0%nat, _. repeat split.
  - intros t Ht. apply Z.ltb_ge in Ht.
    unfold Client.constructor. unfold_client. cbn -[Z.ltb]. rewrite Ht. cbn. split; [reflexivity |]. split; [reflexivity |].
    eexists 0%nat, _. repeat split.
  - intros t Ht. apply Z.ltb_lt in Ht.
    unfold Client.constructor. unfold_client. cbn -[Z.ltb]. rewrite Ht. cbn. eexists. reflexivity.
  - intros w n sk Ht H. split;
      [eapply set_socket_timeout | eapply set_dataSocket_timeout]; eassumption.
Qed.

Lemma timeout_default_zero_and_uniform_witness :
  (exists sk',
     nth_error (sockets (final (Client.set_dataSocket (Some 0%nat)
                                  (final (Client.constructor (Some 5000))))))
               0%nat = Some sk'
     /\ timeout sk' = Some 5000)
  /\ (exists w, Client.constructor (Some (-1)) = Throw Client.RangeError_msecs w).
Proof.
  destruct timeout_default_zero_and_uniform as (_ & _ & Hneg & H).
  split.
  - refine (proj2 (H (final (Client.constructor (Some 5000))) 0%nat _ _ eq_refl)).
    cbn. lia.
  - apply (Hneg (-1)). lia.
Defined.

(** Against C9 as stated: the default is not 30000. *)
Lemma timeout_default_is_not_30000 :
  _timeoutMillis (this (final (Client.constructor None))) <> 30000.
Proof. cbn. discriminate. Qed.


(** ** handle *)

(** What [handle] does when there is a control socket to write to. *)
Lemma handle_installs (w : world) (command : option string) (h : handler)
    (n : sock_id) :
  _socket (this w) = Some n ->
  exists w',
    Client.handle command h w = Return (List.length (promises w)) w'
    /\ promises w' = (promises w ++ [Pending])%list
    /\ _handler (this w') = Some h
    /\ _task (this w') = Some (List.length (promises w))
    /\ _socket (this w') = _socket (this w)
    /\ _dataSocket (this w') = _dataSocket (this w)
    /\ (forall i, option_map destroyed (nth_error (sockets w') i)
                  = option_map destroyed (nth_error (sockets w) i)).
Proof.
  intros Hs. unfold_client. cbn.
  destruct command as [c|]; cbn.
  - destruct (verbose (this w)); cbn; rewrite Hs; cbn;
      (eexists; repeat split; try assumption;
       intros i; cbn; rewrite nth_error_update;
       destruct (Nat.eqb n i); [now destruct (nth_error (sockets w) i) | reflexivity]).
  - eexists; repeat split; assumption.
Qed.


Lemma respond_calls_handler (w : world) (h : handler) (res : payload) :
  _handler (this w) = Some h ->
  Ftp._respond res w = Ftp.call_handler h res (_task (this w)) w.
Proof. intros H. unfold Ftp._respond, Client._respond, bind, get. now rewrite H. Qed.


(** C2, as the code has it: a second [handle] while a task is pending
    does not fail; the new handler and task replace the pending ones, the
    new promise is pending, the promise of the first task stays unsettled,
    and from then on a signal goes to the new handler. *)
Theorem handle_replaces_pending_task (w : world) (h1 h2 : handler) (t1 : task_id)
    (command : option string) (n : sock_id) :
  _handler (this w) = Some h1 -> _task (this w) = Some t1 ->
  nth_error (promises w) t1 = Some Pending ->
  _socket (this w) = Some n ->
  exists w',
    let t2 := List.length (promises w) in
    Client.handle command h2 w = Return t2 w'
    /\ nth_error (promises w') t2 = Some Pending
    /\ _handler (this w') = Some h2
    /\ _task (this w') = Some t2
    /\ nth_error (promises w') t1 = Some Pending
    /\ forall res, Ftp._respond res w' = Ftp.call_handler h2 res (Some t2) w'.
Proof.
  intros Hh Ht Hp Hs.
  destruct (handle_installs w command h2 n Hs) as (w' & E & Hps & Hh' & Ht' & _).
  exists w'. cbn zeta. repeat split; try assumption.
  - rewrite Hps. apply nth_error_new.
  - rewrite Hps. now apply nth_error_old.
  - intros res. rewrite (respond_calls_handler _ _ _ Hh'), Ht'. reflexivity.
Qed.

Lemma handle_replaces_pending_task_witness :
  exists w',
    Client.handle (Some "NOOP") (send_handler false) connecting = Return 1%nat w'
    /\ nth_error (promises w') 1%nat = Some Pending
    /\ _handler (this w') = Some (send_handler false)
    /\ _task (this w') = Some 1%nat
    /\ nth_error (promises w') 0%nat = Some Pending
    /\ forall res, Ftp._respond res w'
                   = Ftp.call_handler (send_handler false) res (Some 1%nat) w'.
Proof.
  exact (handle_replaces_pending_task connecting connect_handler (send_handler false)
           0%nat (Some "NOOP") 0%nat eq_refl eq_refl eq_refl eq_refl).
Defined.

(** Against C2 as stated: with the task of [connect] pending, [send] does
    not fail, its promise is pending, and the reply that follows settles
    the second task, not the first. *)
Lemma second_dispatch_is_not_busy :
  let w := final (Ftp.send "NOOP" false connecting) in
  nth_error (promises connecting) 0%nat = Some Pending
  /\ nth_error (promises w) 1%nat = Some Pending
  /\ (forall e, nth_error (promises w) 1%nat <> Some (Rejected e))
  /\ _handler (this connecting) = Some connect_handler
  /\ _handler (this w) = Some (send_handler false)
  /\ let w' := final (Ftp.emit 0%nat (ev_data ("220 ready" ++ Client.CRLF)) w) in
     nth_error (promises w') 0%nat = Some Pending
     /\ nth_error (promises w') 1%nat = Some (Resolved (VNumber (Num 220))).
Proof. cbn. repeat split; discriminate. Qed.

(** ** connect (C8) *)

(** C8, as the code has it: the promise of [connect] is resolved with
    [undefined] when the first payload has code 220, and rejected with the
    payload otherwise. *)
Theorem connect_resolves_undefined_on_220 (w : world) (host : string)
    (port : number) (n : sock_id) (res : payload) :
  _socket (this w) = Some n ->
  exists p w1 w2,
    Ftp.connect host port w = Return p w1
    /\ nth_error (promises w1) p = Some Pending
    /\ Ftp._respond res w1 = Return tt w2
    /\ nth_error (promises w2) p
       = Some (if Ftp.code_is res 220 then Resolved VUndefined
               else Rejected (VPayload res)).
Proof.
  intros Hs. unfold Ftp.connect. unfold bind at 1. unfold get. rewrite Hs.
  unfold bind at 1. cbn [Client.on_socket modify].
  set (w0 := set_sockets _ w).
  destruct (handle_installs w0 None connect_handler n Hs)
    as (w1 & E & Hps & Hh & Ht & _).
  change (promises w0) with (promises w) in *.
  rewrite E. exists (List.length (promises w)), w1.
  rewrite (respond_calls_handler _ _ _ Hh), Ht.
  assert (Hp : nth_error (promises w1) (List.length (promises w)) = Some Pending)
    by (rewrite Hps; apply nth_error_new).
  cbn [Ftp.call_handler]. destruct (Ftp.code_is res 220); unfold_client; cbn;
    eexists; (repeat split; [assumption |]);
    cbn; rewrite nth_error_update, Nat.eqb_refl, Hp; reflexivity.
Qed.

Lemma connect_resolves_undefined_on_220_witness :
  exists p w1 w2,
    Ftp.connect "h" (Num 21) (final (Client.constructor None)) = Return p w1
    /\ nth_error (promises w1) p = Some Pending
    /\ Ftp._respond (Response (Num 220) "220 Service ready") w1 = Return tt w2
    /\ nth_error (promises w2) p = Some (Resolved VUndefined).
Proof.
  exact (connect_resolves_undefined_on_220 (final (Client.constructor None)) "h"
           (Num 21) 0%nat (Response (Num 220) "220 Service ready") eq_refl).
Defined.

(** Against C8 as stated: after the greeting [220 Service ready] the
    promise of [connect] is resolved, but not with the response. *)
Lemma connect_does_not_resolve_with_the_response :
  let w := final (Ftp.emit 0%nat (ev_data ("220 Service ready" ++ Client.CRLF))
                    connecting) in
  nth_error (promises w) 0%nat = Some (Resolved VUndefined)
  /\ nth_error (promises w) 0%nat
     <> Some (Resolved (VPayload (Response (Num 220) "220 Service ready"))).
Proof. cbn. split; [reflexivity | discriminate]. Qed.


(** ** close (C3) *)

(** C3, as the code has it: [close] calls [destroy] on the control socket
    and on the data socket, every time it is called, and logs when
    verbose; it changes nothing else: a pending task stays pending with
    its handler, and an operation dispatched afterwards is installed like
    any other. *)
Theorem close_only_destroys_sockets (w : world) :
  exists w',
    Client.close w = Return tt w'
    /\ this w' = this w
    /\ promises w' = promises w
    /\ console w'
       = (if verbose (this w) then console w ++ ["Closing sockets."] else console w)%list
    /\ (forall s,
          option_map destroyed (nth_error (sockets w') s)
          = option_map (fun d => d + Spec.destroys w s)%nat
              (option_map destroyed (nth_error (sockets w) s)))
    /\ (forall command h n,
          _socket (this w) = Some n ->
          exists w'',
            Client.handle command h w' = Return (List.length (promises w)) w''
            /\ nth_error (promises w'') (List.length (promises w)) = Some Pending
            /\ _handler (this w'') = Some h).
Proof.
  assert (Hclose : exists w',
    Client.close w = Return tt w'
    /\ this w' = this w
    /\ promises w' = promises w
    /\ console w'
       = (if verbose (this w) then console w ++ ["Closing sockets."] else console w)%list
    /\ (forall s,
          option_map destroyed (nth_error (sockets w') s)
          = option_map (fun d => d + Spec.destroys w s)%nat
              (option_map destroyed (nth_error (sockets w) s)))).
  { unfold Spec.destroys. unfold_client.
    destruct w as [[tm tk hd tls vb [a|] [b|]] sks prs bufs con pps sus];
      destruct vb; cbn;
      (eexists; split; [reflexivity |]; split; [reflexivity |];
       split; [reflexivity |]; split; [reflexivity |];
       intros s; cbn; rewrite ?nth_error_update;
       repeat match goal with |- context [Nat.eqb ?x ?y] => destruct (Nat.eqb x y) end;
       destruct (nth_error sks s); cbn; f_equal; lia). }
  destruct Hclose as (w' & E & Ht & Hp & Hc & Hd).
  exists w'. repeat (split; [assumption |]).
  intros command h n Hn.
  destruct (handle_installs w' command h n) as (w2 & E2 & Hps & Hh & _);
    [rewrite Ht; exact Hn |].
  rewrite Hp in *. exists w2. split; [exact E2 |]. split; [| exact Hh].
  rewrite Hps. apply nth_error_new.
Qed.

(** Against C3 as stated: [close] leaves the pending task of [connect]
    pending, a second [close] calls [destroy] a second time, and a [send]
    after [close] is not rejected. *)
Lemma close_rejects_nothing :
  let w1 := final (Client.close connecting) in
  let w2 := final (Client.close w1) in
  let w3 := final (Ftp.send "NOOP" false w2) in
  nth_error (promises connecting) 0%nat = Some Pending
  /\ nth_error (promises w1) 0%nat = Some Pending
  /\ _handler (this w1) = Some connect_handler
  /\ option_map destroyed (nth_error (sockets w1) 0%nat) = Some 1%nat
  /\ option_map destroyed (nth_error (sockets w2) 0%nat) = Some 2%nat
  /\ nth_error (promises w3) 1%nat = Some Pending
  /\ forall e, nth_error (promises w3) 1%nat <> Some (Rejected e).
Proof. cbn. repeat split; discriminate. Qed.


Lemma close_only_destroys_sockets_witness :
  exists w'',
    Client.handle (Some "NOOP") (send_handler false)
      (final (Client.close connecting)) = Return 1%nat w''
    /\ nth_error (promises w'') 1%nat = Some Pending
    /\ _handler (this w'') = Some (send_handler false).
Proof.
  destruct (close_only_destroys_sockets connecting) as (w' & E & _ & _ & _ & _ & H).
  injection E as <-.
  exact (H (Some "NOOP") (send_handler false) 0%nat eq_refl).
Defined.

(** ** Timeouts (C6) *)

(** Every handler of the library rejects its task with an error payload. *)
Lemma library_handler_rejects_error (w : world) (h : handler) (t : task_id)
    (e : error_value) :
  Spec.library_handler h = true -> error_truthy e = true ->
  nth_error (promises w) t = Some Pending ->
  exists w',
    Ftp.call_handler h (Failure e) (Some t) w = Return tt w'
    /\ nth_error (promises w') t = Some (Rejected (VPayload (Failure e)))
    /\ _handler (this w') = None
    /\ _socket (this w') = _socket (this w)
    /\ _dataSocket (this w') = _dataSocket (this w)
    /\ sockets w' = sockets w
    /\ List.length (promises w') = List.length (promises w).
Proof.
  intros Hlib He Hp.
  assert (Hrej : exists w',
    Client.task_reject (Some t) (VPayload (Failure e)) w = Return tt w'
    /\ nth_error (promises w') t = Some (Rejected (VPayload (Failure e)))
    /\ _handler (this w') = None
    /\ _socket (this w') = _socket (this w)
    /\ _dataSocket (this w') = _dataSocket (this w)
    /\ sockets w' = sockets w
    /\ List.length (promises w') = List.length (promises w)).
  { unfold_client. cbn. eexists. split; [reflexivity |]. cbn.
    rewrite nth_error_update, Nat.eqb_refl, Hp, length_update. repeat split. }
  destruct h; try discriminate Hlib; cbn [Ftp.call_handler];
    unfold Ftp.code_is, Ftp.code_ge, Ftp.code_lt, Ftp.code_gt, Ftp.code_truthy,
      Ftp.has_error; cbn [Ftp.res_code Ftp.res_error andb orb];
    rewrite ?He; exact Hrej.
Qed.

(** C6, as the code has it: a timeout event on a socket that carries the
    timeout listener of the client rejects the pending task of a library
    operation with [{ error: "Timeout" }]; the context is not closed: no
    socket is destroyed, and an operation dispatched afterwards is
    installed and pending. *)
Theorem timeout_rejects_task_without_closing (w : world) (h : handler)
    (t : task_id) (s : sock_id) (ls : list listener) :
  Spec.library_handler h = true ->
  _handler (this w) = Some h -> _task (this w) = Some t ->
  nth_error (promises w) t = Some Pending ->
  option_map listeners (nth_error (sockets w) s) = Some ls ->
  filter (listens_to ev_timeout) ls = [timeout_listener] ->
  exists w',
    Ftp.emit s ev_timeout w = Return tt w'
    /\ nth_error (promises w') t
       = Some (Rejected (VPayload (Failure (ErrorString "Timeout"))))
    /\ _handler (this w') = None
    /\ (forall i, option_map destroyed (nth_error (sockets w') i)
                  = option_map destroyed (nth_error (sockets w) i))
    /\ (forall command ignoreErrorCodes n,
          _socket (this w) = Some n ->
          exists w'',
            Ftp.send command ignoreErrorCodes w'
              = Return (List.length (promises w)) w''
            /\ nth_error (promises w'') (List.length (promises w)) = Some Pending
            /\ _handler (this w'') = Some (send_handler ignoreErrorCodes)).
Proof.
  intros Hlib Hh Ht Hp Hls Hf.
  unfold Ftp.emit, Client.socket_get. unfold bind at 1, get at 1. rewrite Hls, Hf.
  unfold bind at 1. cbn [Client.on_socket modify for_each Ftp.call_listener].
  set (w0 := set_sockets _ w).
  unfold bind at 1. rewrite (respond_calls_handler w0 h) by exact Hh.
  change (_task (this w0)) with (_task (this w)). rewrite Ht.
  destruct (library_handler_rejects_error w0 h t (ErrorString "Timeout") Hlib eq_refl Hp)
    as (w' & E & Hrej & Hnone & Hso & Hds & Hsk & Hlen).
  rewrite E. exists w'. cbn [ret]. split; [reflexivity |].
  split; [exact Hrej |]. split; [exact Hnone |]. split.
  - intros i. rewrite Hsk. subst w0. cbn. rewrite nth_error_update.
    destruct (Nat.eqb s i); [now destruct (nth_error (sockets w) i) | reflexivity].
  - intros command ign n Hn. unfold Ftp.send.
    destruct (handle_installs w' (Some command) (send_handler ign) n)
      as (w2 & E2 & Hps & Hh2 & _); [rewrite Hso; exact Hn |].
    change (List.length (promises w0)) with (List.length (promises w)) in Hlen.
    rewrite Hlen in *. exists w2. split; [exact E2 |]. split; [| exact Hh2].
    rewrite Hps, <- Hlen. apply nth_error_new.
Qed.

Lemma timeout_rejects_task_without_closing_witness :
  exists w',
    Ftp.emit 0%nat ev_timeout connecting = Return tt w'
    /\ nth_error (promises w') 0%nat
       = Some (Rejected (VPayload (Failure (ErrorString "Timeout"))))
    /\ _handler (this w') = None.
Proof.
  destruct (timeout_rejects_task_without_closing connecting connect_handler 0%nat
              0%nat [error_listener; timeout_listener; control_data_listener]
              eq_refl eq_refl eq_refl eq_refl eq_refl eq_refl)
    as (w' & E & Hrej & Hnone & _).
  exists w'. repeat split; assumption.
Defined.

(** Against C6 as stated: after the timeout the control socket is not
    destroyed, and the next operation is pending, not rejected; and a
    task whose handler ignores the signal is not rejected by the timeout. *)
Lemma timeout_does_not_close :
  (let w1 := final (Ftp.emit 0%nat ev_timeout connecting) in
   let w2 := final (Ftp.send "NOOP" false w1) in
   nth_error (promises w1) 0%nat
     = Some (Rejected (VPayload (Failure (ErrorString "Timeout"))))
   /\ option_map destroyed (nth_error (sockets w1) 0%nat) = Some 0%nat
   /\ nth_error (promises w2) 1%nat = Some Pending
   /\ forall e, nth_error (promises w2) 1%nat <> Some (Rejected e))
  /\ (let w := final (Run.run [Run.call_handle None deaf_handler;
                               Run.emits 0%nat ev_timeout]
                              (final (Client.constructor None))) in
      nth_error (promises w) 0%nat = Some Pending).
Proof. cbn. repeat split; discriminate. Qed.

End ClientFacts.

Module SettledFacts.
Import JS World WorldFacts Tasks.



Section Combinators.
Context {A B : Type}.





End Combinators.
















End SettledFacts.

Module CoupledFacts.
Import JS World WorldFacts Tasks.

Lemma grows_refl (w : world) : grows w w.
Proof. split; [lia | now left]. Qed.



Section Combinators.
Context {A B : Type}.




End Combinators.








(** ** Settling the current task *)






(** ** handle *)



(** ** Handlers and listeners *)




Lemma keeps_task_throw (task : option task_id) (e : value) :
  keeps_task task (throw e).
Proof. intros w Hc E. split; [exact Hc | split; [apply grows_refl | exact E]]. Qed.












Lemma emit_unfold (s : sock_id) (e : socket_event) (w : world) :
  Ftp.emit s e w
  = match nth_error (sockets w) s with
    | None => Return tt w
    | Some sk =>
        let called := filter (listens_to e) (listeners sk) in
        match e, called with
        | ev_error message, [] => throw (VError (ErrorObject message))
        | _, _ =>
            Client.on_socket s
              (with_listeners (filter (fun l => negb (listens_to e l && is_once l)))) ;;
            for_each (Ftp.call_listener s e) called
        end w
    end.
Proof.
  unfold Ftp.emit, Client.socket_get, bind at 1, get.
  now destruct (nth_error (sockets w) s).
Qed.



(** ** The async functions *)











(** ** Runs of immediate operations *)






End CoupledFacts.

Module RedactionFacts.
Import JS World WorldFacts Redaction.

(** ** The combinators respect redaction *)

Section Combinators.
Context {A B : Type}.

Lemma related_ret (a : A) : related (ret a) (ret a).
Proof. intros w1 w2 H. cbn. auto. Qed.

Lemma related_throw (e : value) : related (@throw A e) (throw e).
Proof. intros w1 w2 H. cbn. auto. Qed.

Lemma related_bind (m1 m2 : M A) (k1 k2 : A -> M B) :
  related m1 m2 -> (forall a, related (k1 a) (k2 a)) ->
  related (bind m1 k1) (bind m2 k2).
Proof.
  intros Hm Hk w1 w2 H. unfold bind. specialize (Hm w1 w2 H).
  destruct (m1 w1), (m2 w2); cbn in Hm; try contradiction;
    destruct Hm as [-> Hw]; [now apply Hk | cbn; auto].
Qed.

Lemma related_try_catch (m1 m2 : M A) (h1 h2 : value -> M A) :
  related m1 m2 -> (forall e, related (h1 e) (h2 e)) ->
  related (try_catch m1 h1) (try_catch m2 h2).
Proof.
  intros Hm Hh w1 w2 H. unfold try_catch. specialize (Hm w1 w2 H).
  destruct (m1 w1), (m2 w2); cbn in Hm; try contradiction;
    destruct Hm as [-> Hw]; [cbn; auto | now apply Hh].
Qed.

Lemma related_get (f : world -> A) :
  (forall w, f w = f (redact w)) -> related (get f) (get f).
Proof.
  intros Hf w1 w2 H. cbn. split; [| exact H].
  now rewrite (Hf w1), (Hf w2), H.
Qed.
End Combinators.

Lemma related_modify (g1 g2 : world -> world) :
  (forall w1 w2, redact w1 = redact w2 -> redact (g1 w1) = redact (g2 w2)) ->
  related (modify g1) (modify g2).
Proof. intros Hg w1 w2 H. cbn. auto. Qed.

(** A change of a part of the world that redaction leaves alone. *)
Lemma related_modify_plain (g : world -> world) :
  (forall w, redact (g w) = g (redact w)) -> related (modify g) (modify g).
Proof.
  intros Hg. apply related_modify. intros w1 w2 H. now rewrite !Hg, H.
Qed.

Lemma map_update {X Y : Type} (h : X -> Y) (f : X -> X) (f' : Y -> Y)
    (i : nat) (l : list X) :
  (forall x, h (f x) = f' (h x)) -> map h (update i f l) = update i f' (map h l).
Proof.
  intros Hc. revert i. induction l as [|x l IH]; intros [|i]; simpl;
    rewrite ?Hc, ?IH; reflexivity.
Qed.

Lemma redact_update (s : sock_id) (f1 f2 f' : socket -> socket) (w1 w2 : world) :
  (forall sk, redact_socket (f1 sk) = f' (redact_socket sk)) ->
  (forall sk, redact_socket (f2 sk) = f' (redact_socket sk)) ->
  redact w1 = redact w2 ->
  redact (set_sockets (update s f1) w1) = redact (set_sockets (update s f2) w2).
Proof.
  intros H1 H2 H. unfold redact in *. cbn.
  rewrite (map_update _ f1 f' s _ H1), (map_update _ f2 f' s _ H2).
  injection H as Ht Hs Hp Hb Hc Hpi Hsu. congruence.
Qed.

Lemma related_on_socket (s : sock_id) (f : socket -> socket) :
  (forall sk, redact_socket (f sk) = f (redact_socket sk)) ->
  related (Client.on_socket s f) (Client.on_socket s f).
Proof.
  intros Hf. apply related_modify. intros w1 w2 H.
  now apply (redact_update s f f f).
Qed.

(** What is written to a socket is not observed. *)
Lemma related_write (s : sock_id) (d1 d2 : string) :
  related (Client.on_socket s (with_write d1)) (Client.on_socket s (with_write d2)).
Proof.
  apply related_modify. intros w1 w2 H.
  now apply (redact_update s _ _ (fun sk => sk)).
Qed.

Lemma related_socket_get {A : Type} (s : sock_id) (field : socket -> A) :
  (forall sk, field (redact_socket sk) = field sk) ->
  related (Client.socket_get s field) (Client.socket_get s field).
Proof.
  intros Hf. apply related_get. intros w. cbn.
  rewrite nth_error_map. destruct (nth_error (sockets w) s); cbn; [| reflexivity].
  now rewrite Hf.
Qed.


(** ** The methods of the client respect redaction *)

Ltac rel_step :=
  first
    [ apply related_ret
    | apply related_throw
    | apply related_bind; [| intros ?]
    | apply related_try_catch; [| intros ?]
    | apply related_get; intros ?; reflexivity
    | apply related_modify_plain; intros ?; reflexivity
    | apply related_on_socket; intros ?; reflexivity
    | apply related_write
    | apply related_socket_get; intros ?; reflexivity
    | match goal with
      | |- related (match ?x with _ => _ end) (match ?x with _ => _ end) =>
          destruct x
      | |- related (if ?x then _ else _) (if ?x then _ else _) => destruct x
      end ].

Ltac rel := repeat rel_step.

Lemma related_new_socket (init : socket) :
  related (Client.new_socket init) (Client.new_socket init).
Proof.
  unfold Client.new_socket. rel.
  - apply related_get. intros w. cbn. now rewrite length_map.
  - apply related_modify. intros w1 w2 H. unfold redact in *. cbn.
    rewrite !map_app. injection H as Ht Hs Hp Hb Hc Hpi Hsu. congruence.
Qed.

Lemma related_new_promise : related Client.new_promise Client.new_promise.
Proof. unfold Client.new_promise. rel. Qed.

Lemma related_promise_at (t : task_id) :
  related (Client.promise_at t) (Client.promise_at t).
Proof. unfold Client.promise_at. rel. Qed.

Lemma related_settle (t : task_id) (p : promise) :
  related (Client.settle t p) (Client.settle t p).
Proof. unfold Client.settle. rel. Qed.

Lemma related_log (message : string) :
  related (Client.log message) (Client.log message).
Proof. unfold Client.log. rel. Qed.

Lemma related_closeSocket (socket : option sock_id) :
  related (Client._closeSocket socket) (Client._closeSocket socket).
Proof. unfold Client._closeSocket. rel. Qed.

Lemma related_close : related Client.close Client.close.
Proof.
  unfold Client.close.
  repeat first [apply related_log | apply related_closeSocket | rel_step].
Qed.

Lemma related_setupSocket (newSocket oldSocket : option sock_id) :
  related (Client._setupSocket newSocket oldSocket)
          (Client._setupSocket newSocket oldSocket).
Proof.
  unfold Client._setupSocket, Client.setTimeout, Client.removeAllListeners,
    Client.add_listener.
  rel.
Qed.

Lemma related_set_socket (socket : option sock_id) :
  related (Client.set_socket socket) (Client.set_socket socket).
Proof.
  unfold Client.set_socket, Client.add_listener.
  repeat first [apply related_setupSocket | rel_step].
Qed.

Lemma related_set_dataSocket (socket : option sock_id) :
  related (Client.set_dataSocket socket) (Client.set_dataSocket socket).
Proof.
  unfold Client.set_dataSocket.
  repeat first [apply related_setupSocket | rel_step].
Qed.

Lemma related_hasTLS : related Client.hasTLS Client.hasTLS.
Proof. unfold Client.hasTLS. rel. Qed.

Lemma related_task_resolve (task : option task_id) (v : value) :
  related (Client.task_resolve task v) (Client.task_resolve task v).
Proof. unfold Client.task_resolve. repeat first [apply related_settle | rel_step]. Qed.

Lemma related_task_reject (task : option task_id) (v : value) :
  related (Client.task_reject task v) (Client.task_reject task v).
Proof. unfold Client.task_reject. repeat first [apply related_settle | rel_step]. Qed.

(** Two commands that differ in a masked argument only. *)
Lemma redact_command_eq (c1 c2 : string) :
  redact_command c1 = redact_command c2 ->
  (indexOf c1 "PASS" =? -1) = (indexOf c2 "PASS" =? -1)
  /\ ((indexOf c1 "PASS" =? -1) = true -> c1 = c2).
Proof.
  unfold redact_command.
  destruct (indexOf c1 "PASS" =? -1) eqn:E1, (indexOf c2 "PASS" =? -1) eqn:E2;
    cbn; intros H; subst; try (split; congruence); discriminate.
Qed.

Lemma related_send (c1 c2 : string) :
  redact_command c1 = redact_command c2 ->
  related (Client.send c1) (Client.send c2).
Proof.
  intros H. apply redact_command_eq in H as [Hp Heq].
  unfold Client.send. rewrite <- Hp.
  destruct (indexOf c1 "PASS" =? -1); cbn [negb].
  - rewrite <- (Heq eq_refl). repeat first [apply related_log | rel_step].
  - repeat first [apply related_log | rel_step].
Qed.

Lemma related_handle (c1 c2 : option string) (h : handler) :
  option_map redact_command c1 = option_map redact_command c2 ->
  related (Client.handle c1 h) (Client.handle c2 h).
Proof.
  intros H. unfold Client.handle.
  apply related_bind; [apply related_new_promise | intros p].
  apply related_bind; [| intros ?; apply related_ret].
  apply related_try_catch; [| intros e; apply related_settle].
  do 2 (apply related_bind; [rel | intros ?]).
  destruct c1 as [c1|], c2 as [c2|]; try discriminate H.
  - apply related_send. now injection H.
  - apply related_ret.
Qed.


(** ** The operations respect redaction *)

Ltac rel_ftp_step :=
  first
    [ apply related_log | apply related_settle | apply related_task_resolve
    | apply related_task_reject | apply related_new_socket
    | apply related_new_promise | apply related_promise_at
    | apply related_hasTLS | apply related_set_socket
    | apply related_set_dataSocket | apply related_close
    | apply related_send; reflexivity
    | apply related_handle; reflexivity
    | rel_step ].

Ltac rel_ftp := repeat rel_ftp_step.

Lemma related_for_each {A : Type} (f : A -> M unit) (l : list A) :
  (forall a, related (f a) (f a)) -> related (for_each f l) (for_each f l).
Proof.
  intros Hf. induction l as [|a l IH]; cbn [for_each]; [apply related_ret |].
  apply related_bind; [apply Hf | intros _; exact IH].
Qed.

Lemma related_perform (task : option task_id) (a : action) :
  related (Ftp.perform task a) (Ftp.perform task a).
Proof. destruct a; cbn [Ftp.perform]; rel_ftp. Qed.

Lemma related_call_handler (h : handler) (res : payload) (task : option task_id) :
  related (Ftp.call_handler h res task) (Ftp.call_handler h res task).
Proof.
  destruct h; cbn [Ftp.call_handler]; unfold Ftp.upgradeSocket, Client.add_listener;
    try (apply related_for_each; intros; apply related_perform);
    rel_ftp.
Qed.

Lemma related_respond (res : payload) : related (Ftp._respond res) (Ftp._respond res).
Proof.
  unfold Ftp._respond, Client._respond.
  repeat first [apply related_call_handler | rel_step].
Qed.

Lemma related_call_listener (s : sock_id) (e : socket_event) (l : listener) :
  related (Ftp.call_listener s e l) (Ftp.call_listener s e l).
Proof.
  destruct l, e; cbn [Ftp.call_listener];
    unfold Ftp.buffer_at, Client.removeAllListeners;
    cbv zeta;
    repeat first [apply related_respond | apply related_call_handler | rel_ftp].
Qed.

Lemma related_emit (s : sock_id) (e : socket_event) :
  related (Ftp.emit s e) (Ftp.emit s e).
Proof.
  unfold Ftp.emit.
  apply related_bind; [apply related_socket_get; intros ?; reflexivity | intros ls].
  destruct ls as [ls|]; [| apply related_ret].
  assert (H : related
    (Client.on_socket s
       (with_listeners (filter (fun l => negb (listens_to e l && is_once l)))) ;;
     for_each (Ftp.call_listener s e) (filter (listens_to e) ls))
    (Client.on_socket s
       (with_listeners (filter (fun l => negb (listens_to e l && is_once l)))) ;;
     for_each (Ftp.call_listener s e) (filter (listens_to e) ls))).
  { apply related_bind; [apply related_on_socket; intros ?; reflexivity | intros _].
    apply related_for_each. intros l. apply related_call_listener. }
  destruct e; try exact H.
  destruct (filter (listens_to (ev_error message)) ls); [apply related_throw | exact H].
Qed.

(** ** The async functions *)

Lemma related_Ftp_send (c1 c2 : string) (ignoreErrorCodes : bool) :
  redact_command c1 = redact_command c2 ->
  related (Ftp.send c1 ignoreErrorCodes) (Ftp.send c2 ignoreErrorCodes).
Proof. intros H. unfold Ftp.send. apply related_handle. cbn. now rewrite H. Qed.

Lemma related_suspend (sc1 sc2 : script) :
  redact_script sc1 = redact_script sc2 ->
  related (modify (set_suspended (fun l => l ++ [sc1])%list))
          (modify (set_suspended (fun l => l ++ [sc2])%list)).
Proof.
  intros Hsc. apply related_modify. intros w1 w2 H. unfold redact in *. cbn.
  rewrite !map_app. cbn [map]. rewrite Hsc.
  injection H as Ht Hs Hp Hb Hc Hpi Hsu. congruence.
Qed.

Lemma related_run_prog (p1 : prog) : forall (p2 : prog) (result : task_id),
  redact_prog p1 = redact_prog p2 ->
  related (Ftp.run_prog p1 result) (Ftp.run_prog p2 result).
Proof.
  induction p1 as [|c1 i1 k1 IH|a1 IHa b1 IHb]; intros [|c2 i2 k2|a2 b2] result H;
    try discriminate H; cbn [Ftp.run_prog].
  - apply related_settle.
  - cbn in H. injection H as Hc Hi Hk. subst i2.
    apply related_bind; [now apply related_Ftp_send | intros t].
    apply related_bind; [apply related_promise_at | intros st].
    destruct st as [[| |]|]; try (apply related_suspend; unfold redact_script; cbn;
      now rewrite Hk).
    + now apply IH.
    + apply related_settle.
  - cbn in H. injection H as Ha Hb.
    apply related_bind; [apply related_hasTLS | intros tls].
    destruct tls; [now apply IHa | now apply IHb].
Qed.

Lemma related_async (p1 p2 : prog) :
  redact_prog p1 = redact_prog p2 -> related (Ftp.async p1) (Ftp.async p2).
Proof.
  intros H. unfold Ftp.async.
  apply related_bind; [apply related_new_promise | intros r].
  apply related_bind; [now apply related_run_prog | intros _; apply related_ret].
Qed.

Lemma related_resume (sc1 sc2 : script) :
  redact_script sc1 = redact_script sc2 ->
  related (Ftp.resume sc1) (Ftp.resume sc2).
Proof.
  intros H. pose proof H as H'. unfold redact_script in H'.
  injection H' as Ha Hk Hr. unfold Ftp.resume. rewrite Ha, Hr.
  apply related_bind; [apply related_promise_at | intros st].
  destruct st as [[| |]|]; try now apply related_suspend.
  - now apply related_run_prog.
  - apply related_settle.
Qed.

Lemma related_resume_all (l1 : list script) : forall l2,
  map redact_script l1 = map redact_script l2 ->
  related (for_each Ftp.resume l1) (for_each Ftp.resume l2).
Proof.
  induction l1 as [|sc1 l1 IH]; intros [|sc2 l2] H; try discriminate H;
    cbn [for_each]; [apply related_ret |].
  cbn [map] in H.
  assert (Hsc : redact_script sc1 = redact_script sc2)
    by exact (f_equal (hd (redact_script sc1)) H).
  assert (Hl : map redact_script l1 = map redact_script l2)
    by exact (f_equal (@tl _) H).
  apply related_bind; [now apply related_resume | intros _; now apply IH].
Qed.

Lemma related_drain : related Ftp.drain Ftp.drain.
Proof.
  intros w1 w2 H.
  change (sim (for_each Ftp.resume (suspended w1) (set_suspended (fun _ => []) w1))
              (for_each Ftp.resume (suspended w2) (set_suspended (fun _ => []) w2))).
  assert (Hl : map redact_script (suspended w1) = map redact_script (suspended w2)).
  { unfold redact in H. now injection H. }
  apply related_resume_all; [exact Hl |].
  unfold redact in *. cbn. injection H as Ht Hs Hp Hb Hc Hpi Hsu. congruence.
Qed.


(** ** Runs *)

Lemma related_call (e : Run.event) : related (Run.call e) (Run.call e).
Proof.
  destruct e; cbn [Run.call]; unfold Run.ignore;
    unfold Ftp.connect, Ftp.send, Ftp.useTLS, Ftp.enterPassiveMode, Ftp.list,
      Ftp.upload, Ftp.download, Ftp.login, Ftp.useDefaultSettings;
    try apply related_emit;
    repeat first [apply related_async; reflexivity | rel_ftp_step].
Qed.

Lemma related_step (e1 e2 : Run.event) :
  related (Run.call e1) (Run.call e2) -> related (Run.step e1) (Run.step e2).
Proof.
  intros H. unfold Run.step.
  apply related_bind; [exact H | intros _; apply related_drain].
Qed.

Lemma related_run (es : list Run.event) : related (Run.run es) (Run.run es).
Proof.
  induction es as [|e es IH]; cbn [Run.run]; [apply related_ret |].
  apply related_bind; [apply related_step, related_call | intros _; exact IH].
Qed.

(** The two passwords of [login] make no difference to what remains after
    redaction. *)
Lemma PASS_command_masked (p : string) : redact_command ("PASS " ++ p) = "PASS".
Proof. reflexivity. Qed.

Lemma related_login (user p1 p2 : string) :
  related (Run.call (Run.call_login user p1)) (Run.call (Run.call_login user p2)).
Proof.
  cbn [Run.call]. unfold Run.ignore, Ftp.login.
  apply related_bind; [| intros _; apply related_ret].
  apply related_async. reflexivity.
Qed.

Lemma sim_console {A : Type} (o1 o2 : outcome A) :
  sim o1 o2 -> console (final o1) = console (final o2).
Proof.
  destruct o1, o2; cbn; try contradiction; intros [_ H];
    exact (f_equal console H).
Qed.

(** The log of a run that starts with [login] does not depend on the
    password. *)
Lemma login_log_independent_of_password (w : world) (user p1 p2 : string)
    (es : list Run.event) :
  console (final (Run.run (Run.call_login user p1 :: es) w))
  = console (final (Run.run (Run.call_login user p2 :: es) w)).
Proof.
  apply sim_console. cbn [Run.run].
  apply related_bind; [| intros _; apply related_run | reflexivity].
  apply related_step, related_login.
Qed.

(** C5, as the code has it: the line logged for a PASS command is
    ["> PASS ###"], whatever the password; the log of a run that starts
    with [login] is the same for any two passwords; and ["PASS "] followed
    by the password is not part of the logged line unless the password is
    a prefix of the mask [###]. *)
Theorem PASS_is_masked_in_the_log :
  (forall (w : world) (p : string),
     verbose (this w) = true ->
     console (final (Client.send ("PASS " ++ p) w))
     = (console w ++ ["> PASS ###"])%list)
  /\ (forall (w : world) (user p1 p2 : string) (es : list Run.event),
        console (final (Run.run (Run.call_login user p1 :: es) w))
        = console (final (Run.run (Run.call_login user p2 :: es) w)))
  /\ (forall p : string,
        String.prefix p "###" = false ->
        Spec.occurs ("PASS " ++ p) "> PASS ###" = false).
Proof.
  split; [| split].
  - intros w p Hv. unfold Client.send.
    change (indexOf ("PASS " ++ p) "PASS" =? -1) with false. cbn [negb].
    unfold Client.log, bind, get, modify. rewrite Hv. cbn.
    destruct (_socket (this w)); reflexivity.
  - apply login_log_independent_of_password.
  - intros p Hp. unfold Spec.occurs, indexOf. cbn in Hp |- *. rewrite Hp. reflexivity.
Qed.

Lemma PASS_is_masked_in_the_log_witness :
  console (final (Client.send ("PASS " ++ "secret") Scenario.verbose_client))
  = ["> PASS ###"]
  /\ Spec.occurs ("PASS " ++ "secret") "> PASS ###" = false.
Proof.
  destruct PASS_is_masked_in_the_log as (Hline & _ & Hocc).
  split; [exact (Hline Scenario.verbose_client "secret" eq_refl)
         | exact (Hocc "secret" eq_refl)].
Defined.

(** Against C5 as stated: for the password [###] the logged line contains
    ["PASS "] followed by the password; and the replies of the server are
    logged as they arrive, so a server that repeats the command puts
    ["PASS secret"] into the log. *)
Lemma PASS_with_the_mask_as_password :
  (let w := final (Client.send ("PASS " ++ "###") Scenario.verbose_client) in
   console w = ["> PASS ###"]
   /\ existsb (Spec.occurs ("PASS " ++ "###")) (console w) = true)
  /\ (let w := final (Run.run Scenario.echoing_server Scenario.verbose_client) in
      console w = ["> USER alice"; "< 331 Password required"; "> PASS ###";
                   "< 500 'PASS secret': command not understood"]
      /\ existsb (Spec.occurs ("PASS " ++ "secret")) (console w) = true).
Proof. vm_compute. repeat split. Qed.

End RedactionFacts.

Module ParserFacts.
Import JS World WorldFacts JSFacts PasvFacts ClientFacts.

(** ** trim *)

Lemma trimEnd_head (c : ascii) (s : string) :
  is_white c = false -> trimEnd (String c s) = String c (trimEnd s).
Proof.
  intros H. cbn [trimEnd]. rewrite H. now destruct (trimEnd s).
Qed.

Lemma trimEnd_white_end (s : string) (c : ascii) :
  is_white c = true -> trimEnd (s ++ String c "") = trimEnd s.
Proof.
  intros H. induction s as [|x s IH]; cbn [append trimEnd].
  - now rewrite H.
  - now rewrite IH.
Qed.

Lemma trimEnd_CRLF (s : string) : trimEnd (s ++ Client.CRLF) = trimEnd s.
Proof.
  unfold Client.CRLF.
  change (String (ascii_of_nat 13) (String (ascii_of_nat 10) ""))
    with (String (ascii_of_nat 13) "" ++ String (ascii_of_nat 10) "").
  rewrite <- append_assoc.
  rewrite !trimEnd_white_end by reflexivity. reflexivity.
Qed.

(** ** The payload built from a chunk that starts with three digits *)

Lemma parseInt_three_digits (c : Spec.code3) :
  is_digit (Spec.d1 c) = true -> is_digit (Spec.d2 c) = true ->
  is_digit (Spec.d3 c) = true ->
  parseInt (Spec.code_text c) = Num (Spec.code_number c).
Proof.
  intros H1 H2 H3.
  pose proof (digit_value_range _ H1). pose proof (digit_value_range _ H2).
  pose proof (digit_value_range _ H3).
  assert (E : digits_value (Spec.code_text c) 0 = Spec.code_number c).
  { unfold Spec.code_text, Spec.code_number. cbn [digits_value].
    rewrite H1, H2, H3. lia. }
  rewrite parseInt_digits.
  - now rewrite E.
  - unfold Spec.code_text. cbn [Pasv.all_digits]. now rewrite H1, H2, H3.
  - discriminate.
  - rewrite E. unfold Spec.code_number.
    assert (999 < 2 ^ 53) by reflexivity. lia.
Qed.

Lemma response_of_reply_text (c : Spec.code3) (rest : string) :
  is_digit (Spec.d1 c) = true -> is_digit (Spec.d2 c) = true ->
  is_digit (Spec.d3 c) = true ->
  Ftp.response_of ((Spec.code_text c ++ rest) ++ Client.CRLF)
  = Response (Num (Spec.code_number c)) (trimEnd (Spec.code_text c ++ rest)).
Proof.
  intros H1 H2 H3. unfold Ftp.response_of, trim.
  assert (Hs : trimStart ((Spec.code_text c ++ rest) ++ Client.CRLF)
               = (Spec.code_text c ++ rest) ++ Client.CRLF).
  { unfold Spec.code_text. cbn [append trimStart].
    now rewrite (digit_not_white _ H1). }
  rewrite Hs, trimEnd_CRLF.
  assert (Ht : trimEnd (Spec.code_text c ++ rest)
               = Spec.code_text c ++ trimEnd rest).
  { unfold Spec.code_text. cbn [append].
    now rewrite !trimEnd_head by now apply digit_not_white. }
  rewrite Ht. f_equal.
  assert (Hsub : substr0 3 (Spec.code_text c ++ trimEnd rest) = Spec.code_text c).
  { unfold Spec.code_text. cbn [append substr0]. now destruct (trimEnd rest). }
  rewrite Hsub. now apply parseInt_three_digits.
Qed.

(** The text of a reply starts with its three digits. *)
Lemma full_text_starts_with_code (r : Spec.reply) :
  exists rest, Spec.full_text r = Spec.code_text (Spec.reply_code r) ++ rest.
Proof.
  destruct r as [c text | c text continuation ending]; unfold Spec.full_text;
    cbn [Spec.lines Spec.reply_code Spec.join_CRLF].
  - eexists. reflexivity.
  - destruct continuation as [|l ls]; cbn [app]; rewrite append_assoc;
      eexists; reflexivity.
Qed.

Lemma valid_reply_digits (r : Spec.reply) :
  Spec.valid r = true ->
  is_digit (Spec.d1 (Spec.reply_code r)) = true
  /\ is_digit (Spec.d2 (Spec.reply_code r)) = true
  /\ is_digit (Spec.d3 (Spec.reply_code r)) = true.
Proof.
  destruct r as [c text | c text continuation ending];
    cbn [Spec.valid Spec.reply_code]; unfold Spec.valid_code; intros H;
    rewrite !andb_true_iff in H; tauto.
Qed.

Lemma response_of_valid_reply (r : Spec.reply) :
  Spec.valid r = true ->
  Ftp.response_of (Spec.wire r)
  = Response (Num (Spec.code_number (Spec.reply_code r)))
             (trimEnd (Spec.full_text r)).
Proof.
  intros Hv. destruct (valid_reply_digits r Hv) as (H1 & H2 & H3).
  destruct (full_text_starts_with_code r) as [rest E].
  unfold Spec.wire. rewrite E. now apply response_of_reply_text.
Qed.

(** ** One payload for every chunk *)

Lemma filter_all {A : Type} (f : A -> bool) (l : list A) :
  (forall x, f x = true) -> filter f l = l.
Proof.
  intros H. induction l as [|x l IH]; cbn; [reflexivity |].
  now rewrite H, IH.
Qed.

Lemma update_same {A : Type} (i : nat) (f : A -> A) (l : list A) :
  (forall x, nth_error l i = Some x -> f x = x) -> update i f l = l.
Proof.
  revert i. induction l as [|x l IH]; intros [|i] H; cbn; [reflexivity.. | |].
  - now rewrite H.
  - now rewrite IH.
Qed.

(** A "data" event removes no listener. *)
Lemma data_event_keeps_listeners (w : world) (s : sock_id) (chunk : string) :
  set_sockets
    (update s (with_listeners
       (filter (fun l => negb (listens_to (ev_data chunk) l && is_once l))))) w
  = w.
Proof.
  destruct w as [c sks prs bufs con pps sus]. unfold set_sockets. cbn. f_equal.
  apply update_same. intros [ ] _. unfold with_listeners. cbn. f_equal.
  apply filter_all. now intros [ ].
Qed.

(** C1, as the code has it: for every chunk that arrives on the control
    socket the handler is called once, with the chunk trimmed as message
    and with [parseInt] of its first three characters as code; nothing is
    kept from one chunk to the next.  When the chunk is exactly one valid
    reply, the code is its three-digit number and the message its text
    from the first line through the terminator line, without white space
    at the end: the response the specification expects when that text
    does not end in white space. *)
Theorem one_response_per_chunk :
  (forall (w : world) (s : sock_id) (ls : list listener) (h : handler)
          (chunk : string),
     _handler (this w) = Some h ->
     option_map listeners (nth_error (sockets w) s) = Some ls ->
     filter (listens_to (ev_data chunk)) ls = [control_data_listener] ->
     Ftp.emit s (ev_data chunk) w
     = (Client.log ("< " ++ trim chunk) ;;
        Ftp.call_handler h
          (Response (parseInt (substr0 3 (trim chunk))) (trim chunk))
          (_task (this w))) w)
  /\ (forall r : Spec.reply,
        Spec.valid r = true ->
        Ftp.response_of (Spec.wire r)
        = Response (Num (Spec.code_number (Spec.reply_code r)))
                   (trimEnd (Spec.full_text r))
        /\ (trimEnd (Spec.full_text r) = Spec.full_text r ->
            Spec.emitted [Spec.wire r] = [Spec.expected r])).
Proof.
  split.
  - intros w s ls h chunk Hh Hls Hf.
    unfold Ftp.emit, Client.socket_get. unfold bind at 1, get at 1.
    rewrite Hls, Hf. unfold bind at 1. cbn [Client.on_socket modify].
    rewrite data_event_keeps_listeners.
    cbn [for_each Ftp.call_listener]. unfold Ftp.response_of. cbv zeta.
    cbn [Ftp.message_of Ftp.res_message].
    unfold bind, ret. destruct (Client.log _ w) as [[] w1|e w1] eqn:El;
      [| reflexivity].
    assert (Hw : _handler (this w1) = Some h /\ _task (this w1) = _task (this w)).
    { unfold Client.log, bind, get, modify, ret in El.
      destruct (verbose (this w)); injection El as <-; auto. }
    destruct Hw as [Hh1 Ht1].
    rewrite (respond_calls_handler _ _ _ Hh1), Ht1.
    now destruct (Ftp.call_handler _ _ _ w1) as [[]|].
  - intros r Hv. pose proof (response_of_valid_reply r Hv) as E.
    split; [exact E |]. intros Ht. unfold Spec.emitted, Spec.expected.
    cbn [map]. now rewrite E, Ht.
Qed.

Lemma one_response_per_chunk_witness :
  Ftp.emit 0%nat (ev_data ("220 Service ready" ++ Client.CRLF)) Scenario.connecting
  = (Client.log "< 220 Service ready" ;;
     Ftp.call_handler connect_handler (Response (Num 220) "220 Service ready")
       (Some 0%nat)) Scenario.connecting.
Proof.
  exact (proj1 one_response_per_chunk Scenario.connecting 0%nat
           [error_listener; timeout_listener; control_data_listener]
           connect_handler ("220 Service ready" ++ Client.CRLF)
           eq_refl eq_refl eq_refl).
Defined.

(** Against C1 as stated: two replies that arrive in one chunk give one
    response, and one reply that arrives in two chunks gives two: the
    first settles the task of [connect], the second has no code. *)
Lemma parser_contract_fails :
  ~ Spec.parser_contract
  /\ (let w := final (Run.run Scenario.merged_replies Scenario.verbose_client) in
      console w = ["< 220 ready" ++ Client.CRLF ++ "331 Password required"])
  /\ (let w := final (Run.run Scenario.split_reply Scenario.verbose_client) in
      console w = ["< 220 Service"; "< ready"]
      /\ nth_error (promises w) 0%nat = Some (Resolved VUndefined)
      /\ Ftp.response_of (" ready" ++ Client.CRLF) = Response NaN "ready").
Proof.
  split; [| vm_compute; repeat split].
  intros H.
  specialize (H [Spec.single_line {| Spec.d1 := "2"; Spec.d2 := "2"; Spec.d3 := "0" |} "ready";
                 Spec.single_line {| Spec.d1 := "2"; Spec.d2 := "3"; Spec.d3 := "0" |} "ok"]
                [Spec.wire (Spec.single_line {| Spec.d1 := "2"; Spec.d2 := "2"; Spec.d3 := "0" |} "ready")
                 ++ Spec.wire (Spec.single_line {| Spec.d1 := "2"; Spec.d2 := "3"; Spec.d3 := "0" |} "ok")]
                eq_refl eq_refl).
  discriminate H.
Qed.

End ParserFacts.
Module TaskFacts.
Import JS World WorldFacts Tasks Scenario Cases SettledFacts CoupledFacts ClientFacts.




(** C4 fails on the code, by a defect: [resolve] and [reject] of a task
    set [_handler] to undefined whether or not the handler installed is
    the one of that task.  The listing below is rejected by the reply
    426 and [NOOP] is sent (its task, the fourth promise, is pending with
    its handler installed).  The end of the data connection then runs
    the callback the listing had registered with [once("end")]: its
    [task.resolve] leaves the promise of the listing rejected, as it
    was, and removes the handler of [NOOP].  From then on no handler is
    installed while the task of [NOOP] is pending, and the reply to
    [NOOP] is dropped: its promise is never settled. *)
Theorem stale_callback_detaches_later_handler :
  let w0 := final (Client.constructor None) in
  let w1 := final (Run.run aborted_listing w0) in
  let w2 := final (Run.step (Run.emits 1%nat ev_end) w1) in
  let w3 := final (Run.step
                     (Run.emits 0%nat (ev_data ("200 NOOP ok" ++ Client.CRLF))) w2) in
  let aborted :=
    Rejected (VPayload
      (Response (Num 426) "426 Connection closed; transfer aborted")) in
  (_task (this w1) = Some 3%nat
   /\ _handler (this w1) = Some (send_handler false)
   /\ promises w1 = [Resolved VUndefined; Resolved VUndefined; aborted; Pending]
   /\ option_map listeners (nth_error (sockets w1) 1%nat)
      = Some [error_listener; timeout_listener; list_data_listener 0%nat;
              list_end_listener (Some 2%nat) 0%nat])
  /\ (_task (this w2) = Some 3%nat
      /\ _handler (this w2) = None
      /\ promises w2 = [Resolved VUndefined; Resolved VUndefined; aborted; Pending]
      /\ Spec.handler_installed w2 = false /\ Spec.task_pending w2 = true)
  /\ (_handler (this w3) = None
      /\ promises w3 = [Resolved VUndefined; Resolved VUndefined; aborted; Pending]
      /\ Spec.handler_installed w3 = false /\ Spec.task_pending w3 = true).
Proof. vm_compute. repeat split. Qed.

End TaskFacts.

Module Examples.
Import JS World Scenario.

(** A multi-line reply in one chunk is one response; [send] resolves with
    its code. *)
Example multi_line_reply :
  let w := final (Run.run features verbose_client) in
  nth_error (promises w) 0%nat = Some (Resolved (VNumber (Num 211)))
  /\ console w
     = ["> FEAT";
        "< 211-Features:" ++ Client.CRLF ++ " UTF8" ++ Client.CRLF ++ " MLST"
          ++ Client.CRLF ++ "211 End"].
Proof. vm_compute. split; reflexivity. Qed.

(** [login] sends [USER] then [PASS]; its promise resolves; the password
    is written to the socket and masked in the log. *)
Example login_sequence :
  let w := final (Run.run login_alice verbose_client) in
  nth_error (promises w) 0%nat = Some (Resolved VUndefined)
  /\ console w = ["> USER alice"; "< 331 need password"; "> PASS ###";
                  "< 230 logged in"]
  /\ option_map written (nth_error (sockets w) 0%nat)
     = Some ["USER alice" ++ Client.CRLF; "PASS secret" ++ Client.CRLF].
Proof. vm_compute. repeat split. Qed.

(** A download resumed at 1024: [REST 1024], then [RETR f.bin] after the
    350, the data socket piped to the sink at the 150, resolved at the 226. *)
Example download_resumed :
  let w := final (Run.run resumed_download (final (Client.constructor None))) in
  option_map written (nth_error (sockets w) 0%nat)
  = Some ["PASV" ++ Client.CRLF; "REST 1024" ++ Client.CRLF;
          "RETR f.bin" ++ Client.CRLF]
  /\ option_map dialled (nth_error (sockets w) 1%nat)
     = Some [(Num 2789, "192.168.3.200")]
  /\ _dataSocket (this w) = Some 1%nat
  /\ pipes w = [to_writable 1%nat]
  /\ nth_error (promises w) 1%nat = Some (Resolved VUndefined).
Proof. vm_compute. repeat split. Qed.

End Examples.

(* ===================================================================== *)
(** * The async functions, step by step                                  *)
(* ===================================================================== *)

Module SequencingFacts.
Import JS World WorldFacts Sequencing.

Lemma length_app1 {A : Type} (l : list A) (x : A) :
  List.length (l ++ [x]) = S (List.length l).
Proof. rewrite length_app. cbn. lia. Qed.

Ltac lists :=
  repeat first
    [ rewrite nth_error_update
    | rewrite Nat.eqb_refl
    | rewrite nth_error_new
    | rewrite length_update
    | rewrite length_app1 ].

(** [send] from an [async] function, when nothing else is under way. *)
Lemma send_step (w : world) (n : sock_id) (r : task_id) (c : string) (i : bool)
    (k : prog) :
  ready w n r ->
  exists w',
    Ftp.run_prog (Await_send c i k) r w = Return tt w'
    /\ awaits_reply w' n (List.length (promises w)) r i k
    /\ written_to w' n = (written_to w n ++ [(c ++ Client.CRLF)%string])%list
    /\ is_secure w' n = is_secure w n
    /\ _dataSocket (this w') = _dataSocket (this w).
Proof.
  intros (Hs & Hn & Hsus & Hr).
  destruct w as [[tm tk hd tls vb so ds] sks prs bufs con pps sus].
  cbn in Hs, Hn, Hsus, Hr. subst so sus.
  assert (Hlt : (r < List.length prs)%nat) by (apply nth_error_Some; congruence).
  destruct (nth_error sks n) as [sk|] eqn:Hsk;
    [| apply nth_error_None in Hsk; lia].
  unfold written_to, is_secure, awaits_reply. cbn [Ftp.run_prog].
  unfold Ftp.send, Client.handle, Client.new_promise, Client.send, Client.log,
    Client.on_socket, Client.promise_at, Client.settle, bind, get, modify, ret,
    try_catch, throw.
  destruct vb; cbn; lists; cbn;
    (eexists; split; [reflexivity |]; cbn; lists; rewrite ?Hsk; cbn;
     repeat split; try lia; try reflexivity;
     apply nth_error_old; exact Hr).
Qed.


Lemma bind_ret_tt (m : M unit) (w : world) : (m ;; ret tt) w = m w.
Proof. unfold bind, ret. now destruct (m w) as [[] w'|e w']. Qed.

(** The reply the handler of [send] resolves on: the [async] function goes
    on with what follows the [await]. *)
Lemma reply_accepted (w : world) (n : sock_id) (p r : task_id) (i : bool)
    (k : prog) (res : payload) :
  awaits_reply w n p r i k ->
  success res || (Ftp.code_truthy res && i) = true ->
  exists w1,
    reply res w = Ftp.run_prog k r w1
    /\ ready w1 n r
    /\ sockets w1 = sockets w
    /\ _dataSocket (this w1) = _dataSocket (this w)
    /\ List.length (promises w1) = List.length (promises w).
Proof.
  intros (Hs & Hn & Hh & Ht & Hp & Hr & Hne & Hsus) Hacc.
  destruct w as [[tm tk hd tls vb so ds] sks prs bufs con pps sus].
  cbn in Hs, Hn, Hh, Ht, Hp, Hr, Hsus. subst so hd tk sus.
  unfold reply, Ftp._respond, Client._respond. unfold bind at 1 2, get.
  cbn [this _handler _task Ftp.call_handler].
  unfold success in Hacc. rewrite Hacc.
  unfold Client.task_resolve, Client.settle, Ftp.drain, bind, get, modify, ret.
  cbn. rewrite bind_ret_tt. unfold Ftp.resume, Client.promise_at, bind, get.
  cbn. lists. rewrite Hp. cbn.
  match goal with
  | |- context [Ftp.run_prog k r ?w1] => exists w1
  end.
  split; [reflexivity |].
  unfold ready. cbn. lists.
  destruct (Nat.eqb_spec p r); [congruence |]. repeat split; auto.
Qed.

(** The reply the handler of [send] rejects on: the [async] function ends
    there, its promise rejected with the reply; nothing is written. *)
Lemma reply_refused (w : world) (n : sock_id) (p r : task_id) (i : bool)
    (k : prog) (res : payload) :
  awaits_reply w n p r i k ->
  success res || (Ftp.code_truthy res && i) = false ->
  exists w',
    reply res w = Return tt w'
    /\ nth_error (promises w') r = Some (Rejected (VPayload res))
    /\ sockets w' = sockets w
    /\ suspended w' = []
    /\ _handler (this w') = None.
Proof.
  intros (Hs & Hn & Hh & Ht & Hp & Hr & Hne & Hsus) Hacc.
  destruct w as [[tm tk hd tls vb so ds] sks prs bufs con pps sus].
  cbn in Hs, Hn, Hh, Ht, Hp, Hr, Hsus. subst so hd tk sus.
  unfold reply, Ftp._respond, Client._respond. unfold bind at 1 2, get.
  cbn [this _handler _task Ftp.call_handler].
  unfold success in Hacc. rewrite Hacc.
  unfold Client.task_reject, Client.settle, Ftp.drain, bind, get, modify, ret.
  cbn. rewrite bind_ret_tt. unfold Ftp.resume, Client.promise_at, bind, get.
  cbn. lists. rewrite Hp. cbn.
  eexists. split; [reflexivity |]. cbn. lists.
  destruct (Nat.eqb_spec p r); [congruence |]. rewrite Hr. repeat split.
Qed.

(** The end of the body of an [async] function. *)
Lemma body_done (w : world) (n : sock_id) (r : task_id) :
  ready w n r ->
  exists w',
    Ftp.run_prog Done r w = Return tt w'
    /\ nth_error (promises w') r = Some (Resolved VUndefined)
    /\ sockets w' = sockets w
    /\ suspended w' = [].
Proof.
  intros (Hs & Hn & Hsus & Hr). cbn. eexists. split; [reflexivity |].
  cbn. lists. rewrite Hr. auto.
Qed.


(** The start of an [async] function: its promise is new and pending. *)
Lemma async_start (w : world) (n : sock_id) (body : prog) :
  _socket (this w) = Some n -> (n < List.length (sockets w))%nat ->
  suspended w = [] ->
  exists w0,
    Ftp.async body w
    = (Ftp.run_prog body (List.length (promises w)) ;;
       ret (List.length (promises w))) w0
    /\ ready w0 n (List.length (promises w))
    /\ sockets w0 = sockets w
    /\ _dataSocket (this w0) = _dataSocket (this w).
Proof.
  intros Hs Hn Hsus. eexists. split; [reflexivity |].
  unfold ready. cbn. lists. auto.
Qed.

Lemma written_to_same (w w' : world) (n : sock_id) :
  sockets w' = sockets w -> written_to w' n = written_to w n.
Proof. unfold written_to. now intros ->. Qed.

Lemma is_secure_same (w w' : world) (n : sock_id) :
  sockets w' = sockets w -> is_secure w' n = is_secure w n.
Proof. unfold is_secure. now intros ->. Qed.

Lemma not_ignored (res : payload) :
  success res || (Ftp.code_truthy res && false) = success res.
Proof. now rewrite andb_false_r, orb_false_r. Qed.

(** X1: when the reply to [USER] is not a success (its code is not from
    200 to 399, or it is an error), [login] stops there: its promise is
    rejected with that reply and [PASS] with the password is never
    written to the socket. *)
Theorem login_stops_at_refused_USER (w : world) (n : sock_id)
    (user password : string) (res : payload) :
  _socket (this w) = Some n -> (n < List.length (sockets w))%nat ->
  suspended w = [] ->
  success res = false ->
  exists r w1 w2,
    Ftp.login user password w = Return r w1
    /\ nth_error (promises w1) r = Some Pending
    /\ reply res w1 = Return tt w2
    /\ nth_error (promises w2) r = Some (Rejected (VPayload res))
    /\ written_to w2 n
       = (written_to w n ++ [(("USER " ++ user) ++ Client.CRLF)%string])%list.
Proof.
  intros Hs Hn Hsus Hres. unfold Ftp.login, Ftp.login_body.
  destruct (async_start w n
              (Await_send ("USER " ++ user) false
                 (Await_send ("PASS " ++ password) false Done)) Hs Hn Hsus)
    as (w0 & E0 & Hready & Hsk0 & _).
  destruct (send_step w0 n _ ("USER " ++ user) false
              (Await_send ("PASS " ++ password) false Done) Hready)
    as (w1 & E1 & Haw & Hwr & _).
  rewrite E0. unfold bind at 1. rewrite E1. cbn [ret].
  destruct (reply_refused w1 n _ _ false _ res Haw)
    as (w2 & E2 & Hrej & Hsk2 & _); [now rewrite not_ignored |].
  exists (List.length (promises w)), w1, w2.
  split; [reflexivity |]. split; [apply Haw |]. split; [exact E2 |].
  split; [exact Hrej |].
  now rewrite (written_to_same _ _ _ Hsk2), Hwr, (written_to_same _ _ _ Hsk0).
Qed.

Lemma login_stops_at_refused_USER_witness :
  exists r w1 w2,
    Ftp.login "alice" "secret" (final (Client.constructor None)) = Return r w1
    /\ nth_error (promises w1) r = Some Pending
    /\ reply (Response (Num 530) "530 Login incorrect") w1 = Return tt w2
    /\ nth_error (promises w2) r
       = Some (Rejected (VPayload (Response (Num 530) "530 Login incorrect")))
    /\ written_to w2 0%nat = ["USER alice" ++ Client.CRLF].
Proof.
  exact (login_stops_at_refused_USER (final (Client.constructor None)) 0%nat
           "alice" "secret" (Response (Num 530) "530 Login incorrect")
           eq_refl (Nat.lt_0_succ 0) eq_refl eq_refl).
Defined.

(** X2: when the reply to [USER] is a success (331 included), [login]
    writes [USER] and then [PASS] and nothing else; its promise is
    resolved with [undefined] when the reply to [PASS] is a success and
    rejected with that reply otherwise. *)
Theorem login_sends_USER_then_PASS (w : world) (n : sock_id)
    (user password : string) (res1 res2 : payload) :
  _socket (this w) = Some n -> (n < List.length (sockets w))%nat ->
  suspended w = [] ->
  success res1 = true ->
  exists r w1 w2 w3,
    Ftp.login user password w = Return r w1
    /\ reply res1 w1 = Return tt w2
    /\ nth_error (promises w2) r = Some Pending
    /\ reply res2 w2 = Return tt w3
    /\ nth_error (promises w3) r
       = Some (if success res2 then Resolved VUndefined
               else Rejected (VPayload res2))
    /\ written_to w3 n
       = (written_to w n ++ [(("USER " ++ user) ++ Client.CRLF)%string;
                             (("PASS " ++ password) ++ Client.CRLF)%string])%list.
Proof.
  intros Hs Hn Hsus Hres1. unfold Ftp.login, Ftp.login_body.
  destruct (async_start w n
              (Await_send ("USER " ++ user) false
                 (Await_send ("PASS " ++ password) false Done)) Hs Hn Hsus)
    as (w0 & E0 & Hready & Hsk0 & _).
  destruct (send_step w0 n _ ("USER " ++ user) false
              (Await_send ("PASS " ++ password) false Done) Hready)
    as (w1 & E1 & Haw & Hwr & _).
  rewrite E0. unfold bind at 1. rewrite E1. cbn [ret].
  destruct (reply_accepted w1 n _ _ false _ res1 Haw)
    as (w1' & E1' & Hready' & Hsk1 & _); [now rewrite not_ignored |].
  destruct (send_step w1' n _ ("PASS " ++ password) false Done Hready')
    as (w2 & E2 & Haw2 & Hwr2 & _).
  rewrite E2 in E1'.
  assert (Hw2 : written_to w2 n
                = (written_to w n ++ [(("USER " ++ user) ++ Client.CRLF)%string;
                                      (("PASS " ++ password) ++ Client.CRLF)%string])%list).
  { rewrite Hwr2, (written_to_same _ _ _ Hsk1), Hwr, (written_to_same _ _ _ Hsk0).
    now rewrite <- app_assoc. }
  exists (List.length (promises w)), w1, w2.
  destruct (success res2) eqn:Hres2.
  - destruct (reply_accepted w2 n _ _ false _ res2 Haw2)
      as (w2' & E2' & Hready2 & Hsk2 & _); [now rewrite not_ignored |].
    destruct (body_done w2' n _ Hready2) as (w3 & E3 & Hres & Hsk3 & _).
    rewrite E3 in E2'. exists w3.
    split; [reflexivity |]. split; [exact E1' |]. split; [apply Haw2 |].
    split; [exact E2' |]. split; [exact Hres |].
    now rewrite (written_to_same _ _ _ Hsk3), (written_to_same _ _ _ Hsk2).
  - destruct (reply_refused w2 n _ _ false _ res2 Haw2)
      as (w3 & E3 & Hrej & Hsk3 & _); [now rewrite not_ignored |].
    exists w3.
    split; [reflexivity |]. split; [exact E1' |]. split; [apply Haw2 |].
    split; [exact E3 |]. split; [exact Hrej |].
    now rewrite (written_to_same _ _ _ Hsk3).
Qed.

Lemma login_sends_USER_then_PASS_witness :
  exists r w1 w2 w3,
    Ftp.login "alice" "secret" (final (Client.constructor None)) = Return r w1
    /\ reply (Response (Num 331) "331 need password") w1 = Return tt w2
    /\ nth_error (promises w2) r = Some Pending
    /\ reply (Response (Num 230) "230 logged in") w2 = Return tt w3
    /\ nth_error (promises w3) r = Some (Resolved VUndefined)
    /\ written_to w3 0%nat
       = ["USER alice" ++ Client.CRLF; "PASS secret" ++ Client.CRLF].
Proof.
  exact (login_sends_USER_then_PASS (final (Client.constructor None)) 0%nat
           "alice" "secret" (Response (Num 331) "331 need password")
           (Response (Num 230) "230 logged in")
           eq_refl (Nat.lt_0_succ 0) eq_refl eq_refl).
Defined.


Lemma branch_on_TLS (w : world) (n : sock_id) (r : task_id) (thn els : prog) :
  ready w n r ->
  Ftp.run_prog (If_hasTLS thn els) r w
  = Ftp.run_prog (if is_secure w n then thn else els) r w.
Proof.
  intros (Hs & Hn & _). cbn [Ftp.run_prog].
  unfold Client.hasTLS, Client.socket_get, is_secure, bind, get, ret.
  rewrite Hs. destruct (nth_error (sockets w) n) as [sk|]; cbn;
    [now destruct (secure sk) | reflexivity].
Qed.

Lemma ignoring (res : payload) :
  Ftp.code_truthy res = true ->
  success res || (Ftp.code_truthy res && true) = true.
Proof. intros ->. apply orb_true_r. Qed.

(** X3: on a control socket without TLS [useDefaultSettings] writes
    [TYPE I] and, after a success reply, [STRU F], and is resolved after
    the second success reply; [PBSZ] and [PROT] are not sent. *)
Theorem useDefaultSettings_without_TLS (w : world) (n : sock_id)
    (res1 res2 : payload) :
  _socket (this w) = Some n -> (n < List.length (sockets w))%nat ->
  suspended w = [] -> is_secure w n = false ->
  success res1 = true -> success res2 = true ->
  exists r w1 w2 w3,
    Ftp.useDefaultSettings w = Return r w1
    /\ reply res1 w1 = Return tt w2
    /\ nth_error (promises w2) r = Some Pending
    /\ reply res2 w2 = Return tt w3
    /\ nth_error (promises w3) r = Some (Resolved VUndefined)
    /\ written_to w3 n
       = (written_to w n ++ [("TYPE I" ++ Client.CRLF)%string; ("STRU F" ++ Client.CRLF)%string])%list.
Proof.
  intros Hs Hn Hsus Htls Hres1 Hres2.
  unfold Ftp.useDefaultSettings, Ftp.useDefaultSettings_body.
  destruct (async_start w n
              (Await_send "TYPE I" false
                 (Await_send "STRU F" false
                    (If_hasTLS
                       (Await_send "PBSZ 0" true (Await_send "PROT P" true Done))
                       Done))) Hs Hn Hsus)
    as (w0 & E0 & Hready & Hsk0 & _).
  destruct (send_step w0 n _ "TYPE I" false
              (Await_send "STRU F" false
                 (If_hasTLS
                    (Await_send "PBSZ 0" true (Await_send "PROT P" true Done))
                    Done)) Hready)
    as (w1 & E1 & Haw & Hwr & Hsec1 & _).
  rewrite E0. unfold bind at 1. rewrite E1. cbn [ret].
  destruct (reply_accepted w1 n _ _ false _ res1 Haw)
    as (w1' & E1' & Hready' & Hsk1 & _); [now rewrite not_ignored |].
  destruct (send_step w1' n _ "STRU F" false
              (If_hasTLS
                 (Await_send "PBSZ 0" true (Await_send "PROT P" true Done))
                 Done) Hready')
    as (w2 & E2 & Haw2 & Hwr2 & Hsec2 & _).
  rewrite E2 in E1'.
  destruct (reply_accepted w2 n _ _ false _ res2 Haw2)
    as (w2' & E2' & Hready2 & Hsk2 & _); [now rewrite not_ignored |].
  assert (Hplain : is_secure w2' n = false).
  { now rewrite (is_secure_same _ _ _ Hsk2), Hsec2, (is_secure_same _ _ _ Hsk1),
      Hsec1, (is_secure_same _ _ _ Hsk0). }
  rewrite (branch_on_TLS _ n _ _ _ Hready2), Hplain in E2'.
  destruct (body_done w2' n _ Hready2) as (w3 & E3 & Hres & Hsk3 & _).
  rewrite E3 in E2'.
  exists (List.length (promises w)), w1, w2, w3.
  split; [reflexivity |]. split; [exact E1' |]. split; [apply Haw2 |].
  split; [exact E2' |]. split; [exact Hres |].
  rewrite (written_to_same _ _ _ Hsk3), (written_to_same _ _ _ Hsk2), Hwr2,
    (written_to_same _ _ _ Hsk1), Hwr, (written_to_same _ _ _ Hsk0).
  now rewrite <- app_assoc.
Qed.

Lemma useDefaultSettings_without_TLS_witness :
  exists r w1 w2 w3,
    Ftp.useDefaultSettings (final (Client.constructor None)) = Return r w1
    /\ reply (Response (Num 200) "200 ok") w1 = Return tt w2
    /\ nth_error (promises w2) r = Some Pending
    /\ reply (Response (Num 200) "200 ok") w2 = Return tt w3
    /\ nth_error (promises w3) r = Some (Resolved VUndefined)
    /\ written_to w3 0%nat = ["TYPE I" ++ Client.CRLF; "STRU F" ++ Client.CRLF].
Proof.
  exact (useDefaultSettings_without_TLS (final (Client.constructor None)) 0%nat
           (Response (Num 200) "200 ok") (Response (Num 200) "200 ok")
           eq_refl (Nat.lt_0_succ 0) eq_refl eq_refl eq_refl eq_refl).
Defined.

(** X4: on a TLS control socket [useDefaultSettings] goes on with
    [PBSZ 0] and [PROT P], and these two ignore error codes: whatever
    non-zero code their replies carry, the function is resolved. *)
Theorem useDefaultSettings_over_TLS (w : world) (n : sock_id)
    (res1 res2 res3 res4 : payload) :
  _socket (this w) = Some n -> (n < List.length (sockets w))%nat ->
  suspended w = [] -> is_secure w n = true ->
  success res1 = true -> success res2 = true ->
  Ftp.code_truthy res3 = true -> Ftp.code_truthy res4 = true ->
  exists r w1 w2 w3 w4 w5,
    Ftp.useDefaultSettings w = Return r w1
    /\ reply res1 w1 = Return tt w2
    /\ reply res2 w2 = Return tt w3
    /\ reply res3 w3 = Return tt w4
    /\ nth_error (promises w4) r = Some Pending
    /\ reply res4 w4 = Return tt w5
    /\ nth_error (promises w5) r = Some (Resolved VUndefined)
    /\ written_to w5 n
       = (written_to w n ++ [("TYPE I" ++ Client.CRLF)%string; ("STRU F" ++ Client.CRLF)%string;
                             ("PBSZ 0" ++ Client.CRLF)%string; ("PROT P" ++ Client.CRLF)%string])%list.
Proof.
  intros Hs Hn Hsus Htls Hres1 Hres2 Hres3 Hres4.
  unfold Ftp.useDefaultSettings, Ftp.useDefaultSettings_body.
  destruct (async_start w n
              (Await_send "TYPE I" false
                 (Await_send "STRU F" false
                    (If_hasTLS
                       (Await_send "PBSZ 0" true (Await_send "PROT P" true Done))
                       Done))) Hs Hn Hsus)
    as (w0 & E0 & Hready & Hsk0 & _).
  destruct (send_step w0 n _ "TYPE I" false
              (Await_send "STRU F" false
                 (If_hasTLS
                    (Await_send "PBSZ 0" true (Await_send "PROT P" true Done))
                    Done)) Hready)
    as (w1 & E1 & Haw & Hwr & Hsec1 & _).
  rewrite E0. unfold bind at 1. rewrite E1. cbn [ret].
  destruct (reply_accepted w1 n _ _ false _ res1 Haw)
    as (w1' & E1' & Hready' & Hsk1 & _); [now rewrite not_ignored |].
  destruct (send_step w1' n _ "STRU F" false
              (If_hasTLS
                 (Await_send "PBSZ 0" true (Await_send "PROT P" true Done))
                 Done) Hready')
    as (w2 & E2 & Haw2 & Hwr2 & Hsec2 & _).
  rewrite E2 in E1'.
  destruct (reply_accepted w2 n _ _ false _ res2 Haw2)
    as (w2' & E2' & Hready2 & Hsk2 & _); [now rewrite not_ignored |].
  assert (Hsecure : is_secure w2' n = true).
  { now rewrite (is_secure_same _ _ _ Hsk2), Hsec2, (is_secure_same _ _ _ Hsk1),
      Hsec1, (is_secure_same _ _ _ Hsk0). }
  rewrite (branch_on_TLS _ n _ _ _ Hready2), Hsecure in E2'.
  destruct (send_step w2' n _ "PBSZ 0" true (Await_send "PROT P" true Done) Hready2)
    as (w3 & E3 & Haw3 & Hwr3 & _).
  rewrite E3 in E2'.
  destruct (reply_accepted w3 n _ _ true _ res3 Haw3)
    as (w3' & E3' & Hready3 & Hsk3 & _); [now apply ignoring |].
  destruct (send_step w3' n _ "PROT P" true Done Hready3)
    as (w4 & E4 & Haw4 & Hwr4 & _).
  rewrite E4 in E3'.
  destruct (reply_accepted w4 n _ _ true _ res4 Haw4)
    as (w4' & E4' & Hready4 & Hsk4 & _); [now apply ignoring |].
  destruct (body_done w4' n _ Hready4) as (w5 & E5 & Hres & Hsk5 & _).
  rewrite E5 in E4'.
  exists (List.length (promises w)), w1, w2, w3, w4, w5.
  split; [reflexivity |]. split; [exact E1' |]. split; [exact E2' |].
  split; [exact E3' |]. split; [apply Haw4 |]. split; [exact E4' |].
  split; [exact Hres |].
  rewrite (written_to_same _ _ _ Hsk5), (written_to_same _ _ _ Hsk4), Hwr4,
    (written_to_same _ _ _ Hsk3), Hwr3, (written_to_same _ _ _ Hsk2), Hwr2,
    (written_to_same _ _ _ Hsk1), Hwr, (written_to_same _ _ _ Hsk0).
  now rewrite <- !app_assoc.
Qed.


Lemma useDefaultSettings_over_TLS_witness :
  exists r w1 w2 w3 w4 w5,
    Ftp.useDefaultSettings Cases.tls_client = Return r w1
    /\ reply (Response (Num 200) "200 ok") w1 = Return tt w2
    /\ reply (Response (Num 200) "200 ok") w2 = Return tt w3
    /\ reply (Response (Num 500) "500 PBSZ not understood") w3 = Return tt w4
    /\ nth_error (promises w4) r = Some Pending
    /\ reply (Response (Num 502) "502 PROT not implemented") w4 = Return tt w5
    /\ nth_error (promises w5) r = Some (Resolved VUndefined)
    /\ written_to w5 1%nat
       = ["TYPE I" ++ Client.CRLF; "STRU F" ++ Client.CRLF;
          "PBSZ 0" ++ Client.CRLF; "PROT P" ++ Client.CRLF].
Proof.
  exact (useDefaultSettings_over_TLS Cases.tls_client 1%nat
           (Response (Num 200) "200 ok") (Response (Num 200) "200 ok")
           (Response (Num 500) "500 PBSZ not understood")
           (Response (Num 502) "502 PROT not implemented")
           eq_refl (Nat.lt_succ_diag_r 1) eq_refl eq_refl eq_refl eq_refl
           eq_refl eq_refl).
Defined.

End SequencingFacts.

(* ===================================================================== *)
(** * The operations, from the call to the settled promise               *)
(* ===================================================================== *)

Module OperationFacts.
Import JS Pasv World WorldFacts Sequencing Cases.

Lemma nth_error_new_update {A : Type} (i : nat) (f : A -> A) (l : list A) (x : A) :
  nth_error (update i f l ++ [x]) (List.length l) = Some x.
Proof. rewrite <- (length_update i f l). apply nth_error_new. Qed.

Lemma nth_error_kept {A : Type} (l : list A) (x : A) (i : nat) :
  (i < List.length l)%nat -> nth_error (l ++ [x]) i = nth_error l i.
Proof. intros H. now apply nth_error_app1. Qed.

Ltac look :=
  repeat first
    [ rewrite nth_error_update
    | rewrite Nat.eqb_refl
    | rewrite nth_error_new
    | rewrite nth_error_new_update
    | rewrite length_update
    | rewrite SequencingFacts.length_app1
    | rewrite nth_error_kept by (rewrite ?length_update; lia) ].

Lemma nth_error_at_length {A : Type} (l : list A) (x : A) (k : nat) :
  List.length l = k -> nth_error (l ++ [x]) k = Some x.
Proof. intros <-. apply nth_error_new. Qed.

Ltac sizes :=
  repeat first [rewrite length_update | rewrite SequencingFacts.length_app1].

(** Like [look], with the comparisons of socket names in the context. *)
Ltac find :=
  repeat first
    [ match goal with
      | H : Nat.eqb _ _ = _ |- _ => rewrite H
      end
    | rewrite Nat.eqb_refl
    | rewrite length_update
    | rewrite SequencingFacts.length_app1
    | rewrite nth_error_update
    | rewrite nth_error_at_length by (sizes; reflexivity)
    | rewrite nth_error_kept by (sizes; lia) ].

Ltac calm := cbn -[update nth_error].

Lemma setTimeout_sets (s : sock_id) (msecs : Z) (w : world) :
  0 <= msecs ->
  Client.setTimeout s msecs w = Return tt (set_sockets (update s (with_timeout msecs)) w).
Proof.
  intros H. apply Z.ltb_ge in H. unfold Client.setTimeout. now rewrite H.
Qed.

Ltac unfold_monad :=
  unfold Client.handle, Client.new_promise, Client.new_socket, Client.send,
    Client.log, Client.on_socket, Client.promise_at, Client.settle,
    Client.task_resolve, Client.task_reject, Client.socket_get,
    bind, get, modify, ret, try_catch, throw.

(** ** send *)

(** X5: the promise of [send] is pending until the next payload and is
    settled by it: resolved with the code when the code is from 200 to
    399, or, with [ignoreErrorCodes], when it is any number other than 0
    and [NaN]; rejected with the payload otherwise, so on a code below
    200 such as 150, on a reply without a number and on an error or
    timeout (even with [ignoreErrorCodes]).  The handler is detached
    either way. *)
Theorem send_settles_by_reply_code (w : world) (n : sock_id) (command : string)
    (i : bool) (res : payload) :
  _socket (this w) = Some n ->
  exists p w1 w2,
    Ftp.send command i w = Return p w1
    /\ nth_error (promises w1) p = Some Pending
    /\ Ftp._respond res w1 = Return tt w2
    /\ nth_error (promises w2) p
       = Some match res with
              | Response (Num c) _ =>
                  if (200 <=? c) && (c <? 400) || i && negb (c =? 0)
                  then Resolved (VNumber (Num c)) else Rejected (VPayload res)
              | Response (Infinity s) _ =>
                  if i then Resolved (VNumber (Infinity s)) else Rejected (VPayload res)
              | Response NaN _ | Failure _ => Rejected (VPayload res)
              end
    /\ _handler (this w2) = None.
Proof.
  intros Hs.
  destruct w as [[tm tk hd tls vb so ds] sks prs bufs con pps sus].
  cbn in Hs. subst so.
  unfold Ftp.send, Ftp._respond, Client._respond. unfold_monad.
  unfold Ftp.code_ge, Ftp.code_lt, Ftp.code_truthy, Ftp.code_value.
  assert (E : forall c, negb (c <? 200) && (c <? 400) || negb (c =? 0) && i
                        = (200 <=? c) && (c <? 400) || i && negb (c =? 0)).
  { intros c. now rewrite <- Z.leb_antisym, (andb_comm (negb (c =? 0)) i). }
  destruct res as [[|s|c] m|e];
    [ | destruct s, i
      | destruct ((200 <=? c) && (c <? 400) || i && negb (c =? 0)) eqn:HB | ];
    destruct vb; cbn;
    (do 3 eexists; split; [reflexivity |]; cbn; look;
     split; [reflexivity |];
     split; [cbn; rewrite ?E, ?HB; reflexivity |]; cbn; look; cbn;
     split; reflexivity).
Qed.

Lemma send_settles_by_reply_code_witness :
  exists p w1 w2,
    Ftp.send "NOOP" false (final (Client.constructor None)) = Return p w1
    /\ nth_error (promises w1) p = Some Pending
    /\ Ftp._respond (Response (Num 150) "150 Opening") w1 = Return tt w2
    /\ nth_error (promises w2) p
       = Some (Rejected (VPayload (Response (Num 150) "150 Opening")))
    /\ _handler (this w2) = None.
Proof.
  exact (send_settles_by_reply_code (final (Client.constructor None)) 0%nat
           "NOOP" false (Response (Num 150) "150 Opening") eq_refl).
Defined.

(** ** Transfers without a data connection *)

(** X6: [list], [upload] and [download] called while no data socket is
    installed (no [enterPassiveMode] before) send their command as
    usual; the reply 150 then makes the handler read a property of
    [undefined]: a [TypeError] is thrown out of the listener of the
    control socket, the promise stays pending and the handler
    installed. *)
Theorem transfer_needs_data_socket (w : world) (n : sock_id) (e : Run.event)
    (res : payload) :
  transfer_call e = true ->
  _socket (this w) = Some n -> _dataSocket (this w) = None ->
  Ftp.code_is res 150 = true ->
  exists w1,
    Run.call e w = Return tt w1
    /\ Ftp._respond res w1 = Throw Client.TypeError_undefined w1
    /\ nth_error (promises w1) (List.length (promises w)) = Some Pending
    /\ Spec.handler_installed w1 = true.
Proof.
  intros He Hs Hd Hc.
  destruct w as [[tm tk hd tls vb so ds] sks prs bufs con pps sus].
  cbn in Hs, Hd. subst so ds.
  destruct e; try discriminate He; cbn [Run.call];
    unfold Run.ignore, Ftp.list, Ftp.upload, Ftp.download, Ftp._respond,
      Client._respond; unfold_monad;
    destruct vb; cbn;
    (eexists; split; [reflexivity |]; cbn; rewrite Hc; cbn; look;
     repeat split).
Qed.

Lemma transfer_needs_data_socket_witness :
  exists w1,
    Run.call Run.call_list (final (Client.constructor None)) = Return tt w1
    /\ Ftp._respond (Response (Num 150) "150 Here comes the listing") w1
       = Throw Client.TypeError_undefined w1
    /\ nth_error (promises w1)
         (List.length (promises (final (Client.constructor None))))
       = Some Pending
    /\ Spec.handler_installed w1 = true.
Proof.
  exact (transfer_needs_data_socket (final (Client.constructor None)) 0%nat
           Run.call_list (Response (Num 150) "150 Here comes the listing")
           eq_refl eq_refl eq_refl eq_refl).
Defined.

(** ** list *)

Lemma listing_socket (w : world) (d : sock_id) (b : buf_id) (p : task_id)
    (text : string) :
  listing w d b p text ->
  exists sk, nth_error (sockets w) d = Some sk
    /\ listeners sk = [error_listener; timeout_listener; list_data_listener b;
                       list_end_listener (Some p) b].
Proof.
  intros (Hl & _). destruct (nth_error (sockets w) d) as [sk|]; [| discriminate].
  exists sk. split; [reflexivity |]. now injection Hl.
Qed.

(** A chunk on the data socket is appended to the text. *)
Lemma listing_chunk (w : world) (d : sock_id) (b : buf_id) (p : task_id)
    (text chunk : string) :
  listing w d b p text ->
  exists w',
    Ftp.emit d (ev_data chunk) w = Return tt w'
    /\ listing w' d b p (text ++ chunk)
    /\ this w' = this w.
Proof.
  intros H. destruct (listing_socket _ _ _ _ _ H) as (sk & Hsk & Hls).
  destruct H as (Hl & Hb & Hp).
  rewrite CoupledFacts.emit_unfold, Hsk, Hls. cbv beta iota zeta.
  unfold Client.on_socket. unfold bind at 1. unfold modify at 1.
  rewrite ParserFacts.data_event_keeps_listeners. cbn.
  unfold bind, modify, ret.
  eexists. split; [reflexivity |]. unfold listing. cbn. look.
  rewrite Hb. auto.
Qed.

Lemma concat_cons (chunk : string) (chunks : list string) :
  String.concat "" (chunk :: chunks) = chunk ++ String.concat "" chunks.
Proof.
  destruct chunks; cbn; [now rewrite JSFacts.append_nil_r | reflexivity].
Qed.

Lemma listing_chunks (d : sock_id) (b : buf_id) (p : task_id)
    (chunks : list string) : forall (w : world) (text : string),
  listing w d b p text ->
  exists w',
    receive d chunks w = Return tt w'
    /\ listing w' d b p (text ++ String.concat "" chunks)
    /\ this w' = this w.
Proof.
  induction chunks as [|chunk chunks IH]; intros w text H.
  - exists w. cbn. rewrite JSFacts.append_nil_r. auto.
  - destruct (listing_chunk _ _ _ _ _ chunk H) as (w1 & E1 & H1 & T1).
    destruct (IH _ _ H1) as (w2 & E2 & H2 & T2).
    exists w2. unfold receive in *. cbn [for_each]. unfold bind at 1.
    rewrite E1, E2, concat_cons, <- JSFacts.append_assoc.
    split; [reflexivity |]. split; [exact H2 | congruence].
Qed.

(** The end of the data connection resolves the task with the text. *)
Lemma listing_end (w : world) (d : sock_id) (b : buf_id) (p : task_id)
    (text : string) :
  listing w d b p text ->
  exists w',
    Ftp.emit d ev_end w = Return tt w'
    /\ nth_error (promises w') p = Some (Resolved (VListing text))
    /\ _handler (this w') = None.
Proof.
  intros H. destruct (listing_socket _ _ _ _ _ H) as (sk & Hsk & Hls).
  destruct H as (Hl & Hb & Hp).
  rewrite CoupledFacts.emit_unfold, Hsk, Hls. cbn.
  unfold Ftp.buffer_at. unfold_monad. cbn.
  rewrite (nth_error_nth _ _ _ Hb).
  destruct (verbose (this w)); cbn;
    (eexists; split; [reflexivity |]; cbn; look; rewrite Hp; auto).
Qed.

(** X7: [list] resolves, at the end of the data connection, with the
    chunks received on the data socket after the reply 150, joined in
    their order of arrival; until then its promise is pending, and a
    reply 226 that comes before the end changes nothing. *)
Theorem list_resolves_with_received_text (w : world) (n d : sock_id)
    (message : string) (chunks : list string) :
  _socket (this w) = Some n -> _dataSocket (this w) = Some d ->
  option_map listeners (nth_error (sockets w) d)
  = Some [error_listener; timeout_listener] ->
  exists p w1 w2 w3 w4,
    Ftp.list w = Return p w1
    /\ Ftp._respond (Response (Num 150) message) w1 = Return tt w2
    /\ receive d chunks w2 = Return tt w3
    /\ nth_error (promises w3) p = Some Pending
    /\ (forall done, Ftp._respond (Response (Num 226) done) w3 = Return tt w3)
    /\ Ftp.emit d ev_end w3 = Return tt w4
    /\ nth_error (promises w4) p
       = Some (Resolved (VListing (String.concat "" chunks)))
    /\ _handler (this w4) = None.
Proof.
  intros Hs Hd Hl.
  destruct w as [[tm tk hd tls vb so ds] sks prs bufs con pps sus].
  cbn in Hs, Hd, Hl. subst so ds.
  destruct (nth_error sks d) as [sk|] eqn:Hsk; [| discriminate].
  cbn in Hl. injection Hl as Hl.
  assert (exists p w1 w2,
    Ftp.list {| this := {| _timeoutMillis := tm; _task := tk; _handler := hd;
                           tlsOptions := tls; verbose := vb; _socket := Some n;
                           _dataSocket := Some d |};
                sockets := sks; promises := prs; buffers := bufs; console := con;
                pipes := pps; suspended := sus |} = Return p w1
    /\ Ftp._respond (Response (Num 150) message) w1 = Return tt w2
    /\ listing w2 d (List.length bufs) p ""
    /\ _handler (this w2) = Some (list_handler (List.length bufs)))
    as (p & w1 & w2 & E1 & E2 & H2 & Hh).
  { unfold Ftp.list, Ftp._respond, Client._respond. unfold_monad.
    destruct vb; cbn;
      (do 3 eexists; split; [reflexivity |]; cbn;
       split; [reflexivity |]; unfold listing; cbn; look; rewrite Hsk; cbn;
       destruct (Nat.eqb n d); cbn; rewrite Hl; repeat split). }
  destruct (listing_chunks d _ p chunks _ _ H2) as (w3 & E3 & H3 & T3).
  destruct (listing_end _ _ _ _ _ H3) as (w4 & E4 & P4 & H4).
  exists p, w1, w2, w3, w4. cbn [append] in *.
  split; [exact E1 |]. split; [exact E2 |]. split; [exact E3 |].
  split; [apply H3 |].
  split.
  { intros done. rewrite (ClientFacts.respond_calls_handler _ _ _ (eq_trans (f_equal _handler T3) Hh)).
    reflexivity. }
  split; [exact E4 |]. split; [exact P4 | exact H4].
Qed.

Lemma list_resolves_with_received_text_witness :
  exists p w1 w2 w3 w4,
    Ftp.list passive_client = Return p w1
    /\ Ftp._respond (Response (Num 150) "150 Here comes the listing") w1
       = Return tt w2
    /\ receive 1%nat ["-rw-r--r-- 1 ftp ftp 12 a"; ".txt" ++ Client.CRLF] w2
       = Return tt w3
    /\ nth_error (promises w3) p = Some Pending
    /\ (forall done, Ftp._respond (Response (Num 226) done) w3 = Return tt w3)
    /\ Ftp.emit 1%nat ev_end w3 = Return tt w4
    /\ nth_error (promises w4) p
       = Some (Resolved (VListing
                 (String.concat ""
                    ["-rw-r--r-- 1 ftp ftp 12 a"; ".txt" ++ Client.CRLF])))
    /\ _handler (this w4) = None.
Proof.
  exact (list_resolves_with_received_text passive_client 0%nat 1%nat
           "150 Here comes the listing"
           ["-rw-r--r-- 1 ftp ftp 12 a"; ".txt" ++ Client.CRLF]
           eq_refl eq_refl eq_refl).
Defined.

(** ** enterPassiveMode *)

(** X8: a reply 227 the parser finds no address in rejects the promise
    of [enterPassiveMode] with the string "Can't parse PASV response";
    no socket is made and the data socket stays as it was. *)
Theorem passive_mode_rejects_unparsable_reply (w : world) (n : sock_id)
    (custom : option (string -> option target)) (message : string) :
  _socket (this w) = Some n ->
  match custom with Some f => f | None => parseIPV4PasvResponse end message
  = None ->
  exists p w1 w2,
    Ftp.enterPassiveMode custom w = Return p w1
    /\ Ftp._respond (Response (Num 227) message) w1 = Return tt w2
    /\ nth_error (promises w2) p
       = Some (Rejected (VString "Can't parse PASV response"))
    /\ sockets w2 = sockets w1
    /\ _dataSocket (this w2) = _dataSocket (this w)
    /\ _handler (this w2) = None.
Proof.
  intros Hs Hparse.
  destruct w as [[tm tk hd tls vb so ds] sks prs bufs con pps sus].
  cbn in Hs. subst so.
  unfold Ftp.enterPassiveMode, Ftp._respond, Client._respond. unfold_monad.
  destruct vb; cbn;
    (do 3 eexists; split; [reflexivity |]; cbn; rewrite Hparse; cbn;
     split; [reflexivity |]; cbn; look; repeat split).
Qed.

Lemma passive_mode_rejects_unparsable_reply_witness :
  exists p w1 w2,
    let w := final (Client.constructor None) in
    Ftp.enterPassiveMode None w = Return p w1
    /\ Ftp._respond (Response (Num 227) "227 Entering Passive Mode") w1
       = Return tt w2
    /\ nth_error (promises w2) p
       = Some (Rejected (VString "Can't parse PASV response"))
    /\ sockets w2 = sockets w1
    /\ _dataSocket (this w2) = _dataSocket (this w)
    /\ _handler (this w2) = None.
Proof.
  refine (passive_mode_rejects_unparsable_reply (final (Client.constructor None))
            0%nat None "227 Entering Passive Mode" _ _).
  - reflexivity.
  - vm_compute. reflexivity.
Defined.

(** X9: when the connection to the address of the reply 227 fails,
    the promise of [enterPassiveMode] is rejected with "Can't open data
    connection in passive mode: " followed by the message of the error;
    the data socket of the client stays as it was, and the callback of
    [connect] stays registered on the socket that failed. *)
Theorem passive_mode_dial_error (w : world) (n : sock_id)
    (custom : option (string -> option target)) (message err : string)
    (t : target) :
  _socket (this w) = Some n -> (n < List.length (sockets w))%nat ->
  match custom with Some f => f | None => parseIPV4PasvResponse end message
  = Some t ->
  exists p w1 w2 w3,
    let d := List.length (sockets w) in
    Ftp.enterPassiveMode custom w = Return p w1
    /\ Ftp._respond (Response (Num 227) message) w1 = Return tt w2
    /\ Ftp.emit d (ev_error err) w2 = Return tt w3
    /\ nth_error (promises w3) p
       = Some (Rejected (VString
                 ("Can't open data connection in passive mode: " ++ err)))
    /\ _dataSocket (this w3) = _dataSocket (this w)
    /\ _handler (this w3) = None
    /\ option_map listeners (nth_error (sockets w3) d)
       = Some [dial_connect_listener (Some p)].
Proof.
  intros Hs Hn Hparse.
  destruct w as [[tm tk hd tls vb so ds] sks prs bufs con pps sus].
  cbn in Hs, Hn. subst so.
  unfold Ftp.enterPassiveMode, Ftp._respond, Client._respond. unfold_monad.
  destruct vb; cbn.
  all: do 4 eexists; split; [reflexivity |]; cbn; rewrite Hparse; cbn.
  all: split; [reflexivity |]; cbn.
  all: unfold Ftp.emit; unfold_monad; cbn; look; cbn.
  all: split; [reflexivity |]; cbn; look; cbn.
  all: repeat split.
Qed.

Lemma passive_mode_dial_error_witness :
  exists p w1 w2 w3,
    let w := final (Client.constructor None) in
    let d := List.length (sockets w) in
    Ftp.enterPassiveMode None w = Return p w1
    /\ Ftp._respond
         (Response (Num 227) "227 Entering Passive Mode (127,0,0,1,10,229)") w1
       = Return tt w2
    /\ Ftp.emit d (ev_error "connect ECONNREFUSED") w2 = Return tt w3
    /\ nth_error (promises w3) p
       = Some (Rejected (VString
                 ("Can't open data connection in passive mode: "
                  ++ "connect ECONNREFUSED")))
    /\ _dataSocket (this w3) = _dataSocket (this w)
    /\ _handler (this w3) = None
    /\ option_map listeners (nth_error (sockets w3) d)
       = Some [dial_connect_listener (Some p)].
Proof.
  refine (passive_mode_dial_error (final (Client.constructor None))
            0%nat None "227 Entering Passive Mode (127,0,0,1,10,229)"
            "connect ECONNREFUSED"
            {| host := "127.0.0.1"; port := Num 2789 |} _ _ _).
  - reflexivity.
  - cbn. lia.
  - vm_compute. reflexivity.
Defined.

End OperationFacts.

(* ===================================================================== *)
(** * enterPassiveMode, from the call to the data socket                 *)
(* ===================================================================== *)

Module PassiveFacts.
Import JS Pasv World WorldFacts Sequencing Cases OperationFacts.

Lemma update_new {A : Type} (f : A -> A) (l : list A) (x : A) :
  update (List.length l) f (l ++ [x]) = (l ++ [f x])%list.
Proof. induction l as [|y l IH]; cbn; congruence. Qed.

(** [enterPassiveMode] up to the reply 227: the command is written and a
    socket is made that dials the target of the reply. *)
Lemma passive_dialled (w : world) (n : sock_id)
    (custom : option (string -> option target)) (message : string) (t : target) :
  _socket (this w) = Some n ->
  parser_of custom message = Some t ->
  exists w1 w2,
    let p := List.length (promises w) in
    Ftp.enterPassiveMode custom w = Return p w1
    /\ sockets w1 = update n (with_write ("PASV" ++ Client.CRLF)) (sockets w)
    /\ Ftp._respond (Response (Num 227) message) w1 = Return tt w2
    /\ this w2 = set_task (Some p)
                   (set_handler (Some (enterPassiveMode_handler (parser_of custom)))
                      (this w))
    /\ sockets w2 = (sockets w1 ++ [dialling p t])%list
    /\ promises w2 = (promises w ++ [Pending])%list.
Proof.
  intros Hs Hparse.
  destruct w as [[tm tk hd tls vb so ds] sks prs bufs con pps sus].
  cbn in Hs. subst so. cbv zeta.
  destruct vb.
  all: do 2 eexists.
  all: split; [unfold Ftp.enterPassiveMode; unfold_monad; cbn; reflexivity |].
  all: split; [reflexivity |].
  all: split;
         [unfold Ftp._respond, Client._respond; unfold_monad; cbn;
          fold (parser_of custom); rewrite Hparse; cbn; reflexivity |].
  all: split; [reflexivity |].
  all: split; [cbn -[update]; rewrite !update_new; reflexivity | reflexivity].
Qed.

(** The callback of [socket.connect] under a plain control socket: the
    socket that was dialled becomes the data socket. *)
Lemma dial_connected (w : world) (n d : sock_id) (p : task_id) (sk skd : socket) :
  _socket (this w) = Some n -> nth_error (sockets w) n = Some sk ->
  secure sk = false -> 0 <= _timeoutMillis (this w) ->
  nth_error (sockets w) d = Some skd ->
  listeners skd = [dial_error_listener (Some p); dial_connect_listener (Some p)] ->
  nth_error (promises w) p = Some Pending ->
  exists w',
    Ftp.emit d ev_connect w = Return tt w'
    /\ _dataSocket (this w') = Some d
    /\ _handler (this w') = None
    /\ nth_error (promises w') p = Some (Resolved VUndefined)
    /\ option_map listeners (nth_error (sockets w') d)
       = Some [error_listener; timeout_listener]
    /\ option_map timeout (nth_error (sockets w') d)
       = Some (Some (_timeoutMillis (this w)))
    /\ option_map secure (nth_error (sockets w') d) = Some (secure skd)
    /\ (forall o, _dataSocket (this w) = Some o -> o <> d ->
          (o < List.length (sockets w))%nat ->
          option_map listeners (nth_error (sockets w') o) = Some []).
Proof.
  intros Hs Hsk Hsec Htm Hd Hls Hp.
  destruct w as [[tm tk hd tls vb so ds] sks prs bufs con pps sus].
  cbn in Hs, Hsk, Htm, Hd, Hp. subst so.
  rewrite CoupledFacts.emit_unfold. cbn [sockets]. rewrite Hd. cbv zeta.
  rewrite Hls. cbn [filter listens_to].
  unfold Client.on_socket. unfold bind at 1. unfold modify at 1.
  cbn [for_each Ftp.call_listener].
  unfold Client.hasTLS, Client.set_dataSocket, Client._setupSocket.
  unfold_monad. calm. rewrite nth_error_update.
  assert (Hs2 : option_map secure
                  (if Nat.eqb d n
                   then option_map
                          (with_listeners
                             (filter (fun l => negb (listens_to ev_connect l && is_once l))))
                          (nth_error sks n)
                   else nth_error sks n) = Some false).
  { rewrite Hsk. destruct (Nat.eqb d n); cbn; now rewrite Hsec. }
  cbn [listens_to] in Hs2. rewrite Hs2. calm.
  destruct ds as [o|]; calm.
  all: rewrite setTimeout_sets by exact Htm; calm.
  all: eexists; split; [reflexivity |].
  all: split; [reflexivity |].
  all: split; [reflexivity |].
  all: split; [calm; find; rewrite Hp; reflexivity |].
  all: try (destruct (Nat.eqb_spec o d) as [Ho|Ho];
            [apply Nat.eqb_eq in Ho | apply Nat.eqb_neq in Ho]).
  all: split; [calm; find; rewrite Hd; reflexivity |].
  all: split; [calm; find; rewrite Hd; reflexivity |].
  all: split; [calm; find; rewrite Hd; reflexivity |].
  all: intros o' Ho' Hod Hlt; try discriminate Ho'; injection Ho' as <-.
  all: try (apply Nat.eqb_eq in Ho; congruence).
  all: assert (Hne' : Nat.eqb d o = false)
         by (apply Nat.eqb_neq; congruence).
  all: calm; find.
  all: cbn in Hlt; destruct (nth_error sks o) as [sko|] eqn:Hsko;
         [reflexivity | apply nth_error_None in Hsko; lia].
Qed.

(** The same callback under a TLS control socket: a new TLS socket
    becomes the data socket; the dialled socket keeps the callback
    registered for its errors. *)
Lemma dial_connected_TLS (w : world) (n d : sock_id) (p : task_id)
    (sk skd : socket) :
  _socket (this w) = Some n -> nth_error (sockets w) n = Some sk ->
  secure sk = true -> 0 <= _timeoutMillis (this w) ->
  nth_error (sockets w) d = Some skd ->
  listeners skd = [dial_error_listener (Some p); dial_connect_listener (Some p)] ->
  nth_error (promises w) p = Some Pending ->
  _dataSocket (this w) <> Some d ->
  exists w',
    let s := List.length (sockets w) in
    Ftp.emit d ev_connect w = Return tt w'
    /\ _dataSocket (this w') = Some s
    /\ _handler (this w') = None
    /\ nth_error (promises w') p = Some (Resolved VUndefined)
    /\ option_map listeners (nth_error (sockets w') s)
       = Some [error_listener; timeout_listener]
    /\ option_map timeout (nth_error (sockets w') s)
       = Some (Some (_timeoutMillis (this w)))
    /\ option_map secure (nth_error (sockets w') s) = Some true
    /\ option_map listeners (nth_error (sockets w') d)
       = Some [dial_error_listener (Some p)].
Proof.
  intros Hs Hsk Hsec Htm Hd Hls Hp Hold.
  destruct w as [[tm tk hd tls vb so ds] sks prs bufs con pps sus].
  cbn in Hs, Hsk, Htm, Hd, Hp, Hold. subst so. cbv zeta.
  assert (Hlt : (d < List.length sks)%nat) by (apply nth_error_Some; congruence).
  assert (Hne : Nat.eqb (List.length sks) d = false) by (apply Nat.eqb_neq; lia).
  rewrite CoupledFacts.emit_unfold. cbn [sockets]. rewrite Hd. cbv zeta.
  rewrite Hls. cbn [filter listens_to].
  unfold Client.on_socket. unfold bind at 1. unfold modify at 1.
  cbn [for_each Ftp.call_listener].
  unfold Client.hasTLS, Client.set_dataSocket, Client._setupSocket.
  unfold_monad. calm. rewrite nth_error_update.
  assert (Hs2 : option_map secure
                  (if Nat.eqb d n
                   then option_map
                          (with_listeners
                             (filter (fun l => negb (listens_to ev_connect l && is_once l))))
                          (nth_error sks n)
                   else nth_error sks n) = Some true).
  { rewrite Hsk. destruct (Nat.eqb d n); cbn; now rewrite Hsec. }
  cbn [listens_to] in Hs2. rewrite Hs2. calm. rewrite length_update.
  destruct vb, ds as [o|]; calm.
  all: rewrite setTimeout_sets by exact Htm; calm.
  all: eexists; split; [reflexivity |].
  all: split; [reflexivity |].
  all: split; [reflexivity |].
  all: split; [calm; find; rewrite Hp; reflexivity |].
  all: try (assert (Ho : Nat.eqb o d = false)
              by (apply Nat.eqb_neq; congruence)).
  all: try (destruct (Nat.eqb_spec o (List.length sks)) as [Ho'|Ho'];
            [apply Nat.eqb_eq in Ho' | apply Nat.eqb_neq in Ho']).
  all: split; [calm; find; reflexivity |].
  all: split; [calm; find; reflexivity |].
  all: split; [calm; find; reflexivity |].
  all: calm; find; rewrite Hd; cbn; rewrite Hls; reflexivity.
Qed.

(** What the later steps need of the client after the reply 227. *)
Lemma passive_dialled_state (w w1 w2 : world) (n : sock_id) (sk : socket)
    (h : handler) (t : target) :
  _socket (this w) = Some n -> nth_error (sockets w) n = Some sk ->
  sockets w1 = update n (with_write ("PASV" ++ Client.CRLF)) (sockets w) ->
  this w2 = set_task (Some (List.length (promises w))) (set_handler (Some h) (this w)) ->
  sockets w2 = (sockets w1 ++ [dialling (List.length (promises w)) t])%list ->
  promises w2 = (promises w ++ [Pending])%list ->
  _socket (this w2) = Some n
  /\ nth_error (sockets w2) n = Some (with_write ("PASV" ++ Client.CRLF) sk)
  /\ nth_error (sockets w2) (List.length (sockets w))
     = Some (dialling (List.length (promises w)) t)
  /\ nth_error (promises w2) (List.length (promises w)) = Some Pending
  /\ _timeoutMillis (this w2) = _timeoutMillis (this w)
  /\ _dataSocket (this w2) = _dataSocket (this w)
  /\ List.length (sockets w2) = S (List.length (sockets w)).
Proof.
  intros Hs Hsk S1 T2 S2 P2.
  assert (Hn : (n < List.length (sockets w))%nat)
    by (apply nth_error_Some; congruence).
  rewrite T2, S2, S1, P2. cbn [_socket _timeoutMillis _dataSocket set_task set_handler].
  split; [exact Hs |].
  split; [find; rewrite Hsk; reflexivity |].
  split; [apply nth_error_new_update |].
  split; [apply nth_error_new |].
  split; [reflexivity |]. split; [reflexivity |]. now sizes.
Qed.

(** X11: on a control socket without TLS, [enterPassiveMode] writes
    [PASV]; the reply 227 makes it dial the host and port the parser
    finds in the message, its promise still pending and the data socket
    of the client unchanged; once that connection is made the dialled
    socket is the data socket, with the timeout of the client and the
    error and timeout listeners only, the data socket it replaces has
    lost its listeners, and the promise is resolved with [undefined]. *)
Theorem passive_mode_opens_data_socket (w : world) (n : sock_id)
    (custom : option (string -> option target)) (message : string) (t : target) :
  _socket (this w) = Some n -> (n < List.length (sockets w))%nat ->
  is_secure w n = false -> 0 <= _timeoutMillis (this w) ->
  parser_of custom message = Some t ->
  exists p w1 w2 w3,
    let d := List.length (sockets w) in
    Ftp.enterPassiveMode custom w = Return p w1
    /\ written_to w1 n = (written_to w n ++ [("PASV" ++ Client.CRLF)%string])%list
    /\ Ftp._respond (Response (Num 227) message) w1 = Return tt w2
    /\ option_map dialled (nth_error (sockets w2) d) = Some [(port t, host t)]
    /\ nth_error (promises w2) p = Some Pending
    /\ _dataSocket (this w2) = _dataSocket (this w)
    /\ Ftp.emit d ev_connect w2 = Return tt w3
    /\ _dataSocket (this w3) = Some d
    /\ option_map listeners (nth_error (sockets w3) d)
       = Some [error_listener; timeout_listener]
    /\ option_map timeout (nth_error (sockets w3) d)
       = Some (Some (_timeoutMillis (this w)))
    /\ is_secure w3 d = false
    /\ nth_error (promises w3) p = Some (Resolved VUndefined)
    /\ _handler (this w3) = None
    /\ (forall o, _dataSocket (this w) = Some o ->
          (o < List.length (sockets w))%nat ->
          option_map listeners (nth_error (sockets w3) o) = Some []).
Proof.
  intros Hs Hn Hsec Htm Hparse.
  destruct (nth_error (sockets w) n) as [sk|] eqn:Hsk;
    [| apply nth_error_None in Hsk; lia].
  unfold is_secure in Hsec. rewrite Hsk in Hsec.
  destruct (passive_dialled w n custom message t Hs Hparse)
    as (w1 & w2 & E1 & S1 & E2 & T2 & S2 & P2). cbv zeta in *.
  destruct (passive_dialled_state w w1 w2 n sk _ t Hs Hsk S1 T2 S2 P2)
    as (Hs2 & Hsk2 & Hd2 & Hp2 & Htm2 & Hds2 & Hlen2).
  destruct (dial_connected w2 n (List.length (sockets w)) (List.length (promises w))
              _ _ Hs2 Hsk2 Hsec ltac:(rewrite Htm2; exact Htm) Hd2 eq_refl Hp2)
    as (w3 & E3 & D3 & H3 & P3 & L3 & T3 & Sec3 & Old3).
  exists (List.length (promises w)), w1, w2, w3.
  split; [exact E1 |].
  split; [unfold written_to; rewrite S1, nth_error_update, Nat.eqb_refl, Hsk;
          reflexivity |].
  split; [exact E2 |]. split; [now rewrite Hd2 |]. split; [exact Hp2 |].
  split; [exact Hds2 |]. split; [exact E3 |]. split; [exact D3 |].
  split; [exact L3 |]. split; [now rewrite T3, Htm2 |].
  split.
  { unfold is_secure.
    destruct (nth_error (sockets w3) (List.length (sockets w))); [| discriminate].
    now injection Sec3. }
  split; [exact P3 |]. split; [exact H3 |].
  intros o Ho Hlt. apply Old3; [congruence | lia | lia].
Qed.

Lemma passive_mode_opens_data_socket_witness :
  exists p w1 w2 w3,
    let w := final (Client.constructor (Some 5000)) in
    let d := List.length (sockets w) in
    Ftp.enterPassiveMode None w = Return p w1
    /\ written_to w1 0%nat = (written_to w 0%nat ++ [("PASV" ++ Client.CRLF)%string])%list
    /\ Ftp._respond
         (Response (Num 227) "227 Entering Passive Mode (127,0,0,1,10,229)") w1
       = Return tt w2
    /\ option_map dialled (nth_error (sockets w2) d)
       = Some [(Num 2789, "127.0.0.1")]
    /\ nth_error (promises w2) p = Some Pending
    /\ _dataSocket (this w2) = _dataSocket (this w)
    /\ Ftp.emit d ev_connect w2 = Return tt w3
    /\ _dataSocket (this w3) = Some d
    /\ option_map listeners (nth_error (sockets w3) d)
       = Some [error_listener; timeout_listener]
    /\ option_map timeout (nth_error (sockets w3) d) = Some (Some 5000)
    /\ is_secure w3 d = false
    /\ nth_error (promises w3) p = Some (Resolved VUndefined)
    /\ _handler (this w3) = None
    /\ (forall o, _dataSocket (this w) = Some o ->
          (o < List.length (sockets w))%nat ->
          option_map listeners (nth_error (sockets w3) o) = Some []).
Proof.
  refine (passive_mode_opens_data_socket (final (Client.constructor (Some 5000)))
            0%nat None "227 Entering Passive Mode (127,0,0,1,10,229)"
            {| host := "127.0.0.1"; port := Num 2789 |} _ _ _ _ _).
  - reflexivity.
  - cbn. lia.
  - reflexivity.
  - cbn. lia.
  - vm_compute. reflexivity.
Defined.

(** X12: on a TLS control socket the data connection is upgraded: once
    the dialled socket is connected, a new TLS socket is the data socket
    of the client, with the timeout of the client and the error and
    timeout listeners only, and the promise is resolved; the dialled
    socket itself keeps the callback that was registered for its errors
    with [once]. *)
Theorem passive_mode_over_TLS (w : world) (n : sock_id)
    (custom : option (string -> option target)) (message : string) (t : target) :
  _socket (this w) = Some n -> is_secure w n = true ->
  0 <= _timeoutMillis (this w) ->
  match _dataSocket (this w) with
  | Some o => (o < List.length (sockets w))%nat
  | None => True
  end ->
  parser_of custom message = Some t ->
  exists p w1 w2 w3,
    let d := List.length (sockets w) in
    Ftp.enterPassiveMode custom w = Return p w1
    /\ Ftp._respond (Response (Num 227) message) w1 = Return tt w2
    /\ Ftp.emit d ev_connect w2 = Return tt w3
    /\ _dataSocket (this w3) = Some (S d)
    /\ is_secure w3 (S d) = true
    /\ option_map listeners (nth_error (sockets w3) (S d))
       = Some [error_listener; timeout_listener]
    /\ option_map timeout (nth_error (sockets w3) (S d))
       = Some (Some (_timeoutMillis (this w)))
    /\ option_map listeners (nth_error (sockets w3) d)
       = Some [dial_error_listener (Some p)]
    /\ nth_error (promises w3) p = Some (Resolved VUndefined).
Proof.
  intros Hs Hsec Htm Hold Hparse.
  unfold is_secure in Hsec.
  destruct (nth_error (sockets w) n) as [sk|] eqn:Hsk; [| discriminate].
  destruct (passive_dialled w n custom message t Hs Hparse)
    as (w1 & w2 & E1 & S1 & E2 & T2 & S2 & P2). cbv zeta in *.
  destruct (passive_dialled_state w w1 w2 n sk _ t Hs Hsk S1 T2 S2 P2)
    as (Hs2 & Hsk2 & Hd2 & Hp2 & Htm2 & Hds2 & Hlen2).
  assert (Hold2 : _dataSocket (this w2) <> Some (List.length (sockets w))).
  { rewrite Hds2. destruct (_dataSocket (this w)) as [o|]; [| discriminate].
    intros [= ->]. lia. }
  destruct (dial_connected_TLS w2 n (List.length (sockets w))
              (List.length (promises w)) _ _ Hs2 Hsk2 Hsec
              ltac:(rewrite Htm2; exact Htm) Hd2 eq_refl Hp2 Hold2)
    as (w3 & E3 & D3 & H3 & P3 & L3 & T3 & Sec3 & Raw3).
  cbv zeta in *. rewrite Hlen2 in *.
  exists (List.length (promises w)), w1, w2, w3.
  split; [exact E1 |]. split; [exact E2 |]. split; [exact E3 |].
  split; [exact D3 |].
  split.
  { unfold is_secure.
    destruct (nth_error (sockets w3) (S (List.length (sockets w))));
      [| discriminate].
    now injection Sec3. }
  split; [exact L3 |]. split; [now rewrite T3, Htm2 |].
  split; [exact Raw3 | exact P3].
Qed.

Lemma passive_mode_over_TLS_witness :
  exists p w1 w2 w3,
    let d := List.length (sockets tls_client) in
    Ftp.enterPassiveMode None tls_client = Return p w1
    /\ Ftp._respond
         (Response (Num 227) "227 Entering Passive Mode (127,0,0,1,10,229)") w1
       = Return tt w2
    /\ Ftp.emit d ev_connect w2 = Return tt w3
    /\ _dataSocket (this w3) = Some (S d)
    /\ is_secure w3 (S d) = true
    /\ option_map listeners (nth_error (sockets w3) (S d))
       = Some [error_listener; timeout_listener]
    /\ option_map timeout (nth_error (sockets w3) (S d))
       = Some (Some (_timeoutMillis (this tls_client)))
    /\ option_map listeners (nth_error (sockets w3) d)
       = Some [dial_error_listener (Some p)]
    /\ nth_error (promises w3) p = Some (Resolved VUndefined).
Proof.
  refine (passive_mode_over_TLS tls_client 1%nat None
            "227 Entering Passive Mode (127,0,0,1,10,229)"
            {| host := "127.0.0.1"; port := Num 2789 |} _ _ _ _ _).
  - reflexivity.
  - reflexivity.
  - vm_compute. discriminate.
  - exact I.
  - vm_compute. reflexivity.
Defined.

End PassiveFacts.

(* ===================================================================== *)
(** * useTLS, from the call to the TLS control socket                    *)
(* ===================================================================== *)

Module TLSFacts.
Import JS Pasv World WorldFacts Sequencing Cases OperationFacts PassiveFacts.

(** [useTLS] up to the reply 200 or 234: [AUTH TLS] is written and the
    TLS socket is made, with the callback of [tls.connect]. *)
Lemma tls_requested (w : world) (n : sock_id) (options : tls_options)
    (c : Z) (message : string) :
  _socket (this w) = Some n -> c = 200 \/ c = 234 ->
  exists w1 w2,
    let p := List.length (promises w) in
    Ftp.useTLS options w = Return p w1
    /\ sockets w1 = update n (with_write ("AUTH TLS" ++ Client.CRLF)) (sockets w)
    /\ Ftp._respond (Response (Num c) message) w1 = Return tt w2
    /\ this w2 = set_task (Some p)
                   (set_handler (Some (useTLS_handler options)) (this w))
    /\ sockets w2
       = (sockets w1
          ++ [Client.add_listener (secure_connect_listener (Some p) options)
                fresh_tls_socket])%list
    /\ promises w2 = (promises w ++ [Pending])%list.
Proof.
  intros Hs Hc.
  destruct w as [[tm tk hd tls vb so ds] sks prs bufs con pps sus].
  cbn in Hs. subst so. cbv zeta.
  destruct vb, Hc as [-> | ->].
  all: do 2 eexists.
  all: split; [unfold Ftp.useTLS; unfold_monad; cbn; reflexivity |].
  all: split; [reflexivity |].
  all: split;
         [unfold Ftp._respond, Client._respond, Ftp.upgradeSocket; unfold_monad;
          cbn; reflexivity |].
  all: split; [reflexivity |].
  all: split; reflexivity.
Qed.

(** The callback of [tls.connect] when the certificate is accepted: the
    TLS socket becomes the control socket. *)
Lemma secure_connected (w : world) (n s : sock_id) (p : task_id)
    (options : tls_options) (sks : socket)
    (authorized : bool) (err : error_value) (proto : string) :
  _socket (this w) = Some n -> n <> s -> 0 <= _timeoutMillis (this w) ->
  nth_error (sockets w) s = Some sks ->
  listeners sks = [secure_connect_listener (Some p) options] ->
  nth_error (promises w) p = Some Pending ->
  authorized = true \/ rejectUnauthorized options = Some false ->
  exists w',
    Ftp.emit s (ev_secureConnect authorized err proto) w = Return tt w'
    /\ _socket (this w') = Some s
    /\ tlsOptions (this w') = options
    /\ _handler (this w') = None
    /\ _dataSocket (this w') = _dataSocket (this w)
    /\ nth_error (promises w') p = Some (Resolved VUndefined)
    /\ option_map listeners (nth_error (sockets w') s)
       = Some [error_listener; timeout_listener; control_data_listener]
    /\ option_map timeout (nth_error (sockets w') s)
       = Some (Some (_timeoutMillis (this w)))
    /\ option_map keepAlive (nth_error (sockets w') s) = Some true
    /\ option_map protocol (nth_error (sockets w') s) = Some proto
    /\ option_map secure (nth_error (sockets w') s) = Some (secure sks)
    /\ ((n < List.length (sockets w))%nat ->
        option_map listeners (nth_error (sockets w') n) = Some []).
Proof.
  intros Hs Hns Htm Hsk Hls Hp Hacc.
  destruct w as [[tm tk hd tls vb so ds] socks prs bufs con pps sus].
  cbn in Hs, Htm, Hsk, Hp. subst so.
  assert (Hb : match rejectUnauthorized options with
               | Some false => false
               | _ => true
               end && negb authorized = false).
  { destruct Hacc as [-> | ->]; [apply andb_false_r | reflexivity]. }
  assert (Hne : Nat.eqb n s = false) by (apply Nat.eqb_neq; exact Hns).
  assert (Hne' : Nat.eqb s n = false) by (apply Nat.eqb_neq; congruence).
  rewrite CoupledFacts.emit_unfold. cbn [sockets]. rewrite Hsk. cbv zeta.
  rewrite Hls. cbn [filter listens_to].
  unfold Client.on_socket. unfold bind at 1. unfold modify at 1.
  cbn [for_each Ftp.call_listener]. rewrite Hb.
  unfold Client.set_socket, Client._setupSocket.
  unfold_monad. destruct vb; calm.
  all: rewrite setTimeout_sets by exact Htm; calm.
  all: eexists; split; [reflexivity |].
  all: split; [reflexivity |].
  all: split; [reflexivity |].
  all: split; [reflexivity |].
  all: split; [reflexivity |].
  all: split; [calm; find; rewrite Hp; reflexivity |].
  all: split; [calm; find; rewrite Hsk; cbn; rewrite Hls; reflexivity |].
  all: split; [calm; find; rewrite Hsk; reflexivity |].
  all: split; [calm; find; rewrite Hsk; reflexivity |].
  all: split; [calm; find; rewrite Hsk; reflexivity |].
  all: split; [calm; find; rewrite Hsk; reflexivity |].
  all: intros Hlt; calm; find.
  all: destruct (nth_error socks n) as [skn|] eqn:Hskn;
         [reflexivity | apply nth_error_None in Hskn; lia].
Qed.

(** The callback of [tls.connect] when the certificate is refused. *)
Lemma secure_refused (w : world) (s : sock_id) (p : task_id)
    (options : tls_options) (sks : socket) (err : error_value) (proto : string) :
  nth_error (sockets w) s = Some sks ->
  listeners sks = [secure_connect_listener (Some p) options] ->
  nth_error (promises w) p = Some Pending ->
  rejectUnauthorized options <> Some false ->
  exists w',
    Ftp.emit s (ev_secureConnect false err proto) w = Return tt w'
    /\ _socket (this w') = _socket (this w)
    /\ tlsOptions (this w') = tlsOptions (this w)
    /\ _handler (this w') = None
    /\ nth_error (promises w') p = Some (Rejected (VError err))
    /\ (forall i, i <> s -> nth_error (sockets w') i = nth_error (sockets w) i).
Proof.
  intros Hsk Hls Hp Hrej.
  destruct w as [[tm tk hd tls vb so ds] socks prs bufs con pps sus].
  cbn in Hsk, Hp.
  assert (Hb : match rejectUnauthorized options with
               | Some false => false
               | _ => true
               end && negb false = true).
  { destruct (rejectUnauthorized options) as [[|]|]; try reflexivity.
    now contradiction Hrej. }
  rewrite CoupledFacts.emit_unfold. cbn [sockets]. rewrite Hsk. cbv zeta.
  rewrite Hls. cbn [filter listens_to].
  unfold Client.on_socket. unfold bind at 1. unfold modify at 1.
  cbn [for_each Ftp.call_listener]. rewrite Hb.
  unfold_monad. calm.
  eexists; split; [reflexivity |].
  split; [reflexivity |]. split; [reflexivity |]. split; [reflexivity |].
  split; [calm; find; rewrite Hp; reflexivity |].
  intros i Hi. assert (Hne : Nat.eqb s i = false) by (apply Nat.eqb_neq; congruence).
  calm. find. reflexivity.
Qed.

(** X13: [useTLS] writes [AUTH TLS]; on the reply 200 or 234 the
    TLS socket is made while the control socket and the promise stay as
    they are; when the handshake ends with an authorized certificate, or
    with [rejectUnauthorized] set to [false], the TLS socket replaces
    the control socket: it has the timeout of the client, keep-alive and
    the three listeners of a control socket, the socket it replaces has
    lost its listeners, the options are kept for the data connections,
    and the promise is resolved with [undefined]. *)
Theorem useTLS_upgrades_control_socket (w : world) (n : sock_id)
    (options : tls_options) (c : Z) (message : string)
    (authorized : bool) (err : error_value) (proto : string) :
  _socket (this w) = Some n -> (n < List.length (sockets w))%nat ->
  0 <= _timeoutMillis (this w) -> c = 200 \/ c = 234 ->
  authorized = true \/ rejectUnauthorized options = Some false ->
  exists p w1 w2 w3,
    let s := List.length (sockets w) in
    Ftp.useTLS options w = Return p w1
    /\ written_to w1 n
       = (written_to w n ++ [("AUTH TLS" ++ Client.CRLF)%string])%list
    /\ Ftp._respond (Response (Num c) message) w1 = Return tt w2
    /\ _socket (this w2) = Some n
    /\ nth_error (promises w2) p = Some Pending
    /\ Ftp.emit s (ev_secureConnect authorized err proto) w2 = Return tt w3
    /\ _socket (this w3) = Some s
    /\ is_secure w3 s = true
    /\ tlsOptions (this w3) = options
    /\ option_map listeners (nth_error (sockets w3) s)
       = Some [error_listener; timeout_listener; control_data_listener]
    /\ option_map timeout (nth_error (sockets w3) s)
       = Some (Some (_timeoutMillis (this w)))
    /\ option_map keepAlive (nth_error (sockets w3) s) = Some true
    /\ option_map listeners (nth_error (sockets w3) n) = Some []
    /\ nth_error (promises w3) p = Some (Resolved VUndefined)
    /\ _handler (this w3) = None.
Proof.
  intros Hs Hn Htm Hc Hacc.
  destruct (nth_error (sockets w) n) as [sk|] eqn:Hsk;
    [| apply nth_error_None in Hsk; lia].
  destruct (tls_requested w n options c message Hs Hc)
    as (w1 & w2 & E1 & S1 & E2 & T2 & S2 & P2). cbv zeta in *.
  assert (Hs2 : _socket (this w2) = Some n) by (rewrite T2; exact Hs).
  assert (Htm2 : _timeoutMillis (this w2) = _timeoutMillis (this w))
    by (rewrite T2; reflexivity).
  assert (Hd2 : nth_error (sockets w2) (List.length (sockets w))
                = Some (Client.add_listener
                          (secure_connect_listener (Some (List.length (promises w)))
                             options) fresh_tls_socket))
    by (rewrite S2, S1; apply nth_error_new_update).
  assert (Hp2 : nth_error (promises w2) (List.length (promises w)) = Some Pending)
    by (rewrite P2; apply nth_error_new).
  assert (Hlen2 : (n < List.length (sockets w2))%nat)
    by (rewrite S2, S1; sizes; lia).
  destruct (secure_connected w2 n (List.length (sockets w))
              (List.length (promises w)) options _ authorized err proto
              Hs2 ltac:(lia) ltac:(rewrite Htm2; exact Htm) Hd2 eq_refl Hp2 Hacc)
    as (w3 & E3 & So3 & O3 & H3 & D3 & P3 & L3 & T3 & K3 & Pr3 & Sec3 & Old3).
  exists (List.length (promises w)), w1, w2, w3.
  split; [exact E1 |].
  split; [unfold written_to; rewrite S1, nth_error_update, Nat.eqb_refl, Hsk;
          reflexivity |].
  split; [exact E2 |]. split; [exact Hs2 |]. split; [exact Hp2 |].
  split; [exact E3 |]. split; [exact So3 |].
  split.
  { unfold is_secure.
    destruct (nth_error (sockets w3) (List.length (sockets w))); [| discriminate].
    now injection Sec3. }
  split; [exact O3 |]. split; [exact L3 |]. split; [now rewrite T3, Htm2 |].
  split; [exact K3 |]. split; [exact (Old3 Hlen2) |].
  split; [exact P3 | exact H3].
Qed.

Lemma useTLS_upgrades_control_socket_witness :
  exists p w1 w2 w3,
    let w := final (Client.constructor (Some 5000)) in
    let s := List.length (sockets w) in
    Ftp.useTLS {| rejectUnauthorized := Some false |} w = Return p w1
    /\ written_to w1 0%nat
       = (written_to w 0%nat ++ [("AUTH TLS" ++ Client.CRLF)%string])%list
    /\ Ftp._respond (Response (Num 234) "234 Proceed with negotiation") w1
       = Return tt w2
    /\ _socket (this w2) = Some 0%nat
    /\ nth_error (promises w2) p = Some Pending
    /\ Ftp.emit s (ev_secureConnect false (ErrorString "SELF_SIGNED_CERT") "TLSv1.2") w2
       = Return tt w3
    /\ _socket (this w3) = Some s
    /\ is_secure w3 s = true
    /\ tlsOptions (this w3) = {| rejectUnauthorized := Some false |}
    /\ option_map listeners (nth_error (sockets w3) s)
       = Some [error_listener; timeout_listener; control_data_listener]
    /\ option_map timeout (nth_error (sockets w3) s)
       = Some (Some (_timeoutMillis (this w)))
    /\ option_map keepAlive (nth_error (sockets w3) s) = Some true
    /\ option_map listeners (nth_error (sockets w3) 0%nat) = Some []
    /\ nth_error (promises w3) p = Some (Resolved VUndefined)
    /\ _handler (this w3) = None.
Proof.
  refine (useTLS_upgrades_control_socket (final (Client.constructor (Some 5000)))
            0%nat {| rejectUnauthorized := Some false |} 234
            "234 Proceed with negotiation" false
            (ErrorString "SELF_SIGNED_CERT") "TLSv1.2" _ _ _ _ _).
  - reflexivity.
  - cbn. lia.
  - cbn. lia.
  - right. reflexivity.
  - right. reflexivity.
Defined.

(** X14: when the handshake ends without an authorized certificate and
    [rejectUnauthorized] is not [false], the promise of [useTLS] is
    rejected with the authorization error; the control socket of the
    client stays the one it was, with its listeners, and the options of
    the client are not changed. *)
Theorem useTLS_rejects_unauthorized (w : world) (n : sock_id)
    (options : tls_options) (c : Z) (message : string)
    (err : error_value) (proto : string) :
  _socket (this w) = Some n -> (n < List.length (sockets w))%nat ->
  c = 200 \/ c = 234 ->
  rejectUnauthorized options <> Some false ->
  exists p w1 w2 w3,
    let s := List.length (sockets w) in
    Ftp.useTLS options w = Return p w1
    /\ Ftp._respond (Response (Num c) message) w1 = Return tt w2
    /\ Ftp.emit s (ev_secureConnect false err proto) w2 = Return tt w3
    /\ nth_error (promises w3) p = Some (Rejected (VError err))
    /\ _socket (this w3) = Some n
    /\ is_secure w3 n = is_secure w n
    /\ option_map listeners (nth_error (sockets w3) n)
       = option_map listeners (nth_error (sockets w) n)
    /\ tlsOptions (this w3) = tlsOptions (this w)
    /\ _handler (this w3) = None.
Proof.
  intros Hs Hn Hc Hrej.
  destruct (nth_error (sockets w) n) as [sk|] eqn:Hsk;
    [| apply nth_error_None in Hsk; lia].
  destruct (tls_requested w n options c message Hs Hc)
    as (w1 & w2 & E1 & S1 & E2 & T2 & S2 & P2). cbv zeta in *.
  assert (Hd2 : nth_error (sockets w2) (List.length (sockets w))
                = Some (Client.add_listener
                          (secure_connect_listener (Some (List.length (promises w)))
                             options) fresh_tls_socket))
    by (rewrite S2, S1; apply nth_error_new_update).
  assert (Hp2 : nth_error (promises w2) (List.length (promises w)) = Some Pending)
    by (rewrite P2; apply nth_error_new).
  destruct (secure_refused w2 (List.length (sockets w)) (List.length (promises w))
              options _ err proto Hd2 eq_refl Hp2 Hrej)
    as (w3 & E3 & So3 & O3 & H3 & P3 & Same3).
  assert (Hn3 : nth_error (sockets w3) n
                = Some (with_write ("AUTH TLS" ++ Client.CRLF) sk)).
  { rewrite Same3 by lia. rewrite S2, S1. find. now rewrite Hsk. }
  exists (List.length (promises w)), w1, w2, w3.
  split; [exact E1 |]. split; [exact E2 |]. split; [exact E3 |].
  split; [exact P3 |].
  split; [rewrite So3, T2; exact Hs |].
  split; [unfold is_secure; rewrite Hn3, Hsk; reflexivity |].
  split; [rewrite Hn3; reflexivity |].
  split; [rewrite O3, T2; reflexivity | exact H3].
Qed.

Lemma useTLS_rejects_unauthorized_witness :
  exists p w1 w2 w3,
    let w := final (Client.constructor None) in
    let s := List.length (sockets w) in
    Ftp.useTLS {| rejectUnauthorized := None |} w = Return p w1
    /\ Ftp._respond (Response (Num 234) "234 Proceed with negotiation") w1
       = Return tt w2
    /\ Ftp.emit s (ev_secureConnect false (ErrorString "CERT_HAS_EXPIRED") "TLSv1.2") w2
       = Return tt w3
    /\ nth_error (promises w3) p
       = Some (Rejected (VError (ErrorString "CERT_HAS_EXPIRED")))
    /\ _socket (this w3) = Some 0%nat
    /\ is_secure w3 0%nat = is_secure w 0%nat
    /\ option_map listeners (nth_error (sockets w3) 0%nat)
       = option_map listeners (nth_error (sockets w) 0%nat)
    /\ tlsOptions (this w3) = tlsOptions (this w)
    /\ _handler (this w3) = None.
Proof.
  refine (useTLS_rejects_unauthorized (final (Client.constructor None))
            0%nat {| rejectUnauthorized := None |} 234
            "234 Proceed with negotiation"
            (ErrorString "CERT_HAS_EXPIRED") "TLSv1.2" _ _ _ _).
  - reflexivity.
  - cbn. lia.
  - right. reflexivity.
  - discriminate.
Defined.

End TLSFacts.
